(** * Resource lifecycle of the GNS3 Terraform provider

    A shallow embedding of the five resource kinds of the provider
    (cloud, switch, template, Docker container, QEMU virtual machine):
    their Create / Read / Update / Delete callbacks and their importers,
    as written in [resource_docker.go], [resource_qemu_vm.go],
    [resource_templates.go] and the cloud and switch resource files.

    The callbacks mutate a [*schema.ResourceData] and talk to the GNS3
    controller over HTTP.  Both effects are explicit here: a callback is a
    computation in the monad [M], whose state is the resource data together
    with the log of the requests handed to the HTTP client, and whose result
    is either a value or the [error] the Go function returns.  The state
    survives an error, as it does in Go, where [d] is a pointer. *)

From stdpp Require Import base strings gmap list sorting.
From Stdlib Require Import ZArith Ascii.

#[local] Set Warnings "-clear-no-such-hyp".

Local Open Scope Z_scope.
Local Open Scope string_scope.
Local Open Scope list_scope.

(** ** Numbers

    A [float64] that is finite: [mantissa * 2 ^ exponent]. *)
Record float64 := mkFloat64 { mantissa : Z; exponent : Z }.

(** The [float64] nearest to an integer, ties to the even mantissa: what
    [strconv.ParseFloat] makes of a number written as an integer.  Up to
    [2^53] in magnitude every integer is a [float64]; beyond, the low bits
    are rounded away. *)
Definition float64_of_int (n : Z) : float64 :=
  let a := Z.abs n in
  if Z.ltb a (2 ^ 53) then mkFloat64 n 0 else
  let e := Z.log2 a - 52 in
  let q := a / 2 ^ e in
  let r := a mod 2 ^ e in
  let half := 2 ^ (e - 1) in
  let q' := if Z.ltb r half then q
            else if Z.ltb half r then q + 1
            else if Z.even q then q else q + 1 in
  mkFloat64 (Z.sgn n * q') e.

(** Whether an integer fits the 64-bit [int] of Go. *)
Definition fits_int (n : Z) : bool :=
  Z.leb (- 2 ^ 63) n && Z.ltb n (2 ^ 63).

(** [int(f)]: the fraction is cut off, towards zero.  What a conversion
    gives when the value does not fit is left to the implementation by the
    language; on amd64 it is the least [int]. *)
Definition int_of_float64 (f : float64) : Z :=
  let v := if Z.leb 0 (exponent f) then mantissa f * 2 ^ exponent f
           else Z.quot (mantissa f) (2 ^ (- exponent f)) in
  if fits_int v then v else - 2 ^ 63.

(** [f != 0] *)
Definition float64_nonzero (f : float64) : bool :=
  negb (Z.eqb (mantissa f) 0).

(** ** JSON documents

    Request bodies are kept as documents instead of the bytes
    [json.Marshal] prints.  A number is kept as it is written: [JNum] for
    one written as an integer, which is how [json.Marshal] prints an
    [int], and [JFloat] for one written with a fraction or an exponent,
    given by the [float64] it parses to.  The names of an object are
    distinct, and no number is beyond the range of [float64]. *)

#[warnings="-register-all"]
Inductive json :=
  | JNull
  | JBool (b : bool)
  | JNum (n : Z)
  | JFloat (f : float64)
  | JStr (s : string)
  | JArr (l : list json)
  | JObj (m : gmap string json).

(** The members of a document, when it is an object. *)
Definition members (j : json) : gmap string json :=
  match j with JObj m => m | _ => ∅ end.

(** ** Errors

    [fmt.Errorf format args] is kept unrendered: the format string and the
    operands, so that a theorem can say which data an error carries. *)

(** An error value coming out of [net/http], [net/url] or
    [encoding/json]. *)
Definition lib_error := string.

Inductive fmt_arg :=
  | AInt (n : Z)                      (* %d of a status code *)
  | AStr (s : string)                 (* %s of a string or byte slice *)
  | AQuoted (s : string)              (* %q of a string *)
  | AErr (e : lib_error)              (* %s of an error *)
  | AMap (m : gmap string json).      (* %v of a map[string]interface{} *)

Inductive error :=
  | Errorf (format : string) (args : list fmt_arg)  (* fmt.Errorf(...) *)
  | Lib (e : lib_error).                            (* a library error as is *)

Definition error_args (e : error) : list fmt_arg :=
  match e with Errorf _ args => args | Lib _ => [] end.

(** ** The resource data of the plugin SDK

    [d.Get], [d.GetOk], [d.HasChange], [d.Set], [d.Id] and [d.SetId] of
    [schema.ResourceData].  The SDK is not part of the repository; it is
    modelled as the attribute bag with per-field change flags that the
    callbacks see. *)

Inductive value :=
  | VString (s : string)
  | VInt (n : Z)
  | VBool (b : bool)
  | VList (l : list string)
  | VMap (m : gmap string string).

Record ResourceData := mkResourceData {
  rd_id : string;
  rd_attrs : gmap string value;
  rd_changed : gset string
}.

(** [d.Get(key).(string)] and its siblings: the zero value of the type
    when the attribute is unset. *)
Definition GetString (d : ResourceData) (key : string) : string :=
  match rd_attrs d !! key with Some (VString s) => s | _ => "" end.

Definition GetInt (d : ResourceData) (key : string) : Z :=
  match rd_attrs d !! key with Some (VInt n) => n | _ => 0 end.

Definition GetBool (d : ResourceData) (key : string) : bool :=
  match rd_attrs d !! key with Some (VBool b) => b | _ => false end.

Definition GetList (d : ResourceData) (key : string) : list string :=
  match rd_attrs d !! key with Some (VList l) => l | _ => [] end.

Definition GetMap (d : ResourceData) (key : string) : gmap string string :=
  match rd_attrs d !! key with Some (VMap m) => m | _ => ∅ end.

(** [d.GetOk(key)]: the value and whether it is set to a non-zero value. *)
Definition GetOkString (d : ResourceData) (key : string) : string * bool :=
  let v := GetString d key in (v, negb (String.eqb v "")).

Definition GetOkInt (d : ResourceData) (key : string) : Z * bool :=
  let v := GetInt d key in (v, negb (Z.eqb v 0)).

Definition GetOkList (d : ResourceData) (key : string) : list string * bool :=
  let v := GetList d key in (v, negb (bool_decide (v = []))).

Definition GetOkMap (d : ResourceData) (key : string)
  : gmap string string * bool :=
  let v := GetMap d key in (v, negb (bool_decide (size v = 0%nat))).

Definition HasChange (d : ResourceData) (key : string) : bool :=
  bool_decide (key ∈ rd_changed d).

(** ** HTTP exchanges *)

Record ProviderConfig := mkProviderConfig { Host : string }.

Record Request := mkRequest {
  req_method : string;
  req_url : string;
  req_content_type : option string;
  req_body : option json
}.

Record Response := mkResponse {
  StatusCode : Z;
  Body : string
}.

Definition StatusOK : Z := 200.
Definition StatusCreated : Z := 201.
Definition StatusNoContent : Z := 204.
Definition StatusNotFound : Z := 404.

(** What the callbacks run against: [net/url] (a request cannot be built
    for a malformed URL), the controller behind the HTTP client (its answer
    may depend on the requests it has seen), and the JSON parser.  Two
    orders that the documents and maps here do not hold come with it: the
    order in which the members of an object stand in a body
    ([member_before]), and the order in which a [range] visits the keys of
    a Go map in this run ([range_before]), which Go leaves unspecified. *)
Record World := mkWorld {
  url_error : string → option lib_error;
  round_trip : list Request → Request → lib_error + Response;
  json_parse : string → option json;
  member_before : string → string → bool;
  range_before : string → string → bool
}.

(** The entries of a map in the order given by [before] on their keys: a
    permutation of the entries, whatever [before] is. *)
Definition comes_before {A} (before : string → string → bool)
  : relation (string * A) :=
  λ x y, before x.1 y.1 = true.

#[global] Instance comes_before_dec {A} before (x y : string * A) :
  Decision (comes_before before x y).
Proof. unfold comes_before. apply _. Defined.

Definition in_order {A} (before : string → string → bool)
    (m : gmap string A) : list (string * A) :=
  merge_sort (comes_before before) (map_to_list m).

(** ** The monad of the callbacks *)

Record State := mkState {
  st_d : ResourceData;
  st_trace : list Request
}.

Inductive outcome (A : Type) :=
  | Done (a : A)
  | Failed (e : error).
Arguments Done {A} a.
Arguments Failed {A} e.

Definition M (A : Type) : Type := State → outcome A * State.

#[global] Instance M_ret : MRet M := λ A a s, (Done a, s).

#[global] Instance M_bind : MBind M := λ A B f m s,
  match m s with
  | (Done a, s') => f a s'
  | (Failed e, s') => (Failed e, s')
  end.

(** [return fmt.Errorf(...)] *)
Definition fail {A} (e : error) : M A := λ s, (Failed e, s).

(** The resource data as it is now. *)
Definition self : M ResourceData := λ s, (Done (st_d s), s).

Definition Id : M string := λ s, (Done (rd_id (st_d s)), s).

Definition SetId (v : string) : M unit := λ s,
  (Done (),
   mkState (mkResourceData v (rd_attrs (st_d s)) (rd_changed (st_d s)))
           (st_trace s)).

(** [d.Set(key, v)] for a key and type of the schema; the error it returns
    is nil then. *)
Definition Set_ (key : string) (v : value) : M (option lib_error) := λ s,
  (Done None,
   mkState (mkResourceData (rd_id (st_d s)) (<[key := v]> (rd_attrs (st_d s)))
                           (rd_changed (st_d s)))
           (st_trace s)).

(** [d.Set(key, nil)] resets the attribute. *)
Definition Set_nil (key : string) : M (option lib_error) := λ s,
  (Done None,
   mkState (mkResourceData (rd_id (st_d s)) (delete key (rd_attrs (st_d s)))
                           (rd_changed (st_d s)))
           (st_trace s)).

(** [x, err := call; if err != nil { return wrap(err) }] *)
Definition check {A} (call : M (lib_error + A)) (wrap : lib_error → error)
  : M A :=
  r ← call;
  match r with
  | inl err => fail (wrap err)
  | inr x => mret x
  end.

Section Client.
Variable w : World.

(** [http.NewRequest(method, url, body)] *)
Definition http_NewRequest (method url : string) (body : option json)
  : M (lib_error + Request) := λ s,
  match url_error w url with
  | Some err => (Done (inl err), s)
  | None => (Done (inr (mkRequest method url None body)), s)
  end.

(** [req.Header.Set("Content-Type", v)] *)
Definition Header_Set_ContentType (req : Request) (v : string) : Request :=
  mkRequest (req_method req) (req_url req) (Some v) (req_body req).

(** [client.Do(req)]: the request goes out and is logged. *)
Definition client_Do (req : Request) : M (lib_error + Response) := λ s,
  (Done (round_trip w (st_trace s) req),
   mkState (st_d s) (st_trace s ++ [req])).

(** [http.Get(url)] *)
Definition http_Get (url : string) : M (lib_error + Response) :=
  r ← http_NewRequest "GET" url None;
  match r with
  | inl err => mret (inl err)
  | inr req => client_Do req
  end.

(** [http.Post(url, contentType, body)] *)
Definition http_Post (url contentType : string) (body : option json)
  : M (lib_error + Response) :=
  r ← http_NewRequest "POST" url body;
  match r with
  | inl err => mret (inl err)
  | inr req => client_Do (Header_Set_ContentType req contentType)
  end.

(** Decoding a body into a [map[string]interface{}]: a JSON object, or
    [null], which leaves the map nil. *)
Definition decode_map (body : string) : lib_error + gmap string json :=
  match json_parse w body with
  | Some (JObj m) => inr m
  | Some JNull => inr ∅
  | Some _ => inl "json: cannot unmarshal into Go value of type map[string]interface {}"
  | None => inl "invalid character"
  end.

(** [_ = json.NewDecoder(resp.Body).Decode(&errResp)]: the map stays nil
    when decoding fails. *)
Definition decode_map_lenient (body : string) : gmap string json :=
  match decode_map body with inr m => m | inl _ => ∅ end.
End Client.

(** Running a callback on a resource, from an empty request log. *)
Definition run {A} (m : M A) (d : ResourceData) : outcome A * State :=
  m (mkState d []).

Definition returned_error {A} (r : outcome A * State) : option error :=
  match r.1 with Done _ => None | Failed e => Some e end.

Definition final_id {A} (r : outcome A * State) : string := rd_id (st_d r.2).

Definition requests {A} (r : outcome A * State) : list Request := st_trace r.2.

(** ** Strings *)

(** Cutting a string at the first occurrence of a separator byte. *)
Fixpoint cut (sep : ascii) (s : string) : option (string * string) :=
  match s with
  | EmptyString => None
  | String c rest =>
      if Ascii.eqb c sep then Some (EmptyString, rest)
      else match cut sep rest with
           | Some (before, after) => Some (String c before, after)
           | None => None
           end
  end.

(** [strings.Contains(s, sep)] for a one-byte separator. *)
Definition strings_Contains (s : string) (sep : ascii) : bool :=
  match cut sep s with Some _ => true | None => false end.

(** [strings.SplitN(s, sep, 2)] for a one-byte separator. *)
Definition strings_SplitN2 (s : string) (sep : ascii) : list string :=
  match cut sep s with
  | Some (before, after) => [before; after]
  | None => [s]
  end.

(** [strings.Join(l, sep)] *)
Fixpoint strings_Join (l : list string) (sep : string) : string :=
  match l with
  | [] => ""
  | [x] => x
  | x :: rest => x +:+ sep +:+ strings_Join rest sep
  end.

(** ** Marshalling helpers: struct tags *)

(** A field tagged [omitempty] is left out when it holds its zero value. *)
Definition put_string_omitempty (key s : string) (m : gmap string json)
  : gmap string json :=
  if String.eqb s "" then m else <[key := JStr s]> m.

Definition put_int_omitempty (key : string) (n : Z) (m : gmap string json)
  : gmap string json :=
  if Z.eqb n 0 then m else <[key := JNum n]> m.

(** A [*string] field tagged [omitempty] is left out when the pointer is
    nil, and only then. *)
Definition put_ptr_omitempty (key : string) (p : option string)
    (m : gmap string json) : gmap string json :=
  match p with None => m | Some s => <[key := JStr s]> m end.

Definition put_list_omitempty (key : string) (l : list string)
    (m : gmap string json) : gmap string json :=
  match l with [] => m | _ => <[key := JArr (JStr <$> l)]> m end.

(** ** Unmarshalling into a struct

    [json.Unmarshal] reads a member of an object into the field whose tag
    is the name of the member, or equals it under Unicode case folding:
    the letters of either case and, for [s] and [k], the long s (U+017F)
    and the Kelvin sign (U+212A) in their UTF-8 encoding. *)
Definition lower (c : ascii) : ascii :=
  let n := nat_of_ascii c in
  if Nat.leb 65 n && Nat.leb n 90 then ascii_of_nat (n + 32) else c.

Fixpoint fold_name (s : string) : string :=
  match s with
  | EmptyString => EmptyString
  | String c rest =>
      match rest with
      | EmptyString => String (lower c) EmptyString
      | String c1 rest1 =>
          if Ascii.eqb c "197" && Ascii.eqb c1 "191"
          then String "s" (fold_name rest1)
          else
            match rest1 with
            | EmptyString => String (lower c) (fold_name rest)
            | String c2 rest2 =>
                if Ascii.eqb c "226" && Ascii.eqb c1 "132"
                   && Ascii.eqb c2 "170"
                then String "k" (fold_name rest2)
                else String (lower c) (fold_name rest)
            end
      end
  end.

(** The types of the fields of the structs. *)
Inductive field_type :=
  | TString              (* string *)
  | TInt                 (* int *)
  | TStringPtr           (* *string *)
  | TStringSlice         (* []string *)
  | TDockerProperties.   (* DockerProperties *)

(** The field a member goes to: the one tagged with its name, else the
    one whose tag equals the name under case folding.  The tags are in
    lower case. *)
Fixpoint tagged (fields : list (string * field_type)) (name : string)
  : option field_type :=
  match fields with
  | [] => None
  | (tag, t) :: rest => if String.eqb tag name then Some t else tagged rest name
  end.

Definition struct_field (fields : list (string * field_type))
    (name : string) : option field_type :=
  match tagged fields name with
  | Some t => Some t
  | None => tagged fields (fold_name name)
  end.

(** Whether a value can be read into a field.  [null] is read into every
    field; a string field takes a string, an [int] field a number written
    as an integer that fits [int], a slice of strings an array of strings
    and [null]s.  Anything else is an [UnmarshalTypeError]. *)
Definition string_or_null (j : json) : bool :=
  match j with JStr _ | JNull => true | _ => false end.

Definition field_takes (t : field_type) (v : json) : bool :=
  match v, t with
  | JNull, _ => true
  | JStr _, (TString | TStringPtr) => true
  | JNum n, TInt => fits_int n
  | JArr l, TStringSlice => forallb string_or_null l
  | _, _ => false
  end.

(** Every member of the object that goes to a field can be read into it;
    the members that go to no field are skipped. *)
Definition member_fits (fields : list (string * field_type))
    (takes : field_type → json → bool) (name : string) (v : json) : Prop :=
  match struct_field fields name with
  | Some t => takes t v = true
  | None => True
  end.

#[global] Instance member_fits_dec fields takes name v :
  Decision (member_fits fields takes name v).
Proof. unfold member_fits. destruct (struct_field fields name); apply _. Defined.

Definition members_fit (fields : list (string * field_type))
    (takes : field_type → json → bool) (m : gmap string json) : bool :=
  bool_decide (map_Forall (member_fits fields takes) m).

(** ** Cloud nodes *)

(** [type Cloud struct] *)
Record Cloud := mkCloud {
  Cloud_Name : string;        (* json:"name" *)
  Cloud_NodeType : string;    (* json:"node_type" *)
  Cloud_ComputeID : string;   (* json:"compute_id,omitempty" *)
  Cloud_NodeID : string;      (* json:"node_id,omitempty" *)
  Cloud_X : Z;                (* json:"x,omitempty" *)
  Cloud_Y : Z;                (* json:"y,omitempty" *)
  Cloud_Symbol : string       (* json:"symbol,omitempty" *)
}.

Definition marshal_Cloud (c : Cloud) : json :=
  JObj (put_string_omitempty "symbol" (Cloud_Symbol c)
       (put_int_omitempty "y" (Cloud_Y c)
       (put_int_omitempty "x" (Cloud_X c)
       (put_string_omitempty "node_id" (Cloud_NodeID c)
       (put_string_omitempty "compute_id" (Cloud_ComputeID c)
       (<["node_type" := JStr (Cloud_NodeType c)]>
       (<["name" := JStr (Cloud_Name c)]> ∅))))))).

(** The tags of [Cloud]. *)
Definition Cloud_fields : list (string * field_type) :=
  [ ("name", TString); ("node_type", TString); ("compute_id", TString);
    ("node_id", TString); ("x", TInt); ("y", TInt); ("symbol", TString) ].

(** ** Switch nodes *)

(** [type Switch struct] *)
Record Switch := mkSwitch {
  Switch_Name : string;        (* json:"name" *)
  Switch_NodeType : string;    (* json:"node_type" *)
  Switch_ComputeID : string;   (* json:"compute_id,omitempty" *)
  Switch_NodeID : string;      (* json:"node_id,omitempty" *)
  Switch_X : Z;                (* json:"x,omitempty" *)
  Switch_Y : Z;                (* json:"y,omitempty" *)
  Switch_Symbol : string       (* json:"symbol,omitempty" *)
}.

Definition marshal_Switch (c : Switch) : json :=
  JObj (put_string_omitempty "symbol" (Switch_Symbol c)
       (put_int_omitempty "y" (Switch_Y c)
       (put_int_omitempty "x" (Switch_X c)
       (put_string_omitempty "node_id" (Switch_NodeID c)
       (put_string_omitempty "compute_id" (Switch_ComputeID c)
       (<["node_type" := JStr (Switch_NodeType c)]>
       (<["name" := JStr (Switch_Name c)]> ∅))))))).

(** The tags of [Switch]. *)
Definition Switch_fields : list (string * field_type) :=
  [ ("name", TString); ("node_type", TString); ("compute_id", TString);
    ("node_id", TString); ("x", TInt); ("y", TInt); ("symbol", TString) ].

(** ** Docker nodes *)

(** [type DockerProperties struct] *)
Record DockerProperties := mkDockerProperties {
  Image : string;                  (* json:"image" *)
  Environment : option string;     (* *string, json:"environment,omitempty" *)
  ConsoleType : string;            (* json:"console_type" *)
  ExtraVolumes : list string;      (* json:"extra_volumes,omitempty" *)
  StartCommand : option string     (* *string, json:"start_command,omitempty" *)
}.

(** [type DockerNode struct] *)
Record DockerNode := mkDockerNode {
  Docker_Name : string;                 (* json:"name" *)
  Docker_NodeType : string;             (* json:"node_type" *)
  Docker_ComputeID : string;            (* json:"compute_id,omitempty" *)
  Docker_Properties : DockerProperties; (* json:"properties" *)
  Docker_NodeID : string;               (* json:"node_id,omitempty" *)
  Docker_X : Z;                         (* json:"x,omitempty" *)
  Docker_Y : Z                          (* json:"y,omitempty" *)
}.

Definition marshal_DockerProperties (p : DockerProperties) : json :=
  JObj (put_ptr_omitempty "start_command" (StartCommand p)
       (put_list_omitempty "extra_volumes" (ExtraVolumes p)
       (<["console_type" := JStr (ConsoleType p)]>
       (put_ptr_omitempty "environment" (Environment p)
       (<["image" := JStr (Image p)]> ∅))))).

Definition marshal_DockerNode (n : DockerNode) : json :=
  JObj (put_int_omitempty "y" (Docker_Y n)
       (put_int_omitempty "x" (Docker_X n)
       (put_string_omitempty "node_id" (Docker_NodeID n)
       (<["properties" := marshal_DockerProperties (Docker_Properties n)]>
       (put_string_omitempty "compute_id" (Docker_ComputeID n)
       (<["node_type" := JStr (Docker_NodeType n)]>
       (<["name" := JStr (Docker_Name n)]> ∅))))))).

(** The tags of [DockerProperties] and of [DockerNode]. *)
Definition DockerProperties_fields : list (string * field_type) :=
  [ ("image", TString); ("environment", TStringPtr);
    ("console_type", TString); ("extra_volumes", TStringSlice);
    ("start_command", TStringPtr) ].

Definition DockerNode_fields : list (string * field_type) :=
  [ ("name", TString); ("node_type", TString); ("compute_id", TString);
    ("properties", TDockerProperties); ("node_id", TString); ("x", TInt);
    ("y", TInt) ].

(** A field of type [DockerProperties] takes an object whose members can
    be read into the fields of that struct. *)
Definition node_field_takes (t : field_type) (v : json) : bool :=
  match t, v with
  | TDockerProperties, JNull => true
  | TDockerProperties, JObj m =>
      members_fit DockerProperties_fields field_takes m
  | TDockerProperties, _ => false
  | _, _ => field_takes t v
  end.

(** ** The node a Create reads back

    Of the struct that the answer to a creation request is unmarshalled
    into, the callbacks read [NodeID] and nothing else. *)
Record CreatedNode := mkCreatedNode { NodeID : string }.

(** The members of an object are read in the order in which they stand in
    the body, so that of several members that go to one field (names that
    differ in case) the last one counts; a [null] leaves a string as it
    is. *)
Definition last_string (before : string → string → bool)
    (m : gmap string json) (tag : string) : string :=
  foldl (λ old kv, match kv.2 with JStr s => s | _ => old end) ""
        (in_order before
           (filter (λ kv : string * json, fold_name kv.1 = tag) m)).

(** [json.Unmarshal] into a struct with the given fields, as far as
    [NodeID], tagged [node_id], goes.  [null] leaves the struct as it is;
    a member that cannot be read into its field makes it return an
    error. *)
Definition unmarshal_node (before : string → string → bool)
    (fields : list (string * field_type)) (j : json)
  : lib_error + CreatedNode :=
  match j with
  | JNull => inr (mkCreatedNode "")
  | JObj m =>
      if members_fit fields node_field_takes m
      then inr (mkCreatedNode (last_string before m "node_id"))
      else inl "json: cannot unmarshal into Go struct field"
  | _ => inl "json: cannot unmarshal into Go value of struct type"
  end.

(** [fmt.Sprintf("%s=%s", key, value)] of each entry. *)
Definition environment_pairs (l : list (string * string)) : list string :=
  (λ kv : string * string, kv.1 +:+ "=" +:+ kv.2) <$> l.

(** The environment map as one string of comma-separated [key=value]
    pairs, in the order in which [range] visits the map. *)
Definition format_environment (before : string → string → bool)
    (envVars : gmap string string) : string :=
  let envList := environment_pairs (in_order before envVars) in
  strings_Join envList ",".

(** ** Type assertions on decoded documents

    [v, ok := m[key].(string)] and its siblings on a
    [map[string]interface{}]. *)
Definition as_string (j : option json) : string * bool :=
  match j with Some (JStr s) => (s, true) | _ => ("", false) end.

(** A number decoded into an [interface{}] is a [float64]. *)
Definition as_float64 (j : option json) : float64 * bool :=
  match j with
  | Some (JNum n) => (float64_of_int n, true)
  | Some (JFloat f) => (f, true)
  | _ => (mkFloat64 0 0, false)
  end.

Definition as_map (j : option json) : gmap string json * bool :=
  match j with Some (JObj m) => (m, true) | _ => (∅, false) end.

(** Reading a body into a [map[string]interface{}]. *)
Definition unmarshal_map (j : json) : lib_error + gmap string json :=
  match j with
  | JObj m => inr m
  | JNull => inr ∅
  | _ => inl "json: cannot unmarshal into Go value of type map[string]interface {}"
  end.

(** [d.Set(key, v)] of a decoded member into a string attribute: nil
    removes the value, a string is stored, anything else is refused and
    the attribute keeps its value. *)
Definition Set_string_member (key : string) (j : option json)
  : M (option lib_error) :=
  match j with
  | None | Some JNull => Set_nil key
  | Some (JStr s) => Set_ key (VString s)
  | Some _ => mret (Some "expected type 'string', got unconvertible type")
  end.

(** [if cond { m[key] = v }] *)
Definition assign_if (cond : bool) (key : string) (v : json)
    (m : gmap string json) : gmap string json :=
  if cond then <[key := v]> m else m.

(** ** The callbacks *)

Section Resources.
Variable w : World.

(** [json.NewDecoder(resp.Body).Decode(&v)] and [json.Unmarshal(body, &v)]:
    the body is parsed, then read into the Go value. *)
Definition decode {A} (unmarshal : json → lib_error + A) (body : string)
  : M (lib_error + A) :=
  mret (match json_parse w body with
        | Some j => unmarshal j
        | None => inl "invalid character"
        end).

(** *** Cloud *)

Definition resourceGns3CloudCreate (meta : ProviderConfig) : M unit :=
  d ← self;
  let host := Host meta in
  let projectID := GetString d "project_id" in
  let name := GetString d "name" in
  let computeID := GetString d "compute_id" in
  let x := GetInt d "x" in
  let y := GetInt d "y" in
  let symbol := GetString d "symbol" in
  let cloud := mkCloud name "cloud" computeID "" x y symbol in
  (* json.Marshal does not fail on a Cloud *)
  let data := marshal_Cloud cloud in
  let url := host +:+ "/v2/projects/" +:+ projectID +:+ "/nodes" in
  resp ← check (http_Post w url "application/json" (Some data))
    (λ err, Errorf "error creating GNS3 cloud node: %s" [AErr err]);
  if decide (StatusCode resp ≠ StatusCreated) then
    let errResp := decode_map_lenient w (Body resp) in
    fail (Errorf "failed to create cloud node, status code: %d, error: %v"
                 [AInt (StatusCode resp); AMap errResp])
  else
  createdCloud ← check
    (decode (unmarshal_node (member_before w) Cloud_fields) (Body resp))
    (λ err, Errorf "failed to decode cloud node response: %s" [AErr err]);
  if decide (NodeID createdCloud = "") then
    fail (Errorf "failed to retrieve node_id from GNS3 API response" [])
  else
  SetId (NodeID createdCloud);;
  Set_ "cloud_id" (VString (NodeID createdCloud));;
  mret ().

Definition resourceGns3CloudRead (meta : ProviderConfig) : M unit :=
  d ← self;
  let host := Host meta in
  let projectID := GetString d "project_id" in
  nodeID ← Id;
  let url := host +:+ "/v2/projects/" +:+ projectID +:+ "/nodes/" +:+ nodeID in
  resp ← check (http_Get w url)
    (λ err, Errorf "error reading cloud node: %s" [AErr err]);
  if decide (StatusCode resp = StatusNotFound) then
    (* Node no longer exists in GNS3: mark resource as gone *)
    SetId ""
  else
  if decide (StatusCode resp ≠ StatusOK) then
    let body := Body resp in
    fail (Errorf "unexpected read status %d: %s"
                 [AInt (StatusCode resp); AStr body])
  else
  mret ().

Definition resourceGns3CloudUpdate (meta : ProviderConfig) : M unit :=
  d ← self;
  let host := Host meta in
  let projectID := GetString d "project_id" in
  cloudID ← Id;
  let updateData : gmap string json := ∅ in
  let updateData :=
    assign_if (HasChange d "name") "name"
              (JStr (GetString d "name")) updateData in
  let updateData :=
    assign_if (HasChange d "compute_id") "compute_id"
              (JStr (GetString d "compute_id")) updateData in
  let updateData :=
    assign_if (HasChange d "x") "x"
              (JNum (GetInt d "x")) updateData in
  let updateData :=
    assign_if (HasChange d "y") "y"
              (JNum (GetInt d "y")) updateData in
  let updateData :=
    assign_if (HasChange d "symbol") "symbol"
              (JStr (GetString d "symbol")) updateData in
  if decide (size updateData = 0%nat) then mret () else
  let updateBody := JObj updateData in
  let url := host +:+ "/v2/projects/" +:+ projectID +:+ "/nodes/" +:+ cloudID in
  req ← check (http_NewRequest w "PUT" url (Some updateBody))
    (λ err, Errorf "failed to create update request: %s" [AErr err]);
  let req := Header_Set_ContentType req "application/json" in
  resp ← check (client_Do w req)
    (λ err, Errorf "error updating GNS3 cloud node: %s" [AErr err]);
  if decide (StatusCode resp ≠ StatusOK) then
    let bodyBytes := Body resp in
    fail (Errorf "failed to update cloud node, status code: %d, response: %s"
                 [AInt (StatusCode resp); AStr bodyBytes])
  else
  resourceGns3CloudRead meta.

Definition resourceGns3CloudDelete (meta : ProviderConfig) : M unit :=
  d ← self;
  let host := Host meta in
  let projectID := GetString d "project_id" in
  nodeID ← Id;
  let url := host +:+ "/v2/projects/" +:+ projectID +:+ "/nodes/" +:+ nodeID in
  req ← check (http_NewRequest w "DELETE" url None)
    (λ err, Errorf "failed to create delete request for cloud node: %s"
                   [AErr err]);
  resp ← check (client_Do w req)
    (λ err, Errorf "failed to delete cloud node: %s" [AErr err]);
  if decide (StatusCode resp ≠ StatusNoContent) then
    fail (Errorf "failed to delete cloud node, status code: %d"
                 [AInt (StatusCode resp)])
  else
  SetId "".

(** *** Switch *)

Definition resourceGns3SwitchCreate (meta : ProviderConfig) : M unit :=
  d ← self;
  let host := Host meta in
  let projectID := GetString d "project_id" in
  let name := GetString d "name" in
  let computeID := GetString d "compute_id" in
  let x := GetInt d "x" in
  let y := GetInt d "y" in
  let symbol := GetString d "symbol" in
  let sw := mkSwitch name "ethernet_switch" computeID "" x y symbol in
  (* json.Marshal does not fail on a Switch *)
  let data := marshal_Switch sw in
  let url := host +:+ "/v2/projects/" +:+ projectID +:+ "/nodes" in
  resp ← check (http_Post w url "application/json" (Some data))
    (λ err, Errorf "error creating GNS3 switch: %s" [AErr err]);
  if decide (StatusCode resp ≠ StatusCreated) then
    let errResp := decode_map_lenient w (Body resp) in
    fail (Errorf "failed to create switch, status code: %d, error: %v"
                 [AInt (StatusCode resp); AMap errResp])
  else
  createdSwitch ← check
    (decode (unmarshal_node (member_before w) Switch_fields) (Body resp))
    (λ err, Errorf "failed to decode switch response: %s" [AErr err]);
  if decide (NodeID createdSwitch = "") then
    fail (Errorf "failed to retrieve node_id from GNS3 API response" [])
  else
  SetId (NodeID createdSwitch);;
  Set_ "switch_id" (VString (NodeID createdSwitch));;
  mret ().

Definition resourceGns3SwitchRead (meta : ProviderConfig) : M unit :=
  d ← self;
  let host := Host meta in
  let projectID := GetString d "project_id" in
  nodeID ← Id;
  let url := host +:+ "/v2/projects/" +:+ projectID +:+ "/nodes/" +:+ nodeID in
  resp ← check (http_Get w url)
    (λ err, Errorf "failed to read switch node: %s" [AErr err]);
  if decide (StatusCode resp = StatusNotFound) then
    (* Node no longer exists *)
    SetId ""
  else
  if decide (StatusCode resp ≠ StatusOK) then
    let body := Body resp in
    fail (Errorf "failed to read switch node, status code: %d, body: %s"
                 [AInt (StatusCode resp); AStr body])
  else
  mret ().

Definition resourceGns3SwitchUpdate (meta : ProviderConfig) : M unit :=
  d ← self;
  let host := Host meta in
  let projectID := GetString d "project_id" in
  switchID ← Id;
  let updateData : gmap string json := ∅ in
  let updateData :=
    assign_if (HasChange d "name") "name"
              (JStr (GetString d "name")) updateData in
  let updateData :=
    assign_if (HasChange d "compute_id") "compute_id"
              (JStr (GetString d "compute_id")) updateData in
  let updateData :=
    assign_if (HasChange d "x") "x"
              (JNum (GetInt d "x")) updateData in
  let updateData :=
    assign_if (HasChange d "y") "y"
              (JNum (GetInt d "y")) updateData in
  if decide (size updateData = 0%nat) then mret () else
  let updateBody := JObj updateData in
  let url := host +:+ "/v2/projects/" +:+ projectID +:+ "/nodes/" +:+ switchID in
  req ← check (http_NewRequest w "PUT" url (Some updateBody))
    (λ err, Errorf "failed to create update request: %s" [AErr err]);
  let req := Header_Set_ContentType req "application/json" in
  resp ← check (client_Do w req)
    (λ err, Errorf "error updating GNS3 switch node: %s" [AErr err]);
  if decide (StatusCode resp ≠ StatusOK) then
    let bodyBytes := Body resp in
    fail (Errorf "failed to update switch node, status code: %d, response: %s"
                 [AInt (StatusCode resp); AStr bodyBytes])
  else
  resourceGns3SwitchRead meta.

Definition resourceGns3SwitchDelete (meta : ProviderConfig) : M unit :=
  d ← self;
  let host := Host meta in
  let projectID := GetString d "project_id" in
  nodeID ← Id;
  let url := host +:+ "/v2/projects/" +:+ projectID +:+ "/nodes/" +:+ nodeID in
  req ← check (http_NewRequest w "DELETE" url None)
    (λ err, Errorf "failed to create delete request for switch: %s" [AErr err]);
  resp ← check (client_Do w req)
    (λ err, Errorf "failed to delete switch: %s" [AErr err]);
  if decide (StatusCode resp ≠ StatusNoContent) then
    fail (Errorf "failed to delete switch, status code: %d"
                 [AInt (StatusCode resp)])
  else
  SetId "".

(** *** Docker *)

Definition resourceGns3DockerRead (meta : ProviderConfig) : M unit :=
  d ← self;
  let host := Host meta in
  let projectID := GetString d "project_id" in
  nodeID ← Id;
  let url := host +:+ "/v2/projects/" +:+ projectID +:+ "/nodes/" +:+ nodeID in
  resp ← check (http_Get w url)
    (λ err, Errorf "failed to retrieve Docker node: %s" [AErr err]);
  if decide (StatusCode resp = StatusNotFound) then SetId "" else
  if decide (StatusCode resp ≠ StatusOK) then
    fail (Errorf "failed to read Docker node, status code: %d"
                 [AInt (StatusCode resp)])
  else
  mret ().

Definition resourceGns3DockerCreate (meta : ProviderConfig) : M unit :=
  d ← self;
  let host := Host meta in
  let projectID := GetString d "project_id" in
  let name := GetString d "name" in
  let computeID := GetString d "compute_id" in
  let image := GetString d "image" in
  let x := GetInt d "x" in
  let y := GetInt d "y" in
  (* environment map as one comma-separated string *)
  let envStr : option string :=
    let '(envVars, ok) := GetOkMap d "environment" in
    if ok then Some (format_environment (range_before w) envVars) else None in
  let extraVolumes : list string :=
    let '(v, ok) := GetOkList d "extra_volumes" in
    if ok then v else [] in
  let startCommand : option string :=
    let '(cmd, ok) := GetOkString d "start_command" in
    if ok then Some cmd else None in
  let dockerNode :=
    mkDockerNode name "docker" computeID
      (mkDockerProperties image envStr "none" extraVolumes startCommand)
      "" x y in
  (* json.Marshal does not fail on a DockerNode *)
  let data := marshal_DockerNode dockerNode in
  let url := host +:+ "/v2/projects/" +:+ projectID +:+ "/nodes" in
  req ← check (http_NewRequest w "POST" url (Some data))
    (λ err, Errorf "failed to create request: %s" [AErr err]);
  let req := Header_Set_ContentType req "application/json" in
  resp ← check (client_Do w req)
    (λ err, Errorf "failed to send request: %s" [AErr err]);
  let body := Body resp in
  if decide (StatusCode resp ≠ StatusCreated) then
    fail (Errorf "failed to create Docker node, status code: %d, response: %s"
                 [AInt (StatusCode resp); AStr body])
  else
  createdDocker ← check
    (decode (unmarshal_node (member_before w) DockerNode_fields) body)
    (λ err, Errorf "failed to decode Docker node response: %s" [AErr err]);
  if decide (NodeID createdDocker = "") then
    fail (Errorf "failed to retrieve node_id from GNS3 API response" [])
  else
  (* Save ID *)
  SetId (NodeID createdDocker);;
  Set_ "docker_id" (VString (NodeID createdDocker));;
  (* Optionally start the container *)
  d ← self;
  if GetBool d "start" then
    let startURL := host +:+ "/v2/projects/" +:+ projectID +:+ "/nodes/"
                         +:+ NodeID createdDocker +:+ "/start" in
    startReq ← check (http_NewRequest w "POST" startURL None)
      (λ err, Errorf "failed to build start request: %s" [AErr err]);
    startResp ← check (client_Do w startReq)
      (λ err, Errorf "failed to start docker node: %s" [AErr err]);
    if decide (StatusCode startResp ≠ StatusOK) then
      let startBody := Body startResp in
      fail (Errorf
              "failed to start docker node, status code: %d, response: %s"
              [AInt (StatusCode startResp); AStr startBody])
    else mret ()
  else
  mret ().

Definition resourceGns3DockerUpdate (meta : ProviderConfig) : M unit :=
  d ← self;
  let host := Host meta in
  let projectID := GetString d "project_id" in
  nodeID ← Id;
  (* Build the updated payload. *)
  let updateData : gmap string json := ∅ in
  let updateData :=
    let envVars := GetMap d "environment" in
    let envFormatted := format_environment (range_before w) envVars in
    assign_if (HasChange d "environment") "environment" (JStr envFormatted)
              updateData in
  (* Image is ForceNew so it is not updated; extra_volumes, x and y are
     not updated either. *)
  let data := JObj updateData in
  let url := host +:+ "/v2/projects/" +:+ projectID +:+ "/nodes/" +:+ nodeID in
  req ← check (http_NewRequest w "PUT" url (Some data))
    (λ err, Errorf "failed to create update request: %s" [AErr err]);
  let req := Header_Set_ContentType req "application/json" in
  resp ← check (client_Do w req)
    (λ err, Errorf "failed to update Docker node: %s" [AErr err]);
  if decide (StatusCode resp ≠ StatusOK) then
    let body := Body resp in
    fail (Errorf "failed to update Docker node, status code: %d, response: %s"
                 [AInt (StatusCode resp); AStr body])
  else
  (* the map is written once more, after [data] was marshalled and sent *)
  let updateData :=
    assign_if (HasChange d "start_command") "start_command"
              (JStr (GetString d "start_command")) updateData in
  resourceGns3DockerRead meta.

Definition resourceGns3DockerDelete (meta : ProviderConfig) : M unit :=
  d ← self;
  let host := Host meta in
  let projectID := GetString d "project_id" in
  nodeID ← Id;
  let url := host +:+ "/v2/projects/" +:+ projectID +:+ "/nodes/" +:+ nodeID in
  req ← check (http_NewRequest w "DELETE" url None)
    (λ err, Errorf "failed to create delete request for docker node: %s"
                   [AErr err]);
  resp ← check (client_Do w req)
    (λ err, Errorf "failed to delete docker node: %s" [AErr err]);
  (* the status code of [resp] is not looked at *)
  SetId "".

(** *** Template *)

Definition resourceGns3TemplateRead (meta : ProviderConfig) : M unit :=
  d ← self;
  let host := Host meta in
  let projectID := GetString d "project_id" in
  nodeID ← Id;
  let apiURL := host +:+ "/v2/projects/" +:+ projectID +:+ "/nodes/"
                     +:+ nodeID in
  resp ← check (http_Get w apiURL)
    (λ err, Errorf "failed to read template node: %s" [AErr err]);
  if decide (StatusCode resp = StatusNotFound) then SetId "" else
  if decide (StatusCode resp ≠ StatusOK) then
    let body := Body resp in
    fail (Errorf "failed to read template node, status: %d, response: %s"
                 [AInt (StatusCode resp); AStr body])
  else
  node ← check (decode unmarshal_map (Body resp))
    (λ err, Errorf "failed to decode node details: %s" [AErr err]);
  Set_string_member "name" (node !! "name");;
  (let '(xVar, ok) := as_float64 (node !! "x") in
   if ok then Set_ "x" (VInt (int_of_float64 xVar));; mret () else mret ());;
  (let '(yVar, ok) := as_float64 (node !! "y") in
   if ok then Set_ "y" (VInt (int_of_float64 yVar));; mret () else mret ());;
  mret ().

Definition resourceGns3TemplateCreate (meta : ProviderConfig) : M unit :=
  d ← self;
  let host := Host meta in
  let projectID := GetString d "project_id" in
  let templateID := GetString d "template_id" in
  let templateName := GetString d "name" in
  let computeID := GetString d "compute_id" in
  let x := GetInt d "x" in
  let y := GetInt d "y" in
  let templateData : gmap string json :=
    <["y" := JNum y]> (<["x" := JNum x]>
    (<["compute_id" := JStr computeID]>
    (<["name" := JStr templateName]> ∅))) in
  let nodeBody := JObj templateData in
  resp ← check
    (http_Post w (host +:+ "/v2/projects/" +:+ projectID +:+ "/templates/"
                       +:+ templateID)
               "application/json" (Some nodeBody))
    (λ err, Errorf "error creating GNS3 template: %s" [AErr err]);
  if decide (StatusCode resp ≠ StatusCreated) then
    fail (Errorf "failed to create GNS3 template, status code: %d"
                 [AInt (StatusCode resp)])
  else
  createdTemplate ← check (decode unmarshal_map (Body resp))
    (λ err, Errorf "error decoding GNS3 API response: %s" [AErr err]);
  let '(templateNodeID, exists_) := as_string (createdTemplate !! "node_id") in
  if decide (exists_ = false ∨ templateNodeID = "") then
    fail (Errorf "failed to retrieve node_id from GNS3 API response" [])
  else
  SetId templateNodeID;;
  d ← self;
  if GetBool d "start" then
    let startURL := host +:+ "/v2/projects/" +:+ projectID +:+ "/nodes/"
                         +:+ templateNodeID +:+ "/start" in
    startResp ← check (http_Post w startURL "application/json" None)
      (λ err, Errorf "error starting node: %s" [AErr err]);
    if decide (StatusCode startResp ≠ StatusOK) then
      fail (Errorf "failed to start node, status code: %d"
                   [AInt (StatusCode startResp)])
    else mret ()
  else
  mret ().

Definition resourceGns3TemplateUpdate (meta : ProviderConfig) : M unit :=
  d ← self;
  let host := Host meta in
  let projectID := GetString d "project_id" in
  nodeID ← Id;
  (* Build the update payload with the updated attributes. *)
  let updateData : gmap string json :=
    <["y" := JNum (GetInt d "y")]> (<["x" := JNum (GetInt d "x")]>
    (<["compute_id" := JStr (GetString d "compute_id")]>
    (<["name" := JStr (GetString d "name")]> ∅))) in
  let data := JObj updateData in
  let url := host +:+ "/v2/projects/" +:+ projectID +:+ "/nodes/" +:+ nodeID in
  req ← check (http_NewRequest w "PUT" url (Some data))
    (λ err, Errorf "failed to create update request: %s" [AErr err]);
  let req := Header_Set_ContentType req "application/json" in
  resp ← check (client_Do w req)
    (λ err, Errorf "failed to update template: %s" [AErr err]);
  if decide (StatusCode resp ≠ StatusOK) then
    fail (Errorf "failed to update template, status code: %d"
                 [AInt (StatusCode resp)])
  else
  resourceGns3TemplateRead meta.

Definition resourceGns3TemplateDelete (meta : ProviderConfig) : M unit :=
  d ← self;
  let host := Host meta in
  let projectID := GetString d "project_id" in
  nodeID ← Id;
  let url := host +:+ "/v2/projects/" +:+ projectID +:+ "/nodes/" +:+ nodeID in
  req ← check (http_NewRequest w "DELETE" url None)
    (λ err, Errorf "failed to create delete request for template node: %s"
                   [AErr err]);
  resp ← check (client_Do w req)
    (λ err, Errorf "failed to delete template node: %s" [AErr err]);
  if decide (StatusCode resp = StatusNotFound) then SetId "" else
  if decide (StatusCode resp ≠ StatusNoContent) then
    let body := Body resp in
    fail (Errorf "failed to delete template node, status code: %d, body: %s"
                 [AInt (StatusCode resp); AStr body])
  else
  SetId "".

(** *** QEMU *)

Definition resourceGns3QemuRead (meta : ProviderConfig) : M unit :=
  d ← self;
  let host := Host meta in
  let projectID := GetString d "project_id" in
  nodeID ← Id;
  let apiURL := host +:+ "/v2/projects/" +:+ projectID +:+ "/nodes/"
                     +:+ nodeID in
  resp ← check (http_Get w apiURL)
    (λ err, Errorf "failed to read QEMU node: %s" [AErr err]);
  if decide (StatusCode resp = StatusNotFound) then SetId "" else
  if decide (StatusCode resp ≠ StatusOK) then
    let body := Body resp in
    fail (Errorf "failed to read QEMU node, status: %d, response: %s"
                 [AInt (StatusCode resp); AStr body])
  else
  node ← check (decode unmarshal_map (Body resp))
    (λ err, Errorf "failed to decode node details: %s" [AErr err]);
  Set_string_member "name" (node !! "name");;
  (let '(xVar, ok) := as_float64 (node !! "x") in
   if ok then Set_ "x" (VInt (int_of_float64 xVar));; mret () else mret ());;
  (let '(yVar, ok) := as_float64 (node !! "y") in
   if ok then Set_ "y" (VInt (int_of_float64 yVar));; mret () else mret ());;
  (let '(props, ok) := as_map (node !! "properties") in
   if ok then
     let '(v, ok) := as_string (props !! "adapter_type") in
     if ok && negb (String.eqb v "")
     then Set_ "adapter_type" (VString v);; mret () else mret ()
   else mret ());;
  (let '(props, ok) := as_map (node !! "properties") in
   if ok then
     let '(v, ok) := as_float64 (props !! "adapters") in
     (* [d.Set] turns the float64 into the int of the schema as [int(v)]
        does *)
     if ok then Set_ "adapters" (VInt (int_of_float64 v));; mret ()
     else mret ()
   else mret ());;
  (let '(props, ok) := as_map (node !! "properties") in
   if ok then
     let '(v, ok) := as_string (props !! "bios_image") in
     if ok then Set_ "bios_image" (VString v);; mret () else mret ()
   else mret ());;
  (let '(props, ok) := as_map (node !! "properties") in
   if ok then
     let '(v, ok) := as_string (props !! "cdrom_image") in
     if ok then Set_ "cdrom_image" (VString v);; mret () else mret ()
   else mret ());;
  (let '(props, ok) := as_map (node !! "properties") in
   if ok then
     let '(v, ok) := as_float64 (props !! "cpus") in
     if ok && float64_nonzero v
     then Set_ "cpus" (VInt (int_of_float64 v));; mret () else mret ()
   else mret ());;
  mret ().

Definition resourceGns3QemuCreate (meta : ProviderConfig) : M unit :=
  d ← self;
  let config := meta in
  let projectID := GetString d "project_id" in
  let name := GetString d "name" in
  let adapterType := GetString d "adapter_type" in
  let adapters := GetInt d "adapters" in
  let biosImage := GetString d "bios_image" in
  let '(cdromImage, _) := GetOkString d "cdrom_image" in
  let '(consoleVal, consoleOk) := GetOkInt d "console" in
  let consoleType := GetString d "console_type" in
  let cpus := GetInt d "cpus" in
  let ram := GetInt d "ram" in
  let platform := GetString d "platform" in
  let x := GetInt d "x" in
  let y := GetInt d "y" in
  let symbol := GetString d "symbol" in
  let properties : gmap string json :=
    <["platform" := JStr platform]> (<["cpus" := JNum cpus]>
    (<["ram" := JNum ram]> (<["console_type" := JStr consoleType]>
    (<["cdrom_image" := JStr ""]> (<["bios_image" := JStr biosImage]>
    (<["adapters" := JNum adapters]>
    (<["adapter_type" := JStr adapterType]> ∅))))))) in
  (* [cdromImage != nil] holds: GetOk hands out the zero value, not nil *)
  let properties := <["cdrom_image" := JStr cdromImage]> properties in
  let properties :=
    if consoleOk then <["console" := JNum consoleVal]> properties
    else properties in
  let properties :=
    let '(v, ok) := GetOkString d "mac_address" in
    if ok then <["mac_address" := JStr v]> properties else properties in
  let properties :=
    let '(v, ok) := GetOkString d "options" in
    if ok then <["options" := JStr v]> properties else properties in
  let properties :=
    let '(v, ok) := GetOkString d "hda_disk_image" in
    if ok
    then <["hda_disk_interface" := JStr "virtio"]>
           (<["hda_disk_image" := JStr v]> properties)
    else properties in
  (* Controller-level API *)
  let payload : gmap string json :=
    <["properties" := JObj properties]> (<["symbol" := JStr symbol]>
    (<["y" := JNum y]> (<["x" := JNum x]>
    (<["compute_id" := JStr "local"]> (<["node_type" := JStr "qemu"]>
    (<["name" := JStr name]> ∅)))))) in
  let jsonPayload := JObj payload in
  let url := Host config +:+ "/v2/projects/" +:+ projectID +:+ "/nodes" in
  resp ← check (http_Post w url "application/json" (Some jsonPayload))
    (λ err, Errorf "failed to create QEMU node via controller: %s" [AErr err]);
  if decide (StatusCode resp ≠ StatusCreated ∧ StatusCode resp ≠ StatusOK) then
    let body := Body resp in
    fail (Errorf
            "controller rejected QEMU node creation, status: %d, response: %s"
            [AInt (StatusCode resp); AStr body])
  else
  result ← check (decode unmarshal_map (Body resp))
    (λ err, Errorf "failed to decode controller response: %s" [AErr err]);
  let '(nodeID, ok) := as_string (result !! "node_id") in
  if decide (ok = false ∨ nodeID = "") then
    fail (Errorf "node_id not returned by controller" [])
  else
  SetId nodeID;;
  (* Start VM if requested *)
  d ← self;
  (if GetBool d "start_vm" then
     let startURL := Host config +:+ "/v2/projects/" +:+ projectID
                          +:+ "/nodes/" +:+ nodeID +:+ "/start" in
     req ← check (http_NewRequest w "POST" startURL None)
       (λ err, Errorf "failed to create start request: %s" [AErr err]);
     startResp ← check (client_Do w req)
       (λ err, Errorf "failed to start QEMU node: %s" [AErr err]);
     if decide (StatusCode startResp ≠ StatusOK) then
       let body := Body startResp in
       fail (Errorf "failed to start node, status: %d, response: %s"
                    [AInt (StatusCode startResp); AStr body])
     else mret ()
   else mret ());;
  resourceGns3QemuRead meta.

Definition resourceGns3QemuUpdate (meta : ProviderConfig) : M unit :=
  d ← self;
  let host := Host meta in
  let projectID := GetString d "project_id" in
  nodeID ← Id;
  let updateData : gmap string json := ∅ in
  let properties : gmap string json := ∅ in
  (* Top-level fields *)
  let updateData :=
    assign_if (HasChange d "name") "name"
              (JStr (GetString d "name")) updateData in
  let updateData :=
    assign_if (HasChange d "x") "x"
              (JNum (GetInt d "x")) updateData in
  let updateData :=
    assign_if (HasChange d "y") "y"
              (JNum (GetInt d "y")) updateData in
  let updateData :=
    assign_if (HasChange d "symbol") "symbol"
              (JStr (GetString d "symbol")) updateData in
  (* QEMU-specific properties (inside "properties") *)
  let properties :=
    assign_if (HasChange d "adapter_type") "adapter_type"
              (JStr (GetString d "adapter_type")) properties in
  let properties :=
    assign_if (HasChange d "adapters") "adapters"
              (JNum (GetInt d "adapters")) properties in
  let properties :=
    assign_if (HasChange d "bios_image") "bios_image"
              (JStr (GetString d "bios_image")) properties in
  let properties :=
    assign_if (HasChange d "cdrom_image") "cdrom_image"
              (JStr (GetString d "cdrom_image")) properties in
  let properties :=
    assign_if (HasChange d "cpus") "cpus"
              (JNum (GetInt d "cpus")) properties in
  let properties :=
    assign_if (HasChange d "ram") "ram"
              (JNum (GetInt d "ram")) properties in
  let properties :=
    assign_if (HasChange d "console_type") "console_type"
              (JStr (GetString d "console_type")) properties in
  let properties :=
    assign_if (HasChange d "platform") "platform"
              (JStr (GetString d "platform")) properties in
  let properties :=
    assign_if (HasChange d "hda_disk_image") "hda_disk_image"
              (JStr (GetString d "hda_disk_image")) properties in
  let properties :=
    assign_if (HasChange d "mac_address") "mac_address"
              (JStr (GetString d "mac_address")) properties in
  let properties :=
    assign_if (HasChange d "options") "options"
              (JStr (GetString d "options")) properties in
  (* Only include "properties" if something in it changed:
     len(properties) > 0 *)
  let updateData :=
    assign_if (bool_decide (0 < size properties)%nat) "properties"
              (JObj properties) updateData in
  (* Nothing to update *)
  if decide (size updateData = 0%nat) then mret () else
  let data := JObj updateData in
  let url := host +:+ "/v2/projects/" +:+ projectID +:+ "/nodes/" +:+ nodeID in
  req ← check (http_NewRequest w "PUT" url (Some data))
    (λ err, Errorf "failed to create update request: %s" [AErr err]);
  let req := Header_Set_ContentType req "application/json" in
  resp ← check (client_Do w req)
    (λ err, Errorf "failed to update QEMU node: %s" [AErr err]);
  if decide (StatusCode resp ≠ StatusOK) then
    let bodyBytes := Body resp in
    fail (Errorf "failed to update QEMU node, status code: %d, response: %s"
                 [AInt (StatusCode resp); AStr bodyBytes])
  else
  resourceGns3QemuRead meta.

Definition resourceGns3QemuDelete (meta : ProviderConfig) : M unit :=
  d ← self;
  let config := meta in
  let projectID := GetString d "project_id" in
  nodeID ← Id;
  let apiURL := Host config +:+ "/v2/projects/" +:+ projectID +:+ "/nodes/"
                     +:+ nodeID in
  req ← check (http_NewRequest w "DELETE" apiURL None)
    (λ err, Errorf "failed to create DELETE request: %s" [AErr err]);
  resp ← check (client_Do w req)
    (λ err, Errorf "failed to delete QEMU node: %s" [AErr err]);
  if decide (StatusCode resp ≠ StatusNoContent ∧ StatusCode resp ≠ StatusOK)
  then
    let body := Body resp in
    fail (Errorf "failed to delete QEMU node, status: %d, response: %s"
                 [AInt (StatusCode resp); AStr body])
  else
  SetId "".

End Resources.

(** ** Importers *)

(** The importer of the cloud kind; the switch and Docker importers have
    the same body. *)
Definition resourceGns3CloudImporter : M (list ResourceData) :=
  raw ← Id;
  match strings_SplitN2 raw "/"%char with
  | [projectID; nodeID] =>      (* len(parts) == 2 *)
      err ← Set_ "project_id" (VString projectID);
      match err with
      | Some err => fail (Lib err)
      | None => SetId nodeID;; d ← self; mret [d]
      end
  | _ =>
      fail (Errorf
              "invalid import ID %q — expected format <project_id>/<node_id>"
              [AQuoted raw])
  end.

Definition resourceGns3SwitchImporter : M (list ResourceData) :=
  raw ← Id;
  match strings_SplitN2 raw "/"%char with
  | [projectID; nodeID] =>
      err ← Set_ "project_id" (VString projectID);
      match err with
      | Some err => fail (Lib err)
      | None => SetId nodeID;; d ← self; mret [d]
      end
  | _ =>
      fail (Errorf
              "invalid import ID %q â€” expected format <project_id>/<node_id>"
              [AQuoted raw])
  end.

Definition resourceGns3DockerImporter : M (list ResourceData) :=
  raw ← Id;
  match strings_SplitN2 raw "/"%char with
  | [projectID; nodeID] =>
      err ← Set_ "project_id" (VString projectID);
      match err with
      | Some err => fail (Lib err)
      | None => SetId nodeID;; d ← self; mret [d]
      end
  | _ =>
      fail (Errorf
              "invalid import ID %q â€” expected format <project_id>/<node_id>"
              [AQuoted raw])
  end.

Definition resourceGns3TemplateImporter : M (list ResourceData) :=
  raw ← Id;
  if strings_Contains raw "/"%char then
    let parts := strings_SplitN2 raw "/"%char in
    let projectID := default "" (parts !! 0%nat) in
    let nodeID := default "" (parts !! 1%nat) in
    err ← Set_ "project_id" (VString projectID);
    match err with
    | Some err => fail (Lib err)
    | None => SetId nodeID;; d ← self; mret [d]
    end
  else
    fail (Errorf "invalid ID format %q â€” expected <project_id>/<node_id>"
                 [AQuoted raw]).

(** The QEMU importer takes both [<node_id>,<project_id>] and
    [<project_id>/<node_id>]; the comma is looked for first. *)
Definition resourceQemuImporter : M (list ResourceData) :=
  raw ← Id;
  parsed ←
    (if strings_Contains raw ","%char then
       let parts := strings_SplitN2 raw ","%char in
       mret (default "" (parts !! 0%nat), default "" (parts !! 1%nat))
     else if strings_Contains raw "/"%char then
       let parts := strings_SplitN2 raw "/"%char in
       mret (default "" (parts !! 1%nat), default "" (parts !! 0%nat))
     else
       fail (Errorf
         "invalid import ID %q: expected <node_id>,<project_id> or <project_id>/<node_id>"
         [AQuoted raw]));
  let '(nodeID, projectID) := parsed in
  (* seed the required attribute *)
  err ← Set_ "project_id" (VString projectID);
  match err with
  | Some err => fail (Lib err)
  | None =>
      (* Terraform resource ID must be the node ID *)
      SetId nodeID;; d ← self; mret [d]
  end.

(** ** The five resource kinds

    [resourceGns3Cloud()], [resourceGns3Switch()], [resourceGns3Template()],
    [resourceGns3Docker()] and [resourceGns3Qemu()] each register their
    callbacks and their schema in a [schema.Resource]. *)

Record Resource := mkResource {
  Create : ProviderConfig → M unit;
  Read : ProviderConfig → M unit;
  Update : ProviderConfig → M unit;
  Delete : ProviderConfig → M unit;
  Importer : M (list ResourceData);
  Schema : gset string
}.

Definition resourceGns3Cloud (w : World) : Resource := {|
  Create := resourceGns3CloudCreate w;
  Read := resourceGns3CloudRead w;
  Update := resourceGns3CloudUpdate w;
  Delete := resourceGns3CloudDelete w;
  Importer := resourceGns3CloudImporter;
  Schema := {[ "project_id"; "name"; "compute_id"; "x"; "y"; "cloud_id";
               "symbol" ]}
|}.

Definition resourceGns3Switch (w : World) : Resource := {|
  Create := resourceGns3SwitchCreate w;
  Read := resourceGns3SwitchRead w;
  Update := resourceGns3SwitchUpdate w;
  Delete := resourceGns3SwitchDelete w;
  Importer := resourceGns3SwitchImporter;
  Schema := {[ "project_id"; "name"; "compute_id"; "x"; "y"; "switch_id";
               "symbol" ]}
|}.

Definition resourceGns3Template (w : World) : Resource := {|
  Create := resourceGns3TemplateCreate w;
  Read := resourceGns3TemplateRead w;
  Update := resourceGns3TemplateUpdate w;
  Delete := resourceGns3TemplateDelete w;
  Importer := resourceGns3TemplateImporter;
  Schema := {[ "project_id"; "template_id"; "name"; "compute_id"; "start";
               "x"; "y" ]}
|}.

Definition resourceGns3Docker (w : World) : Resource := {|
  Create := resourceGns3DockerCreate w;
  Read := resourceGns3DockerRead w;
  Update := resourceGns3DockerUpdate w;
  Delete := resourceGns3DockerDelete w;
  Importer := resourceGns3DockerImporter;
  Schema := {[ "project_id"; "name"; "compute_id"; "image"; "environment";
               "x"; "y"; "extra_volumes"; "docker_id"; "start_command";
               "start" ]}
|}.

Definition resourceGns3Qemu (w : World) : Resource := {|
  Create := resourceGns3QemuCreate w;
  Read := resourceGns3QemuRead w;
  Update := resourceGns3QemuUpdate w;
  Delete := resourceGns3QemuDelete w;
  Importer := resourceQemuImporter;
  Schema := {[ "project_id"; "name"; "adapter_type"; "adapters"; "bios_image";
               "cdrom_image"; "console"; "console_type"; "cpus"; "ram";
               "mac_address"; "options"; "start_vm"; "platform";
               "hda_disk_image"; "x"; "y"; "symbol" ]}
|}.

Inductive kind := KCloud | KSwitch | KTemplate | KDocker | KQemu.

Definition resource (w : World) (k : kind) : Resource :=
  match k with
  | KCloud => resourceGns3Cloud w
  | KSwitch => resourceGns3Switch w
  | KTemplate => resourceGns3Template w
  | KDocker => resourceGns3Docker w
  | KQemu => resourceGns3Qemu w
  end.

(** The URL of a node of the resource's project, as every Read, Update and
    Delete builds it. *)
Definition node_url (meta : ProviderConfig) (d : ResourceData) : string :=
  Host meta +:+ "/v2/projects/" +:+ GetString d "project_id" +:+ "/nodes/"
       +:+ rd_id d.

(** ** Create *)

(** The URL a Create posts to. *)
Definition create_url (k : kind) (meta : ProviderConfig) (d : ResourceData)
  : string :=
  match k with
  | KTemplate =>
      Host meta +:+ "/v2/projects/" +:+ GetString d "project_id"
           +:+ "/templates/" +:+ GetString d "template_id"
  | _ => Host meta +:+ "/v2/projects/" +:+ GetString d "project_id"
              +:+ "/nodes"
  end.

(** The statuses with which a Create goes on to read the new node. *)
Definition accepts (k : kind) (status : Z) : Prop :=
  status = StatusCreated ∨ (k = KQemu ∧ status = StatusOK).

(** Whether a Create has something left to do once the identity is set:
    the start request of the Docker, template and QEMU kinds, and the Read
    the QEMU kind ends with. *)
Definition post_create_step (k : kind) (d : ResourceData) : bool :=
  match k with
  | KCloud | KSwitch => false
  | KDocker | KTemplate => GetBool d "start"
  | KQemu => true
  end.

(** ** Update payloads *)

(** The attributes an Update body carries: its top-level members, with the
    members of [properties] in place of [properties] itself. *)
Definition properties_of (m : gmap string json) : gmap string json :=
  members (default JNull (m !! "properties")).

Definition payload_attributes (m : gmap string json) : gset string :=
  dom (delete "properties" m) ∪ dom (properties_of m).

(** The attributes the QEMU Update passes on: at the top level, and inside
    [properties]. *)
Definition qemu_flat_fields : gset string :=
  {[ "name"; "x"; "y"; "symbol" ]}.

Definition qemu_nested_fields : gset string :=
  {[ "adapter_type"; "adapters"; "bios_image"; "cdrom_image"; "cpus"; "ram";
     "console_type"; "platform"; "hda_disk_image"; "mac_address"; "options" ]}.

(** The attributes the Update of each kind passes on. *)
Definition update_fields (k : kind) : gset string :=
  match k with
  | KCloud => {[ "name"; "compute_id"; "x"; "y"; "symbol" ]}
  | KSwitch => {[ "name"; "compute_id"; "x"; "y" ]}
  | KTemplate => {[ "name"; "compute_id"; "x"; "y" ]}
  | KDocker => {[ "environment" ]}
  | KQemu => qemu_flat_fields ∪ qemu_nested_fields
  end.

(** The flat fields of a Docker node. *)
Definition docker_flat_fields : gset string :=
  {[ "name"; "compute_id"; "x"; "y" ]}.

(** A request log that is empty, or one PUT, whose body satisfies [P],
    followed by GETs. *)
Definition one_put (P : gmap string json → Prop) (trace : list Request)
  : Prop :=
  trace = [] ∨
  ∃ put gets m,
    trace = put :: gets ∧ req_method put = "PUT" ∧
    req_body put = Some (JObj m) ∧
    Forall (λ req, req_method req = "GET") gets ∧ P m.

(** ** Worlds and resources to run the callbacks on *)

Definition meta0 : ProviderConfig := mkProviderConfig "http://gns3:3080".

(** A controller that answers every request with the same status and
    body; the body is not JSON. *)
Definition answering (status : Z) (body : string) : World := {|
  url_error := λ _, None;
  round_trip := λ _ _, inr (mkResponse status body);
  json_parse := λ _, None;
  member_before := String.leb;
  range_before := String.leb
|}.

(** A resource that exists as node [n1] of project [p1], nothing changed. *)
Definition d_n1 : ResourceData :=
  mkResourceData "n1" {[ "project_id" := VString "p1" ]} ∅.

(** A controller on which the node has vanished: it accepts what is sent
    to it and answers 404 to every GET. *)
Definition vanishing : World := {|
  url_error := λ _, None;
  round_trip := λ _ req,
    inr (mkResponse (if String.eqb (req_method req) "GET" then 404 else 200)
                    "");
  json_parse := λ _, None;
  member_before := String.leb;
  range_before := String.leb
|}.

(** Node [n1] of project [p1] with a new name in the configuration. *)
Definition d_renamed : ResourceData :=
  mkResourceData "n1"
    {[ "project_id" := VString "p1"; "name" := VString "sw2" ]}
    {[ "name" ]}.

(** Node [n1] with a new start command in the configuration. *)
Definition d_new_command : ResourceData :=
  mkResourceData "n1"
    {[ "project_id" := VString "p1"; "start_command" := VString "/bin/sh" ]}
    {[ "start_command" ]}.

(** The resource with the change flag of one attribute taken away. *)
Definition unchanged (key : string) (d : ResourceData) : ResourceData :=
  mkResourceData (rd_id d) (rd_attrs d) (rd_changed d ∖ {[ key ]}).

(** A controller that answers every request with the same status, and
    whose bodies all parse to the same document. *)
Definition answering_json (status : Z) (j : json) : World := {|
  url_error := λ _, None;
  round_trip := λ _ _, inr (mkResponse status "{...}");
  json_parse := λ _, Some j;
  member_before := String.leb;
  range_before := String.leb
|}.

(** Node [n1] moved to another place on the canvas. *)
Definition d_moved : ResourceData :=
  mkResourceData "n1"
    {[ "project_id" := VString "p1"; "x" := VInt 10 ]}
    {[ "x" ]}.

(** A controller that creates the node and then fails to start it: 201 to
    the first request, 500 to the others; every body parses to a node
    [n1]. *)
Definition created_not_started : World := {|
  url_error := λ _, None;
  round_trip := λ trace _,
    inr (mkResponse (match trace with [] => 201 | _ => 500 end) "{...}");
  json_parse := λ _, Some (JObj {[ "node_id" := JStr "n1" ]});
  member_before := String.leb;
  range_before := String.leb
|}.

(** A template node to be created and started; it has no identity yet. *)
Definition d_new : ResourceData :=
  mkResourceData ""
    {[ "project_id" := VString "p1"; "template_id" := VString "t1";
       "name" := VString "r1"; "start" := VBool true ]}
    ∅.

(** The same resource once its identity is cleared. *)
Definition cleared (d : ResourceData) : ResourceData :=
  mkResourceData "" (rd_attrs d) (rd_changed d).

(** ** Predicates on callbacks *)

(** [wp m Q s]: running [m] from [s] ends in an outcome and a state that
    satisfy [Q]. *)
Definition wp {A} (m : M A) (Q : outcome A → State → Prop) (s : State)
  : Prop :=
  Q (m s).1 (m s).2.

(** [frames m]: [m] touches neither the identity nor the network. *)
Definition frames {A} (m : M A) : Prop :=
  ∀ s, rd_id (st_d (m s).2) = rd_id (st_d s) ∧
       st_trace (m s).2 = st_trace s.

(** The requests a callback adds to the log are all GETs. *)
Definition only_gets (s s' : State) : Prop :=
  ∃ more : list Request,
    st_trace s' = st_trace s ++ more ∧
    Forall (λ req, req_method req = "GET") more.

(** What a Read, and an Update that ends in a Read, does to the identity:
    it keeps it, or it clears it and returns nil, which happens when the
    last request, a GET, is answered 404. *)
Definition keeps_or_clears (w : World) (s : State) (o : outcome unit)
    (s' : State) : Prop :=
  (∃ more : list Request, st_trace s' = st_trace s ++ more) ∧
  (rd_id (st_d s') = rd_id (st_d s) ∨
   (rd_id (st_d s') = "" ∧ o = Done () ∧
    ∃ pre req resp,
      st_trace s' = pre ++ [req] ∧ req_method req = "GET" ∧
      round_trip w pre req = inr resp ∧ StatusCode resp = 404)).

(** A log of two requests, the second of which was answered 404. *)
Definition second_not_found (w : World) (s' : State) : Prop :=
  ∃ put get resp,
    st_trace s' = [put; get] ∧ round_trip w [put] get = inr resp ∧
    StatusCode resp = 404.

(** The identity a Create assigns when its creation request is answered
    with an accepted status and this body: the [node_id] it reads from the
    body, provided the body decodes and the [node_id] is not empty.  This
    is the argument of the [d.SetId] of each Create; when there is none,
    no [d.SetId] is reached. *)
Definition node_id_of (r : lib_error + CreatedNode) : option string :=
  match r with
  | inr created =>
      if decide (NodeID created = "") then None else Some (NodeID created)
  | inl _ => None
  end.

Definition member_id_of (r : lib_error + gmap string json) : option string :=
  match r with
  | inr m =>
      let '(nodeID, ok) := as_string (m !! "node_id") in
      if decide (ok = false ∨ nodeID = "") then None else Some nodeID
  | inl _ => None
  end.

Definition created_id (w : World) (k : kind) (body : string)
  : option string :=
  match k with
  | KCloud =>
      node_id_of (match json_parse w body with
                  | Some j => unmarshal_node (member_before w) Cloud_fields j
                  | None => inl "invalid character"
                  end)
  | KSwitch =>
      node_id_of (match json_parse w body with
                  | Some j => unmarshal_node (member_before w) Switch_fields j
                  | None => inl "invalid character"
                  end)
  | KDocker =>
      node_id_of (match json_parse w body with
                  | Some j =>
                      unmarshal_node (member_before w) DockerNode_fields j
                  | None => inl "invalid character"
                  end)
  | KTemplate | KQemu =>
      member_id_of (match json_parse w body with
                    | Some j => unmarshal_map j
                    | None => inl "invalid character"
                    end)
  end.

(** What a Create that returns an error has done, by the place where it
    failed.  After its creation request was answered with an accepted
    status and a node id, it has assigned that id and failed in a later
    step, so the kind has one, and the identity is still that id.
    Otherwise it has failed before any [d.SetId] and the resource is as
    it was.  The cloud and switch kinds leave the identity as it was in
    every case, and a Create that fails after a second request went out
    has an identity. *)
Definition failed_create (w : World) (k : kind) (d : ResourceData)
    (o : outcome unit) (s' : State) : Prop :=
  is_Some (match o with Done _ => None | Failed e => Some e end) →
  (∀ post resp nodeID,
     st_trace s' !! 0%nat = Some post → round_trip w [] post = inr resp →
     accepts k (StatusCode resp) → created_id w k (Body resp) = Some nodeID →
     rd_id (st_d s') = nodeID ∧ nodeID ≠ "" ∧ post_create_step k d = true) ∧
  ((∀ post resp,
      st_trace s' !! 0%nat = Some post → round_trip w [] post = inr resp →
      accepts k (StatusCode resp) → created_id w k (Body resp) = None) →
   st_d s' = d) ∧
  (k = KCloud ∨ k = KSwitch → rd_id (st_d s') = rd_id d) ∧
  (∀ req, st_trace s' !! 1%nat = Some req → rd_id (st_d s') ≠ "").

(** ** Import *)

(** A resource as an importer receives it: the raw key is its identity. *)
Definition to_import (raw : string) (attrs : gmap string value)
    (changed : gset string) : ResourceData :=
  mkResourceData raw attrs changed.

(** The resource an importer hands back for a project and a node. *)
Definition imported (projectID nodeID : string) (attrs : gmap string value)
    (changed : gset string) : ResourceData :=
  mkResourceData nodeID (<["project_id" := VString projectID]> attrs) changed.

(** ** The callbacks by name *)

Inductive operation := OpCreate | OpRead | OpUpdate | OpDelete.

(** The callback a [schema.Resource] registers for an operation. *)
Definition callback (w : World) (k : kind) (op : operation)
  : ProviderConfig → M unit :=
  match op with
  | OpCreate => Create (resource w k)
  | OpRead => Read (resource w k)
  | OpUpdate => Update (resource w k)
  | OpDelete => Delete (resource w k)
  end.

(** The attributes a Read stores from the answer of the controller. *)
Definition refreshed (k : kind) : gset string :=
  match k with
  | KCloud | KSwitch | KDocker => ∅
  | KTemplate => {[ "name"; "x"; "y" ]}
  | KQemu => {[ "name"; "x"; "y"; "adapter_type"; "adapters"; "bios_image";
                "cdrom_image"; "cpus" ]}
  end.

(** The computed attribute in which a Create stores the identity once
    more. *)
Definition id_attribute (k : kind) : option string :=
  match k with
  | KCloud => Some "cloud_id"
  | KSwitch => Some "switch_id"
  | KDocker => Some "docker_id"
  | KTemplate | KQemu => None
  end.


(** [writes_only S m]: [m] does not fail and stores attributes of [S] and
    nothing else; it leaves the identity, the change flags and the network
    alone. *)
Definition writes_only (S : gset string) {A} (m : M A) : Prop :=
  ∀ s, (∃ a, (m s).1 = Done a) ∧
       rd_id (st_d (m s).2) = rd_id (st_d s) ∧
       rd_changed (st_d (m s).2) = rd_changed (st_d s) ∧
       st_trace (m s).2 = st_trace s ∧
       ∀ key, key ∉ S →
              rd_attrs (st_d (m s).2) !! key = rd_attrs (st_d s) !! key.

(** A controller that cannot be reached: every exchange fails. *)
Definition unreachable (err : lib_error) : World := {|
  url_error := λ _, None;
  round_trip := λ _ _, inl err;
  json_parse := λ _, None;
  member_before := String.leb;
  range_before := String.leb
|}.


(** A controller that creates node [n1] and has lost it by the time it is
    read: 201 to the first request, 404 to the others. *)
Definition created_then_gone : World := {|
  url_error := λ _, None;
  round_trip := λ trace _,
    inr (mkResponse (match trace with [] => 201 | _ => 404 end) "{...}");
  json_parse := λ _, Some (JObj {[ "node_id" := JStr "n1" ]});
  member_before := String.leb;
  range_before := String.leb
|}.

(** A Docker node to be created and started. *)
Definition d_container : ResourceData :=
  mkResourceData ""
    {[ "project_id" := VString "p1"; "name" := VString "c1";
       "image" := VString "alpine"; "start" := VBool true ]}
    ∅.

(** A switch whose symbol alone has changed. *)
Definition d_new_symbol : ResourceData :=
  mkResourceData "n1"
    {[ "project_id" := VString "p1"; "symbol" := VString ":/symbols/sw.svg" ]}
    {[ "symbol" ]}.



(** ** Running the monad *)

Lemma run_bind {A B} (m : M A) (f : A → M B) (s : State) :
  (m ≫= f) s =
  match m s with
  | (Done a, s') => f a s'
  | (Failed e, s') => (Failed e, s')
  end.
Proof. reflexivity. Qed.

Ltac exec :=
  cbv beta iota zeta delta
    [run returned_error final_id requests mbind M_bind mret M_ret check fail
     self Id SetId Set_ Set_nil client_Do http_NewRequest http_Get http_Post
     decode Header_Set_ContentType Create Read Update Delete Importer resource
     resourceGns3Cloud resourceGns3Switch resourceGns3Template
     resourceGns3Docker resourceGns3Qemu];
  cbn [st_d st_trace rd_id rd_attrs rd_changed fst snd app
       req_method req_url req_content_type req_body].

Ltac pick :=
  cbn [resource Create Read Update Delete Importer Schema resourceGns3Cloud
       resourceGns3Switch resourceGns3Template resourceGns3Docker
       resourceGns3Qemu].

Ltac fold_node_url :=
  match goal with
  | meta : ProviderConfig, d : ResourceData |- _ => fold (node_url meta d)
  end.

Ltac branch :=
  repeat match goal with
         | |- context [decide ?P] => destruct (decide P)
         end.

Ltac carries := simpl; set_solver.

(** ** Delete *)

(** Cloud and switch: 204 and nothing else. *)
Lemma cloud_delete_outcome w meta d resp :
  let req := mkRequest "DELETE" (node_url meta d) None None in
  url_error w (node_url meta d) = None →
  round_trip w [] req = inr resp →
  run (resourceGns3CloudDelete w meta) d =
    if decide (StatusCode resp = 204)
    then (Done (), mkState (cleared d) [req])
    else (Failed (Errorf "failed to delete cloud node, status code: %d"
                         [AInt (StatusCode resp)]),
          mkState d [req]).
Proof.
  intros req Hu Hr. unfold resourceGns3CloudDelete. exec.
  fold (node_url meta d). rewrite Hu. exec. fold req. rewrite Hr.
  unfold StatusNoContent. branch; done || (destruct d; done).
Qed.

Lemma switch_delete_outcome w meta d resp :
  let req := mkRequest "DELETE" (node_url meta d) None None in
  url_error w (node_url meta d) = None →
  round_trip w [] req = inr resp →
  run (resourceGns3SwitchDelete w meta) d =
    if decide (StatusCode resp = 204)
    then (Done (), mkState (cleared d) [req])
    else (Failed (Errorf "failed to delete switch, status code: %d"
                         [AInt (StatusCode resp)]),
          mkState d [req]).
Proof.
  intros req Hu Hr. unfold resourceGns3SwitchDelete. exec.
  fold (node_url meta d). rewrite Hu. exec. fold req. rewrite Hr.
  unfold StatusNoContent. branch; done || (destruct d; done).
Qed.

(** Template: 204 and 404 alike. *)
Lemma template_delete_outcome w meta d resp :
  let req := mkRequest "DELETE" (node_url meta d) None None in
  url_error w (node_url meta d) = None →
  round_trip w [] req = inr resp →
  run (resourceGns3TemplateDelete w meta) d =
    if decide (StatusCode resp = 404 ∨ StatusCode resp = 204)
    then (Done (), mkState (cleared d) [req])
    else (Failed (Errorf
                    "failed to delete template node, status code: %d, body: %s"
                    [AInt (StatusCode resp); AStr (Body resp)]),
          mkState d [req]).
Proof.
  intros req Hu Hr. unfold resourceGns3TemplateDelete. exec.
  fold (node_url meta d). rewrite Hu. exec. fold req. rewrite Hr.
  unfold StatusNoContent, StatusNotFound.
  branch; try done; try (destruct d; done); tauto.
Qed.

(** QEMU: 204 and 200. *)
Lemma qemu_delete_outcome w meta d resp :
  let req := mkRequest "DELETE" (node_url meta d) None None in
  url_error w (node_url meta d) = None →
  round_trip w [] req = inr resp →
  run (resourceGns3QemuDelete w meta) d =
    if decide (StatusCode resp = 204 ∨ StatusCode resp = 200)
    then (Done (), mkState (cleared d) [req])
    else (Failed (Errorf "failed to delete QEMU node, status: %d, response: %s"
                         [AInt (StatusCode resp); AStr (Body resp)]),
          mkState d [req]).
Proof.
  intros req Hu Hr. unfold resourceGns3QemuDelete. exec.
  fold (node_url meta d). rewrite Hu. exec. fold req. rewrite Hr.
  unfold StatusNoContent, StatusOK.
  branch; try done; try (destruct d; done); lia.
Qed.

(** Docker: whatever the controller answers. *)
Lemma docker_delete_outcome w meta d resp :
  let req := mkRequest "DELETE" (node_url meta d) None None in
  url_error w (node_url meta d) = None →
  round_trip w [] req = inr resp →
  run (resourceGns3DockerDelete w meta) d =
    (Done (), mkState (cleared d) [req]).
Proof.
  intros req Hu Hr. unfold resourceGns3DockerDelete. exec.
  fold (node_url meta d). rewrite Hu. exec. fold req. rewrite Hr.
  destruct d; done.
Qed.

(** C1, amended.  Delete succeeds and clears the identity when the
    controller answers 204, for every kind; the template kind treats 404
    exactly as 204, and the QEMU kind treats 200 exactly as 204.  For the
    cloud, switch, template and QEMU kinds a status other than 204 and 404
    (and other than 200 for QEMU) makes Delete return an error that carries
    the status code, and the identity is kept. *)
Theorem delete_status_policy (w : World) (meta : ProviderConfig)
    (d : ResourceData) (k : kind) (resp : Response) :
  let req := mkRequest "DELETE" (node_url meta d) None None in
  let r := run (Delete (resource w k) meta) d in
  let status := StatusCode resp in
  url_error w (node_url meta d) = None →
  round_trip w [] req = inr resp →
  (status = 204 → r = (Done (), mkState (cleared d) [req])) ∧
  (k = KTemplate → status = 404 → r = (Done (), mkState (cleared d) [req])) ∧
  (k = KQemu → status = 200 → r = (Done (), mkState (cleared d) [req])) ∧
  (k ≠ KDocker → status ≠ 204 → status ≠ 404 → (k = KQemu → status ≠ 200) →
   ∃ e, r = (Failed e, mkState d [req]) ∧ AInt status ∈ error_args e).
Proof.
  intros req r status Hu Hr. subst r status. destruct k; pick.
  - rewrite (cloud_delete_outcome w meta d resp Hu Hr).
    repeat split; try done; intros; branch; try done. eexists; split; [done|carries].
  - rewrite (switch_delete_outcome w meta d resp Hu Hr).
    repeat split; try done; intros; branch; try done. eexists; split; [done|carries].
  - rewrite (template_delete_outcome w meta d resp Hu Hr).
    repeat split; try done; intros; branch; try done; try tauto.
    eexists; split; [done|carries].
  - rewrite (docker_delete_outcome w meta d resp Hu Hr).
    repeat split; done.
  - rewrite (qemu_delete_outcome w meta d resp Hu Hr).
    repeat split; try done; intros; branch; try done; try tauto.
    all: eexists; split; [done|carries].
Qed.

Lemma delete_status_policy_witness :
  url_error (answering 404 "") (node_url meta0 d_n1) = None ∧
  round_trip (answering 404 "") []
    (mkRequest "DELETE" (node_url meta0 d_n1) None None)
    = inr (mkResponse 404 "") ∧
  returned_error (run (Delete (resource (answering 404 "") KTemplate) meta0)
                      d_n1) = None ∧
  final_id (run (Delete (resource (answering 404 "") KTemplate) meta0) d_n1)
    = "".
Proof.
  split; [reflexivity|]. split; [reflexivity|].
  destruct (delete_status_policy (answering 404 "") meta0 d_n1 KTemplate
              (mkResponse 404 "") eq_refl eq_refl) as (_ & H404 & _).
  rewrite (H404 eq_refl eq_refl). split; reflexivity.
Defined.

(** The QEMU kind deletes successfully on 200, a status that is neither 204
    nor 404. *)
Lemma qemu_delete_accepts_200 :
  let r := run (Delete (resource (answering 200 "") KQemu) meta0) d_n1 in
  returned_error r = None ∧ final_id r = "" ∧
  req_method <$> requests r = ["DELETE"].
Proof. vm_compute. done. Qed.

(** Two more places where Delete departs from "204 or 404": the cloud (and
    switch) kind refuses 404, and the Docker kind does not look at the
    status at all. *)
Example cloud_delete_refuses_404 :
  let r := run (Delete (resource (answering 404 "") KCloud) meta0) d_n1 in
  is_Some (returned_error r) ∧ final_id r = "n1".
Proof. vm_compute. split; [eexists|]; done. Qed.

Example docker_delete_ignores_status :
  let r := run (Delete (resource (answering 500 "") KDocker) meta0) d_n1 in
  returned_error r = None ∧ final_id r = "".
Proof. vm_compute. done. Qed.

(** ** Read *)

Ltac read_outcome Hu Hr :=
  cbv zeta in Hr |- *; exec; fold_node_url; rewrite Hu; exec; rewrite Hr;
  unfold StatusNotFound, StatusOK; branch; try done; try lia;
  match goal with d : ResourceData |- _ => destruct d; done end.

Lemma cloud_read_outcome w meta d resp :
  let req := mkRequest "GET" (node_url meta d) None None in
  url_error w (node_url meta d) = None →
  round_trip w [] req = inr resp →
  StatusCode resp ≠ 200 →
  run (resourceGns3CloudRead w meta) d =
    if decide (StatusCode resp = 404)
    then (Done (), mkState (cleared d) [req])
    else (Failed (Errorf "unexpected read status %d: %s"
                         [AInt (StatusCode resp); AStr (Body resp)]),
          mkState d [req]).
Proof.
  intros req Hu Hr Hs. subst req. unfold resourceGns3CloudRead. read_outcome Hu Hr.
Qed.

Lemma switch_read_outcome w meta d resp :
  let req := mkRequest "GET" (node_url meta d) None None in
  url_error w (node_url meta d) = None →
  round_trip w [] req = inr resp →
  StatusCode resp ≠ 200 →
  run (resourceGns3SwitchRead w meta) d =
    if decide (StatusCode resp = 404)
    then (Done (), mkState (cleared d) [req])
    else (Failed (Errorf "failed to read switch node, status code: %d, body: %s"
                         [AInt (StatusCode resp); AStr (Body resp)]),
          mkState d [req]).
Proof.
  intros req Hu Hr Hs. subst req. unfold resourceGns3SwitchRead. read_outcome Hu Hr.
Qed.

Lemma template_read_outcome w meta d resp :
  let req := mkRequest "GET" (node_url meta d) None None in
  url_error w (node_url meta d) = None →
  round_trip w [] req = inr resp →
  StatusCode resp ≠ 200 →
  run (resourceGns3TemplateRead w meta) d =
    if decide (StatusCode resp = 404)
    then (Done (), mkState (cleared d) [req])
    else (Failed (Errorf
                    "failed to read template node, status: %d, response: %s"
                    [AInt (StatusCode resp); AStr (Body resp)]),
          mkState d [req]).
Proof.
  intros req Hu Hr Hs. subst req. unfold resourceGns3TemplateRead. read_outcome Hu Hr.
Qed.

Lemma qemu_read_outcome w meta d resp :
  let req := mkRequest "GET" (node_url meta d) None None in
  url_error w (node_url meta d) = None →
  round_trip w [] req = inr resp →
  StatusCode resp ≠ 200 →
  run (resourceGns3QemuRead w meta) d =
    if decide (StatusCode resp = 404)
    then (Done (), mkState (cleared d) [req])
    else (Failed (Errorf "failed to read QEMU node, status: %d, response: %s"
                         [AInt (StatusCode resp); AStr (Body resp)]),
          mkState d [req]).
Proof.
  intros req Hu Hr Hs. subst req. unfold resourceGns3QemuRead. read_outcome Hu Hr.
Qed.

(** The Docker kind reports the status code and nothing of the body. *)
Lemma docker_read_outcome w meta d resp :
  let req := mkRequest "GET" (node_url meta d) None None in
  url_error w (node_url meta d) = None →
  round_trip w [] req = inr resp →
  StatusCode resp ≠ 200 →
  run (resourceGns3DockerRead w meta) d =
    if decide (StatusCode resp = 404)
    then (Done (), mkState (cleared d) [req])
    else (Failed (Errorf "failed to read Docker node, status code: %d"
                         [AInt (StatusCode resp)]),
          mkState d [req]).
Proof.
  intros req Hu Hr Hs. subst req. unfold resourceGns3DockerRead. read_outcome Hu Hr.
Qed.

(** X21.  Read and the status of the answer.  A 404 clears the identity and
    returns nil, for every kind.  Any other status than 200 makes Read
    return an error that carries the status code and, for every kind but
    Docker, the response body; the identity is kept. *)
Theorem read_status_policy (w : World) (meta : ProviderConfig)
    (d : ResourceData) (k : kind) (resp : Response) :
  let req := mkRequest "GET" (node_url meta d) None None in
  let r := run (Read (resource w k) meta) d in
  let status := StatusCode resp in
  url_error w (node_url meta d) = None →
  round_trip w [] req = inr resp →
  (status = 404 → r = (Done (), mkState (cleared d) [req])) ∧
  (status ≠ 404 → status ≠ 200 →
   ∃ e, r = (Failed e, mkState d [req]) ∧
        AInt status ∈ error_args e ∧
        (k ≠ KDocker → AStr (Body resp) ∈ error_args e)).
Proof.
  intros req r status Hu Hr. subst r status.
  split; intros H4; [|intros H2]; destruct k; pick.
  all: first
    [ rewrite (cloud_read_outcome w meta d resp Hu Hr) by lia
    | rewrite (switch_read_outcome w meta d resp Hu Hr) by lia
    | rewrite (template_read_outcome w meta d resp Hu Hr) by lia
    | rewrite (docker_read_outcome w meta d resp Hu Hr) by lia
    | rewrite (qemu_read_outcome w meta d resp Hu Hr) by lia ].
  all: branch; try done.
  all: eexists; split; [done|]; split; [carries|]; intros; try done; carries.
Qed.

Lemma read_status_policy_witness :
  url_error (answering 503 "busy") (node_url meta0 d_n1) = None ∧
  round_trip (answering 503 "busy") []
    (mkRequest "GET" (node_url meta0 d_n1) None None)
    = inr (mkResponse 503 "busy") ∧
  ∃ e, returned_error (run (Read (resource (answering 503 "busy") KQemu) meta0)
                           d_n1) = Some e ∧
       AInt 503 ∈ error_args e ∧ AStr "busy" ∈ error_args e.
Proof.
  split; [reflexivity|]. split; [reflexivity|].
  destruct (read_status_policy (answering 503 "busy") meta0 d_n1 KQemu
              (mkResponse 503 "busy") eq_refl eq_refl) as [_ H].
  destruct H as (e & Hr & Hs & Hb); [done|done|].
  exists e. rewrite Hr. split; [reflexivity|]. split; [exact Hs|].
  apply Hb. done.
Defined.

(** C6.  Read is to surface a status that is neither 200 nor 404 with the
    status code and the response body.  The Docker Read, answered 500 with
    the body ["boom"], returns an error made of the status code alone: the
    body is not among its operands. *)
Lemma docker_read_error_omits_body :
  let r := run (Read (resource (answering 500 "boom") KDocker) meta0) d_n1 in
  returned_error r =
    Some (Errorf "failed to read Docker node, status code: %d" [AInt 500]) ∧
  AStr "boom" ∉ [AInt 500].
Proof.
  split; [vm_compute; done|]. rewrite list_elem_of_singleton. done.
Qed.

(** ** Rules of the weakest precondition

    One rule per operation of the monad lets a proof walk through a
    callback statement by statement. *)

Lemma wp_bind {A B} (m : M A) (f : A → M B) Q s :
  wp m (λ o s', match o with
                | Done a => wp (f a) Q s'
                | Failed e => Q (Failed e) s'
                end) s →
  wp (m ≫= f) Q s.
Proof. unfold wp. rewrite run_bind. destruct (m s) as [[a|e] s']; done. Qed.

Lemma wp_ret {A} (a : A) Q s : Q (Done a) s → wp (mret a) Q s.
Proof. done. Qed.

Lemma wp_fail {A} (e : error) (Q : outcome A → State → Prop) s :
  Q (Failed e) s → wp (fail e) Q s.
Proof. done. Qed.

Lemma wp_self Q s : Q (Done (st_d s)) s → wp self Q s.
Proof. done. Qed.

Lemma wp_Id Q s : Q (Done (rd_id (st_d s))) s → wp Id Q s.
Proof. done. Qed.

Lemma wp_SetId v Q s :
  Q (Done ())
    (mkState (mkResourceData v (rd_attrs (st_d s)) (rd_changed (st_d s)))
             (st_trace s)) →
  wp (SetId v) Q s.
Proof. done. Qed.

Lemma wp_Set_ key v Q s :
  Q (Done None)
    (mkState (mkResourceData (rd_id (st_d s))
                             (<[key := v]> (rd_attrs (st_d s)))
                             (rd_changed (st_d s)))
             (st_trace s)) →
  wp (Set_ key v) Q s.
Proof. done. Qed.

Lemma wp_check {A} (call : M (lib_error + A)) wrap Q s :
  wp call (λ o s', match o with
                   | Done (inl err) => Q (Failed (wrap err)) s'
                   | Done (inr x) => Q (Done x) s'
                   | Failed e => Q (Failed e) s'
                   end) s →
  wp (check call wrap) Q s.
Proof.
  unfold check. intros H. apply wp_bind. revert H. unfold wp.
  destruct (call s) as [[[err|x]|e] s']; done.
Qed.

Lemma wp_http_NewRequest w method url body Q s :
  match url_error w url with
  | Some err => Q (Done (inl err)) s
  | None => Q (Done (inr (mkRequest method url None body))) s
  end →
  wp (http_NewRequest w method url body) Q s.
Proof. unfold wp, http_NewRequest. by destruct (url_error w url). Qed.

Lemma wp_client_Do w req Q s :
  Q (Done (round_trip w (st_trace s) req))
    (mkState (st_d s) (st_trace s ++ [req])) →
  wp (client_Do w req) Q s.
Proof. done. Qed.

Lemma wp_http_Get w url Q s :
  match url_error w url with
  | Some err => Q (Done (inl err)) s
  | None =>
      let req := mkRequest "GET" url None None in
      Q (Done (round_trip w (st_trace s) req))
        (mkState (st_d s) (st_trace s ++ [req]))
  end →
  wp (http_Get w url) Q s.
Proof.
  unfold wp, http_Get. rewrite run_bind. unfold http_NewRequest.
  by destruct (url_error w url).
Qed.

Lemma wp_http_Post w url contentType body Q s :
  match url_error w url with
  | Some err => Q (Done (inl err)) s
  | None =>
      let req := mkRequest "POST" url (Some contentType) body in
      Q (Done (round_trip w (st_trace s) req))
        (mkState (st_d s) (st_trace s ++ [req]))
  end →
  wp (http_Post w url contentType body) Q s.
Proof.
  unfold wp, http_Post. rewrite run_bind. unfold http_NewRequest.
  by destruct (url_error w url).
Qed.

Lemma wp_decode {A} w (unmarshal : json → lib_error + A) body Q s :
  Q (Done (match json_parse w body with
           | Some j => unmarshal j
           | None => inl "invalid character"
           end)) s →
  wp (decode w unmarshal body) Q s.
Proof. done. Qed.

Lemma wp_if_decide {A} (P : Prop) `{Decision P} (m1 m2 : M A) Q s :
  (P → wp m1 Q s) → (¬ P → wp m2 Q s) →
  wp (if decide P then m1 else m2) Q s.
Proof. destruct (decide P); auto. Qed.

Lemma wp_run {A} (m : M A) (Q : outcome A → State → Prop) d :
  wp m Q (mkState d []) → Q (run m d).1 (run m d).2.
Proof. done. Qed.

(** One step through a callback. *)
Ltac wp_step :=
  lazymatch goal with
  | |- wp (mbind _ _) _ _ => apply wp_bind
  | |- wp (mret _) _ _ => apply wp_ret
  | |- wp (fail _) _ _ => apply wp_fail
  | |- wp self _ _ => apply wp_self
  | |- wp Id _ _ => apply wp_Id
  | |- wp (SetId _) _ _ => apply wp_SetId
  | |- wp (Set_ _ _) _ _ => apply wp_Set_
  | |- wp (check _ _) _ _ => apply wp_check
  | |- wp (http_NewRequest _ _ _ _) _ _ => apply wp_http_NewRequest
  | |- wp (client_Do _ _) _ _ => apply wp_client_Do
  | |- wp (http_Get _ _) _ _ => apply wp_http_Get
  | |- wp (http_Post _ _ _ _) _ _ => apply wp_http_Post
  | |- wp (decode _ _ _) _ _ => apply wp_decode
  | |- wp (if decide _ then _ else _) _ _ =>
      let Hd := fresh "Hd" in apply wp_if_decide; intros Hd
  | |- wp (if ?b then _ else _) _ _ => destruct b eqn:?
  | |- wp (match ?e with _ => _ end) _ _ => destruct e eqn:?
  | |- match ?e with _ => _ end => destruct e eqn:?
  end;
  cbv beta iota zeta delta [Header_Set_ContentType];
  cbn [st_d st_trace rd_id rd_attrs rd_changed app
       req_method req_url req_content_type req_body].

(** ** Callbacks that keep the identity *)

Lemma frames_bind {A B} (m : M A) (f : A → M B) :
  frames m → (∀ a, frames (f a)) → frames (m ≫= f).
Proof.
  intros Hm Hf s. rewrite run_bind. destruct (Hm s) as [Hi Ht].
  destruct (m s) as [[a|e] s']; simpl in *; [|done].
  destruct (Hf a s') as [Hi' Ht']. split; congruence.
Qed.

Lemma frames_ret {A} (a : A) : frames (mret a).
Proof. done. Qed.

Lemma frames_fail {A} (e : error) : frames (fail (A:=A) e).
Proof. done. Qed.

Lemma frames_Set_ key v : frames (Set_ key v).
Proof. done. Qed.

Lemma frames_Set_nil key : frames (Set_nil key).
Proof. done. Qed.

Lemma frames_Set_string_member key j : frames (Set_string_member key j).
Proof.
  destruct j as [[]|]; simpl;
    auto using frames_Set_, frames_Set_nil, frames_ret.
Qed.

Create HintDb frames.
#[export] Hint Resolve frames_ret frames_fail frames_Set_ frames_Set_nil
  frames_Set_string_member : frames.

Ltac frames_go :=
  repeat first
    [ apply frames_bind; [|intros]
    | solve [auto with frames]
    | match goal with
      | |- frames (if ?b then _ else _) => destruct b
      | |- frames (match ?e with _ => _ end) => destruct e
      end ].

Lemma wp_frames {A} (m : M A) (Q : outcome A → State → Prop) s :
  frames m →
  (∀ o s', rd_id (st_d s') = rd_id (st_d s) →
           st_trace s' = st_trace s → Q o s') →
  wp m Q s.
Proof. intros Hm HQ. destruct (Hm s). by apply HQ. Qed.

(** ** Read keeps the identity or clears it *)

Ltac wp_steps := repeat wp_step.

Ltac grows :=
  cbn [st_d st_trace];
  first [ by eexists
        | exists []; by rewrite app_nil_r
        | eexists; by rewrite <- ?app_assoc ].

Ltac kept := split; [grows | by left].

Ltac cleared :=
  split; [grows|]; right; split; [done|]; split; [done|];
  eexists _, _, _; split; [reflexivity|]; split; [done|]; split;
  [eassumption|done].

Ltac read_cases := wp_steps; first [kept | cleared].

Lemma cloud_read_keeps_or_clears w meta s :
  wp (resourceGns3CloudRead w meta) (keeps_or_clears w s) s.
Proof. unfold resourceGns3CloudRead. read_cases. Qed.

Lemma switch_read_keeps_or_clears w meta s :
  wp (resourceGns3SwitchRead w meta) (keeps_or_clears w s) s.
Proof. unfold resourceGns3SwitchRead. read_cases. Qed.

Lemma docker_read_keeps_or_clears w meta s :
  wp (resourceGns3DockerRead w meta) (keeps_or_clears w s) s.
Proof. unfold resourceGns3DockerRead. read_cases. Qed.

Ltac tail_frames :=
  apply wp_frames;
  [ frames_go
  | let Hi := fresh "Hi" in
    let Ht := fresh "Ht" in
    cbn [st_d st_trace rd_id]; intros ? ? Hi Ht;
    split; [rewrite Ht; by eexists | left; by rewrite Hi] ].

Lemma template_read_keeps_or_clears w meta s :
  wp (resourceGns3TemplateRead w meta) (keeps_or_clears w s) s.
Proof.
  unfold resourceGns3TemplateRead.
  repeat lazymatch goal with
         | |- wp (mbind _ (Set_string_member _ _)) _ _ => fail
         | |- _ => wp_step
         end.
  all: first [kept | cleared | tail_frames].
Qed.

Lemma qemu_read_keeps_or_clears w meta s :
  wp (resourceGns3QemuRead w meta) (keeps_or_clears w s) s.
Proof.
  unfold resourceGns3QemuRead.
  repeat lazymatch goal with
         | |- wp (mbind _ (Set_string_member _ _)) _ _ => fail
         | |- _ => wp_step
         end.
  all: first [kept | cleared | tail_frames].
Qed.

Ltac gets :=
  cbn [st_d st_trace];
  first [ exists []; split; [by rewrite app_nil_r | constructor]
        | eexists [_]; split; [reflexivity | by repeat constructor] ].

Ltac until_projection :=
  repeat lazymatch goal with
         | |- wp (mbind _ (Set_string_member _ _)) _ _ => fail
         | |- _ => wp_step
         end.

Lemma read_only_gets w k meta s :
  wp (Read (resource w k) meta) (λ _ s', only_gets s s') s.
Proof.
  destruct k; pick;
    unfold resourceGns3CloudRead, resourceGns3SwitchRead,
      resourceGns3TemplateRead, resourceGns3DockerRead, resourceGns3QemuRead;
    until_projection; try gets.
  all: apply wp_frames; [frames_go|];
    cbn [st_d st_trace]; intros _ ? _ Ht; unfold only_gets; rewrite Ht; gets.
Qed.

Lemma read_keeps_or_clears w k meta s :
  wp (Read (resource w k) meta) (keeps_or_clears w s) s.
Proof.
  destruct k; pick;
    auto using cloud_read_keeps_or_clears, switch_read_keeps_or_clears,
      template_read_keeps_or_clears, docker_read_keeps_or_clears,
      qemu_read_keeps_or_clears.
Qed.

(** ** Update and the identity *)

Lemma keeps_or_clears_trans w s s1 o s' :
  rd_id (st_d s1) = rd_id (st_d s) →
  (∃ more : list Request, st_trace s1 = st_trace s ++ more) →
  keeps_or_clears w s1 o s' →
  keeps_or_clears w s o s'.
Proof.
  intros Hi [more Ht] [[more' Ht'] H]. split.
  - exists (more ++ more'). by rewrite Ht', Ht, app_assoc.
  - destruct H as [H|H]; [left; congruence | by right].
Qed.

Ltac then_read lem :=
  eapply keeps_or_clears_trans; [ | | apply lem]; [done | grows].

Lemma cloud_update_keeps_or_clears w meta s :
  wp (resourceGns3CloudUpdate w meta) (keeps_or_clears w s) s.
Proof.
  unfold resourceGns3CloudUpdate. wp_steps;
    first [kept | then_read cloud_read_keeps_or_clears].
Qed.

Lemma switch_update_keeps_or_clears w meta s :
  wp (resourceGns3SwitchUpdate w meta) (keeps_or_clears w s) s.
Proof.
  unfold resourceGns3SwitchUpdate. wp_steps;
    first [kept | then_read switch_read_keeps_or_clears].
Qed.

Lemma template_update_keeps_or_clears w meta s :
  wp (resourceGns3TemplateUpdate w meta) (keeps_or_clears w s) s.
Proof.
  unfold resourceGns3TemplateUpdate. wp_steps;
    first [kept | then_read template_read_keeps_or_clears].
Qed.

Lemma docker_update_keeps_or_clears w meta s :
  wp (resourceGns3DockerUpdate w meta) (keeps_or_clears w s) s.
Proof.
  unfold resourceGns3DockerUpdate. wp_steps;
    first [kept | then_read docker_read_keeps_or_clears].
Qed.

Lemma qemu_update_keeps_or_clears w meta s :
  wp (resourceGns3QemuUpdate w meta) (keeps_or_clears w s) s.
Proof.
  unfold resourceGns3QemuUpdate. wp_steps;
    first [kept | then_read qemu_read_keeps_or_clears].
Qed.

Ltac until_update :=
  repeat lazymatch goal with
         | |- wp (mbind _ (check (http_NewRequest _ _ _ _) _)) _ _ => fail
         | |- _ => wp_step
         end.

Ltac hide_update :=
  try match goal with
      | |- context [Some (JObj ?m)] =>
          let body := fresh "body" in set (body := m) in *; clearbody body
      end.

Ltac not_found_leaf :=
  unfold second_not_found; cbn [st_d st_trace rd_id];
  first
    [ done
    | intros (put' & get' & resp' & Ht & Hr' & Hs'); simplify_eq;
      unfold StatusNotFound in *; first [done | congruence | lia] ].

(** A Read whose GET is answered 404 clears the identity and returns nil,
    for every kind. *)
Lemma read_not_found w k meta d' put :
  wp (Read (resource w k) meta)
     (λ o s', second_not_found w s' → o = Done () ∧ rd_id (st_d s') = "")
     (mkState d' [put]).
Proof.
  destruct k; pick;
    unfold resourceGns3CloudRead, resourceGns3SwitchRead,
      resourceGns3TemplateRead, resourceGns3DockerRead, resourceGns3QemuRead;
    until_projection; try not_found_leaf.
  all: apply wp_frames; [frames_go|];
    cbn [st_d st_trace];
    intros o s' _ Ht (put' & get' & resp' & Ht' & Hr' & Hs');
    rewrite Ht in Ht'; simplify_eq; unfold StatusNotFound in *; congruence.
Qed.

(** An Update whose second request, the GET of the Read it ends with, is
    answered 404 clears the identity and returns nil. *)
Lemma update_not_found w k meta d :
  wp (Update (resource w k) meta)
     (λ o s', second_not_found w s' → o = Done () ∧ rd_id (st_d s') = "")
     (mkState d []).
Proof.
  destruct k; pick;
    unfold resourceGns3CloudUpdate, resourceGns3SwitchUpdate,
      resourceGns3TemplateUpdate, resourceGns3DockerUpdate,
      resourceGns3QemuUpdate;
    until_update; hide_update; wp_steps;
    first
      [ unfold second_not_found; cbn [st_d st_trace];
        intros (put' & get' & resp' & Ht & _); discriminate Ht
      | apply (read_not_found _ KCloud)
      | apply (read_not_found _ KSwitch)
      | apply (read_not_found _ KTemplate)
      | apply (read_not_found _ KDocker)
      | apply (read_not_found _ KQemu) ].
Qed.

(** C9, amended.  Update keeps the identity whenever it returns an error.
    When it returns nil the identity is kept as well, unless the Read that
    refreshes the resource after the PUT is answered 404: then, and only
    then, the identity is cleared.  The Read is the second request of the
    Update: whenever that request is answered 404, for every kind, the
    Update returns nil and the identity is empty. *)
Theorem update_identity (w : World) (meta : ProviderConfig)
    (d : ResourceData) (k : kind) :
  let r := run (Update (resource w k) meta) d in
  (is_Some (returned_error r) → final_id r = rd_id d) ∧
  (final_id r = rd_id d ∨
   (final_id r = "" ∧ returned_error r = None ∧
    ∃ pre req resp,
      requests r = pre ++ [req] ∧ req_method req = "GET" ∧
      round_trip w pre req = inr resp ∧ StatusCode resp = 404)) ∧
  (∀ put get resp,
     requests r = [put; get] → round_trip w [put] get = inr resp →
     StatusCode resp = 404 →
     returned_error r = None ∧ final_id r = "").
Proof.
  intros r.
  assert (H4 : ∀ put get resp,
             requests r = [put; get] → round_trip w [put] get = inr resp →
             StatusCode resp = 404 →
             returned_error r = None ∧ final_id r = "").
  { intros put get resp Ht Hr Hs.
    pose proof (wp_run _ _ d (update_not_found w k meta d)) as H.
    cbv beta in H. fold r in H.
    destruct H as [Ho Hi]; [by exists put, get, resp|].
    unfold returned_error, final_id. by rewrite Ho. }
  cut ((is_Some (returned_error r) → final_id r = rd_id d) ∧
       (final_id r = rd_id d ∨
        (final_id r = "" ∧ returned_error r = None ∧
         ∃ pre req resp,
           requests r = pre ++ [req] ∧ req_method req = "GET" ∧
           round_trip w pre req = inr resp ∧ StatusCode resp = 404))).
  { intros [? ?]. done. }
  clear H4.
  assert (H : keeps_or_clears w (mkState d []) r.1 r.2).
  { subst r. apply wp_run.
    destruct k; pick;
      auto using cloud_update_keeps_or_clears, switch_update_keeps_or_clears,
        template_update_keeps_or_clears, docker_update_keeps_or_clears,
        qemu_update_keeps_or_clears. }
  destruct H as [_ [H|(Hi & Ho & H)]].
  - split; [done|by left].
  - unfold returned_error, final_id, requests. rewrite Ho. split.
    + intros [? ?]. done.
    + right. done.
Qed.

Lemma update_identity_witness :
  is_Some (returned_error
             (run (Update (resource (answering 500 "") KCloud) meta0)
                  d_renamed)) ∧
  final_id (run (Update (resource (answering 500 "") KCloud) meta0) d_renamed)
  = rd_id d_renamed.
Proof.
  assert (H : is_Some (returned_error
                (run (Update (resource (answering 500 "") KCloud) meta0)
                     d_renamed))) by (vm_compute; eexists; reflexivity).
  split; [exact H|].
  destruct (update_identity (answering 500 "") meta0 d_renamed KCloud)
    as [Hkept _].
  exact (Hkept H).
Defined.

(** An Update that changes the identity: the name of [n1] is changed, the
    controller takes the PUT and answers 404 to the GET that follows. *)
Lemma update_clears_identity_on_vanished_node :
  let r := run (Update (resource vanishing KCloud) meta0) d_renamed in
  rd_id d_renamed = "n1" ∧ final_id r = "" ∧ returned_error r = None ∧
  req_method <$> requests r = ["PUT"; "GET"].
Proof. vm_compute. done. Qed.

(** ** Update payloads *)

Lemma lookup_assign_if_ne cond key v m key' :
  key ≠ key' → assign_if cond key v m !! key' = m !! key'.
Proof. intros. unfold assign_if. destruct cond; by simplify_map_eq. Qed.

Lemma lookup_assign_if_eq cond key v m :
  assign_if cond key v m !! key = if cond then Some v else m !! key.
Proof. unfold assign_if. destruct cond; by simplify_map_eq. Qed.

Lemma HasChange_unchanged_ne key key' d :
  key ≠ key' → HasChange (unchanged key d) key' = HasChange d key'.
Proof.
  intros. unfold HasChange, unchanged. simpl.
  apply bool_decide_ext. rewrite elem_of_difference, elem_of_singleton.
  intuition congruence.
Qed.

(** C7.  When [start_command] is among the changed fields, the Docker
    Update sends a PUT whose body has no [start_command] member, neither at
    the top level nor under [properties]; whatever else it sends is a GET
    without a body.  The change is written to the map only after the
    request is out. *)
Theorem docker_update_drops_start_command (w : World) (meta : ProviderConfig)
    (d : ResourceData) :
  HasChange d "start_command" = true →
  url_error w (node_url meta d) = None →
  ∃ put rest m,
    requests (run (resourceGns3DockerUpdate w meta) d) = put :: rest ∧
    req_method put = "PUT" ∧ req_url put = node_url meta d ∧
    req_body put = Some (JObj m) ∧
    m !! "start_command" = None ∧ m !! "properties" = None ∧
    Forall (λ req, req_method req = "GET" ∧ req_body req = None) rest.
Proof.
  intros _ Hu. unfold node_url in *. unfold requests.
  apply (wp_run _ (λ _ s', ∃ put rest m, st_trace s' = put :: rest ∧ _)).
  unfold resourceGns3DockerUpdate.
  repeat first [rewrite Hu | wp_step | unfold resourceGns3DockerRead].
  all: eexists _, _, _; split; [reflexivity|]; cbn.
  all: repeat split; rewrite ?lookup_assign_if_ne by done; try done.
  all: repeat constructor.
Qed.

Lemma docker_update_drops_start_command_witness :
  HasChange d_new_command "start_command" = true ∧
  url_error (answering 200 "") (node_url meta0 d_new_command) = None ∧
  ∃ put rest m,
    requests (run (resourceGns3DockerUpdate (answering 200 "") meta0)
                  d_new_command) = put :: rest ∧
    req_method put = "PUT" ∧ req_url put = node_url meta0 d_new_command ∧
    req_body put = Some (JObj m) ∧
    m !! "start_command" = None ∧ m !! "properties" = None ∧
    Forall (λ req, req_method req = "GET" ∧ req_body req = None) rest.
Proof.
  split; [vm_compute; reflexivity|]. split; [reflexivity|].
  apply (docker_update_drops_start_command (answering 200 "") meta0
           d_new_command); [vm_compute; reflexivity | reflexivity].
Defined.

(** X22.  The Docker Update sends the same requests and returns the same
    error whether or not [start_command] has changed. *)
Lemma docker_update_ignores_start_command w meta d :
  let r := run (resourceGns3DockerUpdate w meta) d in
  let r' := run (resourceGns3DockerUpdate w meta)
                (unchanged "start_command" d) in
  requests r = requests r' ∧ returned_error r = returned_error r'.
Proof.
  intros r r'. subst r r'.
  unfold resourceGns3DockerUpdate, resourceGns3DockerRead. exec.
  rewrite (HasChange_unchanged_ne "start_command" "environment") by done.
  unfold unchanged, GetString, GetMap. cbn [rd_id rd_attrs].
  destruct (url_error w _) eqn:Hu; [done|]. exec.
  destruct (round_trip w [] _) as [err|resp]; [done|]. exec.
  destruct (decide (StatusCode resp ≠ StatusOK)); [done|]. exec.
  rewrite Hu. exec.
  destruct (round_trip w _ _) as [err|resp']; [done|]. exec.
  branch; done.
Qed.

Lemma is_Some_assign_if cond key v m key' :
  is_Some (assign_if cond key v m !! key') ↔
  (key = key' ∧ cond = true) ∨ is_Some (m !! key').
Proof.
  unfold assign_if. destruct cond.
  - destruct (decide (key = key')) as [->|]; simplify_map_eq;
      rewrite ?is_Some_alt; naive_solver.
  - naive_solver.
Qed.

Lemma HasChange_true d key : HasChange d key = true ↔ key ∈ rd_changed d.
Proof. apply bool_decide_eq_true. Qed.

Lemma elem_of_payload_attributes m key :
  key ∈ payload_attributes m ↔
  (key ≠ "properties" ∧ is_Some (m !! key)) ∨
  is_Some (properties_of m !! key).
Proof.
  unfold payload_attributes.
  rewrite elem_of_union, !elem_of_dom, lookup_delete.
  case_decide; subst; rewrite ?is_Some_alt; naive_solver.
Qed.

Lemma wp_wand {A} (m : M A) (Q1 Q2 : outcome A → State → Prop) s :
  wp m Q1 s → (∀ o s', Q1 o s' → Q2 o s') → wp m Q2 s.
Proof. unfold wp. auto. Qed.

(** A PUT followed by a Read is one PUT followed by GETs. *)
Lemma one_put_then_read w k meta P put m d :
  req_method put = "PUT" → req_body put = Some (JObj m) → P m →
  wp (Read (resource w k) meta) (λ _ s', one_put P (st_trace s'))
     (mkState d [put]).
Proof.
  intros Hm Hb HP. eapply wp_wand; [apply read_only_gets|].
  intros _ s' (more & Ht & Hg). right. exists put, more, m. done.
Qed.

Lemma HasChange_intro d key : key ∈ rd_changed d → HasChange d key = true.
Proof. apply HasChange_true. Qed.

Lemma is_Some_assign_if_here cond key v m :
  cond = true → is_Some (assign_if cond key v m !! key).
Proof. intros ->. rewrite lookup_assign_if_eq. by eexists. Qed.

Lemma is_Some_assign_if_later cond key v m key' :
  is_Some (m !! key') → is_Some (assign_if cond key v m !! key').
Proof. rewrite is_Some_assign_if. auto. Qed.

(** A changed field is a member of the map the [assign_if]s build. *)
Ltac present :=
  solve [ repeat first
            [ by apply is_Some_assign_if_here
            | apply is_Some_assign_if_later ] ].

(** A member of the map the [assign_if]s build is a changed field. *)
Ltac members_changed H :=
  repeat (apply is_Some_assign_if in H; destruct H as [[<- H]|H];
          [first [done | by apply HasChange_true]|]);
  rewrite lookup_empty in H; by destruct H.

(** A map built by [assign_if]s of other keys has no [properties]. *)
Ltac no_properties H :=
  unfold properties_of in H;
  rewrite !(lookup_assign_if_ne _ _ _ _ "properties"), lookup_empty in H
    by done;
  simpl in H; rewrite lookup_empty in H; by destruct H.

(** The cases of membership in a set given by its elements. *)
Ltac cases_of Hf :=
  repeat (apply elem_of_union in Hf as [Hf|Hf]);
  apply elem_of_singleton in Hf; subst.

(** Membership in a set given by its elements. *)
Ltac in_set :=
  first [ by apply elem_of_singleton_2
        | apply elem_of_union_l; in_set
        | apply elem_of_union_r; in_set ].

Ltac flat_delta k :=
  split; intros key;
  [ intros [[Hk H]|H]%elem_of_payload_attributes;
    [members_changed H | no_properties H]
  | let Hc := fresh "Hc" in
    let Hf := fresh "Hf" in
    intros [Hc%HasChange_intro Hf]%elem_of_intersection;
    apply elem_of_payload_attributes; unfold update_fields in Hf;
    cases_of Hf; left; (split; [done|present]) ].

Ltac until_request :=
  repeat lazymatch goal with
         | |- wp (mbind _ (check (http_NewRequest _ _ _ _) _)) _ _ => fail
         | |- _ => wp_step
         end.

Ltac name_payload P :=
  match goal with
  | |- context [Some (JObj ?m)] =>
      let HP := fresh "HP" in assert (HP : P m)
  end.

Ltac put_leaf k :=
  first
    [ by left
    | right; eexists _, _, _; split; [reflexivity|];
      split; [reflexivity|]; split; [reflexivity|];
      split; [constructor | assumption]
    | eapply (one_put_then_read _ k);
      [reflexivity | reflexivity | assumption] ].

Lemma cloud_update_delta w meta d :
  wp (resourceGns3CloudUpdate w meta)
     (λ _ s', one_put (λ m, payload_attributes m ⊆ rd_changed d ∧
                            rd_changed d ∩ update_fields KCloud
                              ⊆ payload_attributes m)
                      (st_trace s'))
     (mkState d []).
Proof.
  unfold resourceGns3CloudUpdate. until_request; [by left|].
  name_payload (λ m, payload_attributes m ⊆ rd_changed d ∧
                     rd_changed d ∩ update_fields KCloud
                       ⊆ payload_attributes m).
  { flat_delta KCloud. }
  wp_steps; put_leaf KCloud.
Qed.

Lemma switch_update_delta w meta d :
  wp (resourceGns3SwitchUpdate w meta)
     (λ _ s', one_put (λ m, payload_attributes m ⊆ rd_changed d ∧
                            rd_changed d ∩ update_fields KSwitch
                              ⊆ payload_attributes m)
                      (st_trace s'))
     (mkState d []).
Proof.
  unfold resourceGns3SwitchUpdate. until_request; [by left|].
  name_payload (λ m, payload_attributes m ⊆ rd_changed d ∧
                     rd_changed d ∩ update_fields KSwitch
                       ⊆ payload_attributes m).
  { flat_delta KSwitch. }
  wp_steps; put_leaf KSwitch.
Qed.

(** The Docker body: [environment] when it has changed, and never one of
    the flat fields. *)
Lemma docker_update_delta w meta d :
  wp (resourceGns3DockerUpdate w meta)
     (λ _ s', one_put (λ m, (payload_attributes m ⊆ rd_changed d ∧
                             rd_changed d ∩ update_fields KDocker
                               ⊆ payload_attributes m) ∧
                            ∀ f, f ∈ docker_flat_fields →
                                 m !! f = None ∧ properties_of m !! f = None)
                      (st_trace s'))
     (mkState d []).
Proof.
  unfold resourceGns3DockerUpdate. until_request.
  name_payload (λ m, (payload_attributes m ⊆ rd_changed d ∧
                      rd_changed d ∩ update_fields KDocker
                        ⊆ payload_attributes m) ∧
                     ∀ f, f ∈ docker_flat_fields →
                          m !! f = None ∧ properties_of m !! f = None).
  { split.
    - flat_delta KDocker.
    - intros f Hf. unfold properties_of.
      rewrite !(lookup_assign_if_ne _ _ _ _ "properties") by done. simpl.
      rewrite lookup_empty. split; [|done].
      unfold docker_flat_fields in Hf. cases_of Hf;
        by rewrite lookup_assign_if_ne, lookup_empty. }
  wp_steps; put_leaf KDocker.
Qed.

(** The template body has the same four members whatever has changed. *)
Lemma template_update_payload w meta d :
  wp (resourceGns3TemplateUpdate w meta)
     (λ _ s', one_put (λ m, dom m = {[ "name"; "compute_id"; "x"; "y" ]})
                      (st_trace s'))
     (mkState d []).
Proof.
  unfold resourceGns3TemplateUpdate. until_request.
  name_payload (λ m : gmap string json,
                  dom m = ({[ "name"; "compute_id"; "x"; "y" ]} : gset string)).
  { cbv beta. rewrite !dom_insert_L, dom_empty_L. set_solver. }
  wp_steps; put_leaf KTemplate.
Qed.

Lemma properties_of_assign cond props top :
  top !! "properties" = None → (cond = false → props = ∅) →
  properties_of (assign_if cond "properties" (JObj props) top) = props.
Proof.
  intros Ht He. unfold properties_of. rewrite lookup_assign_if_eq.
  destruct cond; simpl; [done|]. rewrite Ht. simpl. by rewrite He.
Qed.

Lemma no_properties_empty (props : gmap string json) :
  bool_decide (0 < size props)%nat = false → props = ∅.
Proof.
  intros H%bool_decide_eq_false. apply map_size_empty_inv. lia.
Qed.

(** The QEMU body: changed flat fields at the top level, changed
    [properties] fields inside [properties], and nothing else. *)
Lemma qemu_update_delta w meta d :
  wp (resourceGns3QemuUpdate w meta)
     (λ _ s', one_put
        (λ m, (payload_attributes m ⊆ rd_changed d ∧
               rd_changed d ∩ update_fields KQemu ⊆ payload_attributes m) ∧
              (∀ f, f ∈ qemu_nested_fields →
                    (f ∈ rd_changed d → is_Some (properties_of m !! f)) ∧
                    m !! f = None) ∧
              (∀ f, f ∈ qemu_flat_fields →
                    (f ∈ rd_changed d → is_Some (m !! f)) ∧
                    properties_of m !! f = None))
        (st_trace s'))
     (mkState d []).
Proof.
  unfold resourceGns3QemuUpdate. until_request; [by left|].
  name_payload
    (λ m, (payload_attributes m ⊆ rd_changed d ∧
           rd_changed d ∩ update_fields KQemu ⊆ payload_attributes m) ∧
          (∀ f, f ∈ qemu_nested_fields →
                (f ∈ rd_changed d → is_Some (properties_of m !! f)) ∧
                m !! f = None) ∧
          (∀ f, f ∈ qemu_flat_fields →
                (f ∈ rd_changed d → is_Some (m !! f)) ∧
                properties_of m !! f = None)).
  { cbv beta.
    rewrite properties_of_assign;
      [ | by rewrite !lookup_assign_if_ne, lookup_empty
        | apply no_properties_empty ].
    split; [split|split].
    - intros key [[Hk H]|H]%elem_of_payload_attributes.
      + members_changed H.
      + rewrite properties_of_assign in H;
          [ | by rewrite !lookup_assign_if_ne, lookup_empty
            | apply no_properties_empty ].
        members_changed H.
    - intros key [Hc%HasChange_intro Hf]%elem_of_intersection.
      apply elem_of_payload_attributes.
      rewrite properties_of_assign;
        [ | by rewrite !lookup_assign_if_ne, lookup_empty
          | apply no_properties_empty ].
      unfold update_fields, qemu_flat_fields, qemu_nested_fields in Hf.
      cases_of Hf;
        first [ left; split; [done|present] | right; present ].
    - intros f Hf. unfold qemu_nested_fields in Hf. cases_of Hf.
      all: split; [|by rewrite !lookup_assign_if_ne, lookup_empty].
      all: intros Hc%HasChange_intro; present.
    - intros f Hf. unfold qemu_flat_fields in Hf. cases_of Hf.
      all: split; [|by rewrite !lookup_assign_if_ne, lookup_empty].
      all: intros Hc%HasChange_intro; present. }
  wp_steps; put_leaf KQemu.
Qed.

Lemma one_put_mono (P P' : gmap string json → Prop) trace :
  (∀ m, P m → P' m) → one_put P trace → one_put P' trace.
Proof.
  intros HP [->|(put & gets & m & ? & ? & ? & ? & ?)]; [by left|].
  right. exists put, gets, m. repeat split; auto.
Qed.

Lemma payload_attributes_empty : payload_attributes ∅ = ∅.
Proof.
  apply elem_of_equiv_empty_L. intros key.
  rewrite elem_of_payload_attributes. unfold properties_of.
  rewrite !lookup_empty. simpl. rewrite lookup_empty, !is_Some_alt. tauto.
Qed.

(** A request log that starts with a request is not empty after a Read. *)
Lemma sent_then_read w k meta put d :
  wp (Read (resource w k) meta) (λ _ s', st_trace s' ≠ []) (mkState d [put]).
Proof.
  eapply wp_wand; [apply read_only_gets|].
  intros _ s' (more & Ht & _). rewrite Ht. done.
Qed.

Ltac until_noop :=
  repeat lazymatch goal with
         | |- wp (if decide _ then _ else _) _ _ => fail
         | |- _ => wp_step
         end.

(** When a field it passes on has changed, the QEMU Update sends its
    request, provided the request can be built. *)
Lemma qemu_update_sends w meta d :
  url_error w (node_url meta d) = None →
  rd_changed d ∩ update_fields KQemu ≠ ∅ →
  wp (resourceGns3QemuUpdate w meta) (λ _ s', st_trace s' ≠ [])
     (mkState d []).
Proof.
  intros Hu Hne. unfold node_url in Hu.
  unfold resourceGns3QemuUpdate. until_noop.
  match goal with
  | |- wp (if decide (size ?m = _) then _ else _) _ _ =>
      assert (HP : rd_changed d ∩ update_fields KQemu ⊆ payload_attributes m)
  end.
  { intros key [Hc%HasChange_intro Hf]%elem_of_intersection.
    apply elem_of_payload_attributes.
    rewrite properties_of_assign;
      [ | by rewrite !lookup_assign_if_ne, lookup_empty
        | apply no_properties_empty ].
    unfold update_fields, qemu_flat_fields, qemu_nested_fields in Hf.
    cases_of Hf; first [ left; split; [done|present] | right; present ]. }
  wp_step.
  - exfalso. apply Hne. apply elem_of_equiv_empty_L. intros key Hk.
    apply HP in Hk.
    match goal with H : size _ = 0%nat |- _ =>
      apply map_size_empty_inv in H; rewrite H in Hk end.
    by rewrite payload_attributes_empty in Hk.
  - repeat first [rewrite Hu | wp_step]; try done.
    apply (sent_then_read _ KQemu).
Qed.

Lemma template_update_sends w meta d :
  url_error w (node_url meta d) = None →
  wp (resourceGns3TemplateUpdate w meta) (λ _ s', st_trace s' ≠ [])
     (mkState d []).
Proof.
  intros Hu. unfold node_url in Hu. unfold resourceGns3TemplateUpdate.
  repeat first [rewrite Hu | wp_step]; try done.
  apply (sent_then_read _ KTemplate).
Qed.

(** ** Updates without a change *)

Lemma HasChange_undeclared (S : gset string) d key :
  rd_changed d ∩ S = ∅ → key ∈ S → HasChange d key = false.
Proof.
  intros He Hk. apply bool_decide_eq_false. intros Hc.
  apply (not_elem_of_empty (C:=gset string) key). rewrite <- He.
  by apply elem_of_intersection.
Qed.

Ltac declared := pick; in_set.

Ltac nothing_changed He :=
  until_noop;
  match goal with
  | |- wp (if decide (size ?m = _) then _ else _) _ _ =>
      let Hm := fresh "Hm" in
      assert (Hm : m = ∅);
      [ rewrite !(HasChange_undeclared _ _ _ He) by declared;
        cbn [assign_if]; rewrite ?map_size_empty;
        rewrite ?bool_decide_eq_false_2 by lia; done
      | rewrite Hm; wp_step; [done | by rewrite map_size_empty in *] ]
  end.

Lemma update_without_change w meta d k :
  k = KCloud ∨ k = KSwitch ∨ k = KQemu →
  rd_changed d ∩ Schema (resource w k) = ∅ →
  run (Update (resource w k) meta) d = (Done (), mkState d []).
Proof.
  intros Hk He.
  cut (wp (Update (resource w k) meta)
          (λ o s', o = Done () ∧ s' = mkState d []) (mkState d [])).
  { unfold wp, run. destruct (Update _ _ _) as [o s']. simpl.
    by intros [-> ->]. }
  destruct Hk as [->|[->| ->]]; pick.
  - unfold resourceGns3CloudUpdate. nothing_changed He.
  - unfold resourceGns3SwitchUpdate. nothing_changed He.
  - unfold resourceGns3QemuUpdate. nothing_changed He.
Qed.

(** ** Updates with something to send *)

Ltac attempt_leaf k :=
  cbn [st_d st_trace];
  first
    [ by left
    | right; eexists _, _; unfold node_url;
      split; [eassumption|]; split; reflexivity
    | eapply wp_wand; [apply (sent_then_read _ k)|]; intros; by left ].

(** An Update that has something to send goes as far as building its
    request: it sends it, or it returns the error of the URL with the
    resource as it was. *)
Lemma update_attempts w meta d k :
  k = KTemplate ∨ k = KDocker ∨ rd_changed d ∩ update_fields k ≠ ∅ →
  wp (Update (resource w k) meta)
     (λ o s', st_trace s' ≠ [] ∨
              ∃ err format,
                url_error w (node_url meta d) = Some err ∧
                o = Failed (Errorf format [AErr err]) ∧ s' = mkState d [])
     (mkState d []).
Proof.
  intros Hk. destruct k; pick.
  - destruct Hk as [?|[?|Hne]]; [done|done|].
    unfold resourceGns3CloudUpdate. until_noop.
    match goal with
    | |- wp (if decide (size ?m = _) then _ else _) _ _ =>
        assert (HP : rd_changed d ∩ update_fields KCloud
                     ⊆ payload_attributes m)
    end.
    { intros key [Hc%HasChange_intro Hf]%elem_of_intersection.
      apply elem_of_payload_attributes. unfold update_fields in Hf.
      cases_of Hf; left; (split; [done|present]). }
    wp_step.
    + exfalso. apply Hne. apply elem_of_equiv_empty_L. intros key Hkey.
      apply HP in Hkey.
      match goal with H : size _ = 0%nat |- _ =>
        apply map_size_empty_inv in H; rewrite H in Hkey end.
      by rewrite payload_attributes_empty in Hkey.
    + hide_update. wp_steps; attempt_leaf KCloud.
  - destruct Hk as [?|[?|Hne]]; [done|done|].
    unfold resourceGns3SwitchUpdate. until_noop.
    match goal with
    | |- wp (if decide (size ?m = _) then _ else _) _ _ =>
        assert (HP : rd_changed d ∩ update_fields KSwitch
                     ⊆ payload_attributes m)
    end.
    { intros key [Hc%HasChange_intro Hf]%elem_of_intersection.
      apply elem_of_payload_attributes. unfold update_fields in Hf.
      cases_of Hf; left; (split; [done|present]). }
    wp_step.
    + exfalso. apply Hne. apply elem_of_equiv_empty_L. intros key Hkey.
      apply HP in Hkey.
      match goal with H : size _ = 0%nat |- _ =>
        apply map_size_empty_inv in H; rewrite H in Hkey end.
      by rewrite payload_attributes_empty in Hkey.
    + hide_update. wp_steps; attempt_leaf KSwitch.
  - unfold resourceGns3TemplateUpdate. until_update. hide_update.
    wp_steps; attempt_leaf KTemplate.
  - unfold resourceGns3DockerUpdate. until_update. hide_update.
    wp_steps; attempt_leaf KDocker.
  - destruct Hk as [?|[?|Hne]]; [done|done|].
    unfold resourceGns3QemuUpdate. until_noop.
    match goal with
    | |- wp (if decide (size ?m = _) then _ else _) _ _ =>
        assert (HP : rd_changed d ∩ update_fields KQemu
                     ⊆ payload_attributes m)
    end.
    { intros key [Hc%HasChange_intro Hf]%elem_of_intersection.
      apply elem_of_payload_attributes.
      rewrite properties_of_assign;
        [ | by rewrite !lookup_assign_if_ne, lookup_empty
          | apply no_properties_empty ].
      unfold update_fields, qemu_flat_fields, qemu_nested_fields in Hf.
      cases_of Hf; first [ left; split; [done|present] | right; present ]. }
    wp_step.
    + exfalso. apply Hne. apply elem_of_equiv_empty_L. intros key Hkey.
      apply HP in Hkey.
      match goal with H : size _ = 0%nat |- _ =>
        apply map_size_empty_inv in H; rewrite H in Hkey end.
      by rewrite payload_attributes_empty in Hkey.
    + hide_update. wp_steps; attempt_leaf KQemu.
Qed.

Ltac passed_on :=
  unfold update_fields, qemu_flat_fields, qemu_nested_fields; in_set.

Ltac nothing_to_send He :=
  until_noop;
  match goal with
  | |- wp (if decide (size ?m = _) then _ else _) _ _ =>
      let Hm := fresh "Hm" in
      assert (Hm : m = ∅);
      [ rewrite !(HasChange_undeclared _ _ _ He) by passed_on;
        cbn [assign_if]; rewrite ?map_size_empty;
        rewrite ?bool_decide_eq_false_2 by lia; done
      | rewrite Hm; wp_step; [done | by rewrite map_size_empty in *] ]
  end.

(** The cloud, switch and QEMU Updates return at once when none of the
    attributes they pass on has changed. *)
Lemma update_nothing_to_send w meta d k :
  k = KCloud ∨ k = KSwitch ∨ k = KQemu →
  rd_changed d ∩ update_fields k = ∅ →
  run (Update (resource w k) meta) d = (Done (), mkState d []).
Proof.
  intros Hk He.
  cut (wp (Update (resource w k) meta)
          (λ o s', o = Done () ∧ s' = mkState d []) (mkState d [])).
  { unfold wp, run. destruct (Update _ _ _) as [o s']. simpl.
    by intros [-> ->]. }
  destruct Hk as [->|[->| ->]]; pick.
  - unfold resourceGns3CloudUpdate. nothing_to_send He.
  - unfold resourceGns3SwitchUpdate. nothing_to_send He.
  - unfold resourceGns3QemuUpdate. nothing_to_send He.
Qed.

(** C2, amended.  For every kind but the template kind, the body of the
    Update request carries only attributes marked as changed, and every
    changed attribute among those the kind's Update passes on; and when
    such an attribute has changed and the URL of the node can be built, the
    request is sent: a PUT whose body carries the attribute.  For the
    cloud, switch and QEMU kinds, when no declared attribute has changed,
    Update performs no network call and returns nil.  The template kind
    sends [name], [compute_id], [x] and [y] whatever has changed, and sends
    its request even when nothing has. *)
Theorem update_delta (w : World) (meta : ProviderConfig) (d : ResourceData)
    (k : kind) :
  let r := run (Update (resource w k) meta) d in
  one_put (λ m, match k with
                | KTemplate => dom m = {[ "name"; "compute_id"; "x"; "y" ]}
                | _ => payload_attributes m ⊆ rd_changed d ∧
                       rd_changed d ∩ update_fields k ⊆ payload_attributes m
                end)
          (requests r) ∧
  (k = KCloud ∨ k = KSwitch ∨ k = KQemu →
   rd_changed d ∩ Schema (resource w k) = ∅ →
   r = (Done (), mkState d [])) ∧
  (k = KTemplate → url_error w (node_url meta d) = None → requests r ≠ []) ∧
  (k ≠ KTemplate → url_error w (node_url meta d) = None →
   ∀ a, a ∈ rd_changed d → a ∈ update_fields k →
        ∃ put gets m,
          requests r = put :: gets ∧ req_method put = "PUT" ∧
          req_body put = Some (JObj m) ∧ a ∈ payload_attributes m).
Proof.
  intros r.
  assert (Hput : one_put
            (λ m, match k with
                  | KTemplate => dom m = {[ "name"; "compute_id"; "x"; "y" ]}
                  | _ => payload_attributes m ⊆ rd_changed d ∧
                         rd_changed d ∩ update_fields k
                           ⊆ payload_attributes m
                  end)
            (requests r)).
  { subst r. unfold requests. destruct k; pick.
    + apply (wp_run _ (λ _ s', one_put _ (st_trace s'))), cloud_update_delta.
    + apply (wp_run _ (λ _ s', one_put _ (st_trace s'))), switch_update_delta.
    + apply (wp_run _ (λ _ s', one_put _ (st_trace s'))),
        template_update_payload.
    + eapply one_put_mono;
        [|apply (wp_run _ (λ _ s', one_put _ (st_trace s'))),
            docker_update_delta].
      by intros m [? _].
    + eapply one_put_mono;
        [|apply (wp_run _ (λ _ s', one_put _ (st_trace s'))),
            qemu_update_delta].
      by intros m [? _]. }
  split; [exact Hput|]. split; [|split].
  - apply update_without_change.
  - intros -> Hu. subst r. pick. unfold requests.
    by apply (wp_run _ (λ _ s', st_trace s' ≠ [])), template_update_sends.
  - intros Hk Hu a Hc Hf.
    assert (Hne : rd_changed d ∩ update_fields k ≠ ∅).
    { intros He. apply (not_elem_of_empty (C:=gset string) a).
      rewrite <- He. by apply elem_of_intersection. }
    assert (Hs : requests r ≠ []).
    { destruct (wp_run _ _ d (update_attempts w meta d k
                                (or_intror (or_intror Hne))))
        as [Hs|(err & ? & He & _)]; [exact Hs | by rewrite Hu in He]. }
    destruct Hput as [Hnil|(put & gets & m & Ht & Hm & Hb & _ & HP)];
      [done|].
    exists put, gets, m. split; [done|]. split; [done|]. split; [done|].
    destruct k; try done; apply HP; by apply elem_of_intersection.
Qed.

Lemma update_delta_witness :
  (KCloud = KCloud ∨ KCloud = KSwitch ∨ KCloud = KQemu) ∧
  rd_changed d_n1 ∩ Schema (resource (answering 200 "") KCloud) = ∅ ∧
  run (Update (resource (answering 200 "") KCloud) meta0) d_n1
    = (Done (), mkState d_n1 []).
Proof.
  assert (He : rd_changed d_n1 ∩ Schema (resource (answering 200 "") KCloud)
               = ∅) by (vm_compute; reflexivity).
  split; [by left|]. split; [exact He|].
  destruct (update_delta (answering 200 "") meta0 d_n1 KCloud)
    as (_ & Hnoop & _).
  apply Hnoop; [by left | exact He].
Defined.

(** The template Update with nothing changed still sends its PUT, with
    [name] in the body. *)
Lemma template_update_sends_unchanged_fields :
  let r := run (Update (resource (answering_json 200 (JObj ∅)) KTemplate)
                       meta0) d_n1 in
  rd_changed d_n1 = ∅ ∧
  returned_error r = None ∧
  req_method <$> requests r = ["PUT"; "GET"] ∧
  ∃ put rest m, requests r = put :: rest ∧ req_body put = Some (JObj m) ∧
                m !! "name" = Some (JStr "").
Proof.
  split; [done|]. split; [vm_compute; done|]. split; [vm_compute; done|].
  eexists _, _, _. split; [vm_compute; reflexivity|].
  split; [reflexivity|]. vm_compute. reflexivity.
Qed.

(** C4, amended.  The QEMU Update sends at most one PUT; in its body every
    changed field of the [properties] group is a member of [properties] and
    no such field is a member of the top level, every changed flat field is
    a member of the top level and no flat field is a member of
    [properties]; the PUT is sent whenever one of these fields has changed
    and the request can be built.  The Docker Update sends none of the flat
    fields, changed or not. *)
Theorem update_nesting (w : World) (meta : ProviderConfig)
    (d : ResourceData) :
  let qemu := run (Update (resource w KQemu) meta) d in
  let docker := run (Update (resource w KDocker) meta) d in
  one_put (λ m, (∀ f, f ∈ qemu_nested_fields →
                      (f ∈ rd_changed d → is_Some (properties_of m !! f)) ∧
                      m !! f = None) ∧
                (∀ f, f ∈ qemu_flat_fields →
                      (f ∈ rd_changed d → is_Some (m !! f)) ∧
                      properties_of m !! f = None))
          (requests qemu) ∧
  (url_error w (node_url meta d) = None →
   rd_changed d ∩ (qemu_flat_fields ∪ qemu_nested_fields) ≠ ∅ →
   requests qemu ≠ []) ∧
  one_put (λ m, ∀ f, f ∈ docker_flat_fields →
                     m !! f = None ∧ properties_of m !! f = None)
          (requests docker).
Proof.
  intros qemu docker. subst qemu docker. unfold requests. pick.
  split; [|split].
  - eapply one_put_mono;
      [|apply (wp_run _ (λ _ s', one_put _ (st_trace s'))),
          qemu_update_delta].
    by intros m [_ ?].
  - intros Hu Hne.
    by apply (wp_run _ (λ _ s', st_trace s' ≠ [])), qemu_update_sends.
  - eapply one_put_mono;
      [|apply (wp_run _ (λ _ s', one_put _ (st_trace s'))),
          docker_update_delta].
    by intros m [_ ?].
Qed.

Lemma update_nesting_witness :
  url_error (answering 200 "") (node_url meta0 d_moved) = None ∧
  rd_changed d_moved ∩ (qemu_flat_fields ∪ qemu_nested_fields) ≠ ∅ ∧
  requests (run (Update (resource (answering 200 "") KQemu) meta0) d_moved)
    ≠ [].
Proof.
  assert (Hne : rd_changed d_moved ∩ (qemu_flat_fields ∪ qemu_nested_fields)
                ≠ ∅).
  { vm_compute. discriminate. }
  split; [reflexivity|]. split; [exact Hne|].
  destruct (update_nesting (answering 200 "") meta0 d_moved)
    as (_ & Hsent & _).
  apply Hsent; [reflexivity | exact Hne].
Defined.

(** The Docker Update of a node whose [x] has changed sends a body without
    [x]. *)
Lemma docker_update_omits_changed_flat_field :
  let r := run (Update (resource (answering 200 "") KDocker) meta0) d_moved in
  HasChange d_moved "x" = true ∧
  ∃ put rest m, requests r = put :: rest ∧ req_method put = "PUT" ∧
                req_body put = Some (JObj m) ∧ m !! "x" = None.
Proof.
  split; [vm_compute; done|].
  eexists _, _, _. split; [vm_compute; reflexivity|].
  split; [reflexivity|]. split; [reflexivity|]. vm_compute. reflexivity.
Qed.

(** The Docker Update puts a changed [environment] at the top level of the
    body, not under [properties], where Create puts it. *)
Example docker_update_environment_at_top_level :
  let d := mkResourceData "n1"
             {[ "project_id" := VString "p1";
                "environment" := VMap {[ "A" := "1" ]} ]}
             {[ "environment" ]} in
  let r := run (Update (resource (answering 200 "") KDocker) meta0) d in
  ∃ put rest m, requests r = put :: rest ∧ req_body put = Some (JObj m) ∧
                m !! "environment" = Some (JStr "A=1") ∧
                m !! "properties" = None.
Proof.
  eexists _, _, _. split; [vm_compute; reflexivity|].
  split; [reflexivity|]. split; vm_compute; reflexivity.
Qed.

(** ** Create *)

Ltac rejected :=
  eexists _, _; split; [reflexivity|]; split; [reflexivity|];
  split; [reflexivity|]; split; [reflexivity|]; split; [carries|];
  first [exact I | carries].

(** C3, amended.  A creation response whose status is not 201 makes Create
    fail, for every kind but QEMU, which also takes 200 and fails on any
    status that is neither 201 nor 200.  The resource is left as it was.
    The error carries the status code; for the cloud and switch kinds it
    also carries the body as far as it decodes to a mapping, and for the
    Docker and QEMU kinds the body as it is. *)
Theorem create_status_policy (w : World) (meta : ProviderConfig)
    (d : ResourceData) (k : kind) (resp : Response) :
  let r := run (Create (resource w k) meta) d in
  let status := StatusCode resp in
  url_error w (create_url k meta d) = None →
  (∀ req, round_trip w [] req = inr resp) →
  status ≠ StatusCreated → (k = KQemu → status ≠ StatusOK) →
  ∃ e req,
    returned_error r = Some e ∧ st_d r.2 = d ∧ requests r = [req] ∧
    req_method req = "POST" ∧
    AInt status ∈ error_args e ∧
    match k with
    | KCloud | KSwitch => AMap (decode_map_lenient w (Body resp)) ∈ error_args e
    | KDocker | KQemu => AStr (Body resp) ∈ error_args e
    | KTemplate => True
    end.
Proof.
  intros r status Hu Hr Hs Hq. subst r status.
  unfold returned_error, requests.
  apply (wp_run _ (λ o s', ∃ e req,
           match o with Done _ => None | Failed e => Some e end = Some e ∧
           st_d s' = d ∧ st_trace s' = [req] ∧ _)).
  destruct k; pick; unfold create_url in Hu;
    [ unfold resourceGns3CloudCreate | unfold resourceGns3SwitchCreate
    | unfold resourceGns3TemplateCreate | unfold resourceGns3DockerCreate
    | unfold resourceGns3QemuCreate ].
  all: repeat first
         [ rewrite Hu | rewrite Hr
         | lazymatch goal with
           | |- wp (if decide _ then _ else _) _ _ =>
               apply wp_if_decide; intros Hd; [|exfalso; tauto]
           | |- _ => wp_step
           end ].
  all: rejected.
Qed.

Lemma create_status_policy_witness :
  url_error (answering 409 "exists") (create_url KDocker meta0 d_n1) = None ∧
  (∀ req, round_trip (answering 409 "exists") [] req
          = inr (mkResponse 409 "exists")) ∧
  ∃ e, returned_error (run (Create (resource (answering 409 "exists") KDocker)
                                   meta0) d_n1) = Some e ∧
       AInt 409 ∈ error_args e ∧ AStr "exists" ∈ error_args e.
Proof.
  split; [reflexivity|]. split; [reflexivity|].
  destruct (create_status_policy (answering 409 "exists") meta0 d_n1 KDocker
              (mkResponse 409 "exists") eq_refl (λ _, eq_refl))
    as (e & req & He & _ & _ & _ & Hs & Hb); [done|done|].
  exists e. done.
Defined.

(** The QEMU Create takes a 200 for a success. *)
Lemma qemu_create_accepts_200 :
  let w := answering_json 200 (JObj {[ "node_id" := JStr "n1" ]}) in
  let r := run (Create (resource w KQemu) meta0) d_new in
  returned_error r = None ∧ final_id r = "n1" ∧
  req_method <$> requests r = ["POST"; "GET"].
Proof. vm_compute. done. Qed.

(** The template Create reports a rejected request by its status code
    alone. *)
Example template_create_error_omits_body :
  returned_error (run (Create (resource (answering 409 "exists") KTemplate)
                              meta0) d_new)
  = Some (Errorf "failed to create GNS3 template, status code: %d"
                 [AInt 409]).
Proof. vm_compute. done. Qed.

(** ** Create and the identity *)

(** Up to the creation request, whose body is then a name. *)
Ltac until_create :=
  repeat lazymatch goal with
         | |- wp (mbind _ (check (http_NewRequest _ _ _ _) _)) _ _ => fail
         | |- wp (mbind _ (check (http_Post _ _ _ _) _)) _ _ => fail
         | |- _ => wp_step
         end.

Ltac hide_payload :=
  try match goal with
      | |- context [Some (JObj ?m)] =>
          let body := fresh "body" in set (body := m) in *; clearbody body
      end.

Lemma accepted_status k status : ¬ status ≠ StatusCreated → accepts k status.
Proof. intros. left. lia. Qed.

Lemma qemu_accepted_status status :
  ¬ (status ≠ StatusCreated ∧ status ≠ StatusOK) → accepts KQemu status.
Proof.
  intros. unfold accepts.
  destruct (decide (status = StatusCreated)); [by left|].
  right. split; [done|]. lia.
Qed.

Ltac succeeded := intros [? ?]; done.

Ltac started :=
  cbn [post_create_step];
  repeat match goal with
         | H : GetBool _ _ = true |- _ =>
             unfold GetBool in H; cbn [rd_attrs] in H;
             rewrite ?lookup_insert_ne in H by done
         end;
  first [done | by unfold GetBool].

(** The answer to the creation request, and what it made of the body. *)
Ltac the_answer Hl Hr Hi :=
  simpl in Hl; injection Hl as <-;
  match goal with
  | H : round_trip _ [] _ = _ |- _ =>
      lazymatch H with Hr => fail | _ => rewrite H in Hr end
  end;
  try discriminate Hr; injection Hr as <-;
  unfold created_id in Hi;
  repeat match goal with
         | H : match json_parse _ _ with _ => _ end = _ |- _ =>
             rewrite H in Hi
         end;
  cbn [node_id_of member_id_of] in Hi;
  repeat match goal with
         | H : as_string _ = _ |- _ => rewrite H in Hi
         end;
  repeat case_decide; try discriminate Hi; try injection Hi as <-.

Ltac refused :=
  match goal with
  | Ha : accepts _ _ |- _ =>
      unfold accepts, StatusCreated, StatusOK in *;
      exfalso; destruct Ha as [?|[? ?]]; first [lia | tauto | done]
  end.

Ltac failed_leaf :=
  unfold failed_create; cbn [st_d st_trace rd_id];
  first
    [ succeeded
    | intros _; split; [|split; [|split]];
      [ let Hl := fresh "Hl" in
        let Hr := fresh "Hr" in
        let Ha := fresh "Ha" in
        let Hi := fresh "Hi" in
        intros post' resp' nodeID Hl Hr Ha Hi;
        first [ discriminate Hl
              | the_answer Hl Hr Hi;
                first [ refused | done | tauto
                      | split; [reflexivity|]; split; [tauto|started] ] ]
      | let H := fresh "H" in
        intros H;
        first [ reflexivity
              | exfalso;
                match goal with
                | Hr : round_trip _ [] ?post = inr ?resp |- _ =>
                    let Hi := fresh "Hi" in
                    assert (Hi := H post resp eq_refl Hr);
                    lapply Hi;
                    [ clear Hi; intros Hi; unfold created_id in Hi;
                      repeat match goal with
                             | H' : match json_parse _ _ with _ => _ end = _
                               |- _ => rewrite H' in Hi
                             end;
                      cbn [node_id_of member_id_of] in Hi;
                      repeat match goal with
                             | H' : as_string _ = _ |- _ => rewrite H' in Hi
                             end;
                      repeat case_decide; first [discriminate Hi | tauto]
                    | first [ by apply accepted_status
                            | by apply qemu_accepted_status ] ]
                end ]
      | first [ intros _; reflexivity | intros [?|?]; discriminate ]
      | intros ? ?; first [ discriminate | done | tauto ] ] ].

Lemma cloud_create_failure w meta d :
  wp (resourceGns3CloudCreate w meta) (failed_create w KCloud d)
     (mkState d []).
Proof.
  unfold resourceGns3CloudCreate, marshal_Cloud. until_create. hide_payload.
  wp_steps; failed_leaf.
Qed.

Lemma switch_create_failure w meta d :
  wp (resourceGns3SwitchCreate w meta) (failed_create w KSwitch d)
     (mkState d []).
Proof.
  unfold resourceGns3SwitchCreate, marshal_Switch. until_create. hide_payload.
  wp_steps; failed_leaf.
Qed.

Lemma docker_create_failure w meta d :
  wp (resourceGns3DockerCreate w meta) (failed_create w KDocker d)
     (mkState d []).
Proof.
  unfold resourceGns3DockerCreate, marshal_DockerNode. until_create.
  hide_payload. wp_steps; failed_leaf.
Qed.

Lemma template_create_failure w meta d :
  wp (resourceGns3TemplateCreate w meta) (failed_create w KTemplate d)
     (mkState d []).
Proof.
  unfold resourceGns3TemplateCreate. until_create. hide_payload.
  wp_steps; failed_leaf.
Qed.

Lemma qemu_create_failure w meta d :
  wp (resourceGns3QemuCreate w meta) (failed_create w KQemu d)
     (mkState d []).
Proof.
  unfold resourceGns3QemuCreate. until_create. hide_payload.
  wp_steps; try failed_leaf.
  all: eapply wp_wand; [apply qemu_read_keeps_or_clears|].
  all: cbn [st_d st_trace rd_id];
    intros o s' [[more Ht] [Hid|(_ & -> & _)]]; [|succeeded].
  all: unfold failed_create; rewrite Ht, Hid; failed_leaf.
Qed.

(** C5, amended.  Where a Create that returns an error leaves the identity
    depends on the place where it failed.  If the creation request was
    answered with an accepted status and a node id, the Create has
    assigned that id and failed in a step that follows: the start request
    of the Docker, template and QEMU kinds, or the Read the QEMU kind ends
    with; the identity is still that id, and not empty.  Otherwise it
    failed before the assignment and the resource is as it was.  The cloud
    and switch kinds, which have no step after the assignment, leave the
    identity as it was whenever they fail; and a Create that fails after
    its second request went out has an identity. *)
Theorem create_failure_identity (w : World) (meta : ProviderConfig)
    (d : ResourceData) (k : kind) :
  let r := run (Create (resource w k) meta) d in
  is_Some (returned_error r) →
  (∀ post resp nodeID,
     requests r !! 0%nat = Some post → round_trip w [] post = inr resp →
     accepts k (StatusCode resp) → created_id w k (Body resp) = Some nodeID →
     final_id r = nodeID ∧ nodeID ≠ "" ∧ post_create_step k d = true) ∧
  ((∀ post resp,
      requests r !! 0%nat = Some post → round_trip w [] post = inr resp →
      accepts k (StatusCode resp) → created_id w k (Body resp) = None) →
   st_d r.2 = d) ∧
  (k = KCloud ∨ k = KSwitch → final_id r = rd_id d) ∧
  (∀ req, requests r !! 1%nat = Some req → final_id r ≠ "").
Proof.
  intros r. subst r. unfold returned_error, final_id, requests.
  apply (wp_run _ (failed_create w k d)).
  destruct k; pick.
  - apply cloud_create_failure.
  - apply switch_create_failure.
  - apply template_create_failure.
  - apply docker_create_failure.
  - apply qemu_create_failure.
Qed.

Lemma create_failure_identity_witness :
  let r := run (Create (resource created_not_started KDocker) meta0)
               d_container in
  is_Some (returned_error r) ∧ final_id r = "n1".
Proof.
  intros r.
  assert (H : is_Some (returned_error r)) by (vm_compute; eexists; reflexivity).
  split; [exact H|].
  destruct (create_failure_identity created_not_started meta0 d_container
              KDocker H) as (Ha & _).
  destruct (Ha (mkRequest "POST" (create_url KDocker meta0 d_container)
                  (Some "application/json")
                  (Some (marshal_DockerNode
                           (mkDockerNode "c1" "docker" ""
                              (mkDockerProperties "alpine" None "none" [] None)
                              "" 0 0))))
               (mkResponse 201 "{...}") "n1") as (Hid & _);
    [reflexivity | reflexivity | by left | reflexivity | exact Hid].
Defined.

(** A Create that fails with the identity set: the node is created, the
    start request is refused. *)
Lemma create_fails_after_identity_is_set :
  let r := run (Create (resource created_not_started KTemplate) meta0) d_new in
  rd_id d_new = "" ∧ is_Some (returned_error r) ∧ final_id r = "n1".
Proof. vm_compute. split; [done|]. split; [by eexists|done]. Qed.

(** ** Import *)

Lemma cut_app sep before after :
  strings_Contains before sep = false →
  cut sep (before +:+ String sep after) = Some (before, after).
Proof.
  unfold strings_Contains. induction before as [|c before IH]; simpl.
  - by rewrite Ascii.eqb_refl.
  - destruct (Ascii.eqb c sep); [done|].
    destruct (cut sep before) as [[]|] eqn:Hc; [done|].
    intros _. by rewrite IH.
Qed.


Ltac import_slash Hb :=
  exec; unfold to_import, imported, strings_Contains, strings_SplitN2;
  cbn [rd_id]; change ("/" +:+ ?a) with (String "/" a);
  rewrite ?(cut_app _ _ _ Hb); exec; simpl; reflexivity.

(** An importer on a key [before/after], where [before] has no ['/'] and,
    for QEMU, the key has no [',']. *)
Lemma importer_splits_at_first_slash (w : World) (k : kind)
    (before after : string) (attrs : gmap string value)
    (changed : gset string) :
  strings_Contains before "/" = false →
  (k = KQemu → strings_Contains (before +:+ "/" +:+ after) "," = false) →
  run (Importer (resource w k))
      (to_import (before +:+ "/" +:+ after) attrs changed)
  = (Done [imported before after attrs changed],
     mkState (imported before after attrs changed) []).
Proof.
  intros Hb Hq. destruct k; pick.
  - unfold resourceGns3CloudImporter. import_slash Hb.
  - unfold resourceGns3SwitchImporter. import_slash Hb.
  - unfold resourceGns3TemplateImporter. import_slash Hb.
  - unfold resourceGns3DockerImporter. import_slash Hb.
  - unfold resourceQemuImporter. exec. unfold to_import. cbn [rd_id].
    rewrite (Hq eq_refl). import_slash Hb.
Qed.

(** C10, amended.  For every kind but QEMU, Import takes any raw key with a
    ['/'] in it: the owning project becomes what stands before the first
    ['/'] and the identity all that follows it, empty or with further
    separators as it may be.  The QEMU kind does the same for the keys that
    have no [','] in them. *)
Theorem import_slash_form (w : World) (k : kind) (before after : string)
    (attrs : gmap string value) (changed : gset string) :
  strings_Contains before "/" = false →
  (k = KQemu → strings_Contains (before +:+ "/" +:+ after) "," = false) →
  let raw := before +:+ "/" +:+ after in
  let r := run (Importer (resource w k)) (to_import raw attrs changed) in
  returned_error r = None ∧
  final_id r = after ∧
  GetString (st_d r.2) "project_id" = before ∧
  r.1 = Done [st_d r.2] ∧
  requests r = [].
Proof.
  intros Hb Hq raw r. subst raw r.
  rewrite (importer_splits_at_first_slash w k before after attrs changed Hb Hq).
  unfold returned_error, final_id, requests, imported, GetString. simpl.
  by rewrite lookup_insert_eq.
Qed.

Lemma import_slash_form_witness :
  strings_Contains "" "/" = false ∧
  (KCloud = KQemu → strings_Contains ("" +:+ "/" +:+ "n1") "," = false) ∧
  let r := run (Importer (resource (answering 200 "") KCloud))
               (to_import "/n1" ∅ ∅) in
  returned_error r = None ∧ final_id r = "n1" ∧
  GetString (st_d r.2) "project_id" = "".
Proof.
  split; [reflexivity|]. split; [done|].
  destruct (import_slash_form (answering 200 "") KCloud "" "n1" ∅ ∅)
    as (He & Hi & Hp & _); [reflexivity | done |].
  split; [exact He|]. split; [exact Hi | exact Hp].
Defined.

(** Only the first ['/'] separates: the identity keeps the others. *)
Example import_keeps_further_separators (w : World) (k : kind) :
  run (Importer (resource w k)) (to_import "p1/a/b" ∅ ∅)
  = (Done [imported "p1" "a/b" ∅ ∅], mkState (imported "p1" "a/b" ∅ ∅) []).
Proof.
  apply (importer_splits_at_first_slash w k "p1" "a/b" ∅ ∅); [reflexivity|].
  intros _. reflexivity.
Qed.

(** The QEMU importer reads a key with a [','] in it by the comma form,
    whether or not it has a ['/']. *)
Lemma qemu_import_prefers_comma :
  run (Importer (resource (answering 200 "") KQemu))
      (to_import "p1/a,b" ∅ ∅)
  = (Done [imported "b" "p1/a" ∅ ∅], mkState (imported "b" "p1/a" ∅ ∅) []) ∧
  imported "b" "p1/a" ∅ ∅ ≠ imported "p1" "a,b" ∅ ∅.
Proof. split; [reflexivity | discriminate]. Qed.




(** * More of the callbacks *)

(** ** Delete *)

Ltac outcome_leaf :=
  cbn [st_d st_trace];
  split; [first [by left | by right]|];
  split;
    [ intros ?; first [done | split; done]
    | first [by intros [? ?] | done] ].

(** X1.  Every Delete sends at most one request, a DELETE to the URL of the
    node, without a body.  When it returns nil it has sent that request
    and cleared the identity; when it returns an error the resource is as
    it was.  The attributes and the change flags are never written. *)
Theorem delete_outcome (w : World) (meta : ProviderConfig)
    (d : ResourceData) (k : kind) :
  let r := run (Delete (resource w k) meta) d in
  (requests r = [] ∨
   requests r = [mkRequest "DELETE" (node_url meta d) None None]) ∧
  (returned_error r = None → st_d r.2 = cleared d ∧ requests r ≠ []) ∧
  (is_Some (returned_error r) → st_d r.2 = d).
Proof.
  intros r. subst r. unfold returned_error, requests.
  apply (wp_run _ (λ o s',
           (st_trace s' = [] ∨ st_trace s' = [_]) ∧
           (match o with Done _ => None | Failed e => Some e end = None →
            st_d s' = cleared d ∧ st_trace s' ≠ []) ∧
           (is_Some (match o with Done _ => None | Failed e => Some e end) →
            st_d s' = d))).
  destruct k; pick;
    [ unfold resourceGns3CloudDelete | unfold resourceGns3SwitchDelete
    | unfold resourceGns3TemplateDelete | unfold resourceGns3DockerDelete
    | unfold resourceGns3QemuDelete ];
    wp_steps; outcome_leaf.
Qed.

(** ** Read *)

Lemma writes_only_bind {A B} S (m : M A) (f : A → M B) :
  writes_only S m → (∀ a, writes_only S (f a)) → writes_only S (m ≫= f).
Proof.
  intros Hm Hf s. rewrite run_bind.
  destruct (Hm s) as ([a Hd] & Hi & Hc & Ht & Ha).
  destruct (m s) as [o s']; simpl in *; subst o.
  destruct (Hf a s') as (Hd' & Hi' & Hc' & Ht' & Ha').
  repeat split; try congruence. intros key Hk. rewrite Ha', Ha; done.
Qed.

Lemma writes_only_ret {A} S (a : A) : writes_only S (mret a).
Proof. intros s. repeat split. by exists a. Qed.

Lemma writes_only_Set_ S key v : key ∈ S → writes_only S (Set_ key v).
Proof.
  intros Hk s. repeat split; [by eexists|]. intros key' Hk'. simpl.
  apply lookup_insert_ne. by intros ->.
Qed.

Lemma writes_only_Set_nil S key : key ∈ S → writes_only S (Set_nil key).
Proof.
  intros Hk s. repeat split; [by eexists|]. intros key' Hk'. simpl.
  apply lookup_delete_ne. by intros ->.
Qed.

Lemma writes_only_Set_string_member S key j :
  key ∈ S → writes_only S (Set_string_member key j).
Proof.
  intros Hk. destruct j as [[]|]; simpl;
    auto using writes_only_Set_, writes_only_Set_nil, writes_only_ret.
Qed.

Ltac writes_go :=
  repeat first
    [ apply writes_only_bind; [|intros]
    | apply writes_only_ret
    | apply writes_only_Set_; in_set
    | apply writes_only_Set_string_member; in_set
    | match goal with
      | |- writes_only _ (if ?b then _ else _) => destruct b
      | |- writes_only _ (match ?e with _ => _ end) => destruct e
      end ].

Lemma wp_writes_only {A} S (m : M A) (Q : outcome A → State → Prop) s :
  writes_only S m →
  (∀ a s', rd_id (st_d s') = rd_id (st_d s) →
           rd_changed (st_d s') = rd_changed (st_d s) →
           st_trace s' = st_trace s →
           (∀ key, key ∉ S →
                   rd_attrs (st_d s') !! key = rd_attrs (st_d s) !! key) →
           Q (Done a) s') →
  wp m Q s.
Proof.
  intros Hm HQ. destruct (Hm s) as ([a Hd] & ? & ? & ? & ?).
  unfold wp. rewrite Hd. by apply HQ.
Qed.

(** X2.  A Read stores nothing but the attributes it refreshes: none for
    the cloud, switch and Docker kinds, [name], [x] and [y] for the
    template kind, and these with [adapter_type], [adapters], [bios_image],
    [cdrom_image] and [cpus] for the QEMU kind.  Every other attribute and
    the change flags are as before, whatever the controller answers; and a
    Read sends at most one request, a GET to the URL of the node. *)
Theorem read_refreshes_only (w : World) (meta : ProviderConfig)
    (d : ResourceData) (k : kind) (key : string) :
  key ∉ refreshed k →
  let r := run (Read (resource w k) meta) d in
  rd_attrs (st_d r.2) !! key = rd_attrs d !! key ∧
  rd_changed (st_d r.2) = rd_changed d ∧
  (requests r = [] ∨
   requests r = [mkRequest "GET" (node_url meta d) None None]).
Proof.
  intros Hk r. subst r. unfold requests.
  apply (wp_run _ (λ _ s',
           rd_attrs (st_d s') !! key = rd_attrs d !! key ∧
           rd_changed (st_d s') = rd_changed d ∧
           (st_trace s' = [] ∨ st_trace s' = [_]))).
  destruct k; pick; cbn [refreshed] in Hk;
    [ unfold resourceGns3CloudRead | unfold resourceGns3SwitchRead
    | unfold resourceGns3TemplateRead | unfold resourceGns3DockerRead
    | unfold resourceGns3QemuRead ];
    until_projection.
  all: try (cbn [st_d st_trace]; split; [done|]; split; [done|];
            first [by left | by right]).
  all: first
         [ eapply (wp_writes_only (refreshed KTemplate));
           [cbn [refreshed]; solve [writes_go]|]
         | eapply (wp_writes_only (refreshed KQemu));
           [cbn [refreshed]; solve [writes_go]|] ];
    cbn [st_d st_trace rd_attrs rd_changed];
    intros ? s' _ Hc Ht Ha; rewrite Hc, Ht, (Ha key Hk);
    split; [done|]; split; [done|]; by right.
Qed.

Lemma read_refreshes_only_witness :
("ram" ∉ refreshed KQemu) ∧
  (rd_attrs (st_d (run (Read (resource
                                (answering_json 200
                                   (JObj {[ "name" := JStr "vm1" ]}))
                                KQemu) meta0) d_n1).2)) !! "ram"
  = rd_attrs d_n1 !! "ram".
Proof.
  assert (H : "ram" ∉ refreshed KQemu) by (unfold refreshed; set_solver).
  split; [exact H|].
  apply (read_refreshes_only
           (answering_json 200 (JObj {[ "name" := JStr "vm1" ]}))
           meta0 d_n1 KQemu "ram" H).
Defined.




(** ** Create *)

Ltac created_leaf :=
  cbn [st_d st_trace rd_id rd_attrs];
  first
    [ by intros ?
    | intros _; split; [tauto|];
      split; [first [exact I | unfold GetString; cbn [rd_attrs];
                               by rewrite lookup_insert_eq]|];
      split; [by eexists _, _|];
      intros key Hkey; first [done | apply lookup_insert_ne; congruence] ].

(** X4.  A Create of the cloud, switch, template or Docker kind that
    returns nil has set a non-empty identity, has stored it in the computed
    attribute of the kind ([cloud_id], [switch_id], [docker_id]) and has
    written no other attribute; its first request is a POST to the creation
    URL of the kind. *)
Theorem create_success_identity (w : World) (meta : ProviderConfig)
    (d : ResourceData) (k : kind) :
  k ≠ KQemu →
  let r := run (Create (resource w k) meta) d in
  returned_error r = None →
  final_id r ≠ "" ∧
  match id_attribute k with
  | Some a => GetString (st_d r.2) a = final_id r
  | None => True
  end ∧
  (∃ post rest, requests r = post :: rest ∧ req_method post = "POST" ∧
                req_url post = create_url k meta d) ∧
  ∀ key, id_attribute k ≠ Some key →
         rd_attrs (st_d r.2) !! key = rd_attrs d !! key.
Proof.
  intros Hk r. subst r. unfold returned_error, final_id, requests.
  apply (wp_run _ (λ o s',
           match o with Done _ => None | Failed e => Some e end = None →
           rd_id (st_d s') ≠ "" ∧
           match id_attribute k with
           | Some a => GetString (st_d s') a = rd_id (st_d s')
           | None => True
           end ∧
           (∃ post rest, st_trace s' = post :: rest ∧ req_method post = "POST" ∧
                         req_url post = create_url k meta d) ∧
           ∀ key, id_attribute k ≠ Some key →
                  rd_attrs (st_d s') !! key = rd_attrs d !! key)).
  destruct k; [| | | |done]; pick; cbn [id_attribute];
    [ unfold resourceGns3CloudCreate | unfold resourceGns3SwitchCreate
    | unfold resourceGns3TemplateCreate | unfold resourceGns3DockerCreate ];
    wp_steps; created_leaf.
Qed.

Lemma create_success_identity_witness :
  let w := answering_json 201 (JObj {[ "node_id" := JStr "n7" ]}) in
  KCloud ≠ KQemu ∧
  returned_error (run (Create (resource w KCloud) meta0) d_new) = None ∧
  final_id (run (Create (resource w KCloud) meta0) d_new) ≠ "" ∧
  GetString (st_d (run (Create (resource w KCloud) meta0) d_new).2) "cloud_id"
  = final_id (run (Create (resource w KCloud) meta0) d_new).
Proof.
  intros w.
  assert (Hk : KCloud ≠ KQemu) by discriminate.
  assert (He : returned_error (run (Create (resource w KCloud) meta0) d_new)
               = None) by (vm_compute; reflexivity).
  split; [exact Hk|]. split; [exact He|].
  destruct (create_success_identity w meta0 d_new KCloud Hk He)
    as (Hi & Ha & _).
  split; [exact Hi | exact Ha].
Defined.

(** X5.  The QEMU Create ends with a Read, so its nil does not mean that an
    identity is set: when the creation is accepted with a node id, no
    start is asked for, and the GET that follows is answered 404, Create
    returns nil with the identity empty, after two requests. *)
Theorem qemu_create_can_lose_identity (w : World) (meta : ProviderConfig)
    (d : ResourceData) (resp gone : Response) (m : gmap string json)
    (n : string) :
  (∀ u, url_error w u = None) →
  (∀ req, round_trip w [] req = inr resp) →
  accepts KQemu (StatusCode resp) →
  json_parse w (Body resp) = Some (JObj m) →
  m !! "node_id" = Some (JStr n) → n ≠ "" →
  GetBool d "start_vm" = false →
  (∀ post req, round_trip w [post] req = inr gone) →
  StatusCode gone = StatusNotFound →
  let r := run (Create (resource w KQemu) meta) d in
  returned_error r = None ∧ final_id r = "" ∧
  req_method <$> requests r = ["POST"; "GET"].
Proof.
  intros Hu Hr Ha Hp Hn Hne Hs Hg H4 r. subst r.
  unfold returned_error, final_id, requests, accepts in *.
  apply (wp_run _ (λ o s',
           match o with Done _ => None | Failed e => Some e end = None ∧
           rd_id (st_d s') = "" ∧
           req_method <$> st_trace s' = ["POST"; "GET"])).
  pick. unfold resourceGns3QemuCreate.
  repeat first
    [ rewrite Hu | rewrite Hr | rewrite Hp | rewrite Hn | rewrite Hg
    | progress cbn [unmarshal_map as_string]
    | progress (unfold GetBool in *; cbn [rd_attrs] in * )
    | rewrite Hs
    | lazymatch goal with
      | |- wp (if decide _ then _ else _) _ _ =>
          let Hd := fresh "Hd" in
          apply wp_if_decide; intros Hd;
          try (exfalso; first [tauto | intuition discriminate])
      | |- wp (resourceGns3QemuRead _ _) _ _ => unfold resourceGns3QemuRead
      | |- _ => wp_step
      end ].
  all: repeat split; reflexivity.
Qed.

Lemma qemu_create_can_lose_identity_witness :
  (∀ u, url_error created_then_gone u = None) ∧
  accepts KQemu 201 ∧
  returned_error (run (Create (resource created_then_gone KQemu) meta0) d_new)
  = None ∧
  final_id (run (Create (resource created_then_gone KQemu) meta0) d_new) = "".
Proof.
  assert (Ha : accepts KQemu 201) by (by left).
  split; [reflexivity|]. split; [exact Ha|].
  destruct (qemu_create_can_lose_identity created_then_gone meta0 d_new
              (mkResponse 201 "{...}") (mkResponse 404 "{...}")
              {[ "node_id" := JStr "n1" ]} "n1")
    as (He & Hi & _);
    first [reflexivity | exact Ha | done | split; assumption].
Defined.





(** A log that starts with a request still starts with it after a Read. *)
Lemma first_request_then_read w k meta (P : Request → Prop) post rest d' :
  P post →
  wp (Read (resource w k) meta)
     (λ _ s', ∃ post' rest', st_trace s' = post' :: rest' ∧ P post')
     (mkState d' (post :: rest)).
Proof.
  intros HP. eapply wp_wand; [apply read_only_gets|].
  intros _ s' (more & Ht & _). exists post, (rest ++ more). by rewrite Ht.
Qed.

Ltac until_post :=
  repeat lazymatch goal with
         | |- wp (mbind _ (check (http_NewRequest _ _ _ _) _)) _ _ => fail
         | |- wp (mbind _ (check (http_Post _ _ _ _) _)) _ _ => fail
         | |- _ => wp_step
         end.

(** Members of a marshalled struct. *)
Lemma lookup_put_string_omitempty key s m :
  put_string_omitempty key s m !! key
  = if String.eqb s "" then m !! key else Some (JStr s).
Proof.
  unfold put_string_omitempty. destruct (String.eqb s ""); by simplify_map_eq.
Qed.

Lemma lookup_put_string_omitempty_ne key s m key' :
  key ≠ key' → put_string_omitempty key s m !! key' = m !! key'.
Proof.
  unfold put_string_omitempty. destruct (String.eqb s ""); intros;
    by simplify_map_eq.
Qed.

Lemma lookup_put_int_omitempty key n m :
  put_int_omitempty key n m !! key
  = if Z.eqb n 0 then m !! key else Some (JNum n).
Proof. unfold put_int_omitempty. destruct (Z.eqb n 0); by simplify_map_eq. Qed.

Lemma lookup_put_int_omitempty_ne key n m key' :
  key ≠ key' → put_int_omitempty key n m !! key' = m !! key'.
Proof.
  unfold put_int_omitempty. destruct (Z.eqb n 0); intros; by simplify_map_eq.
Qed.

Lemma lookup_put_ptr_omitempty key p m :
  put_ptr_omitempty key p m !! key
  = match p with None => m !! key | Some s => Some (JStr s) end.
Proof. destruct p; by simplify_map_eq. Qed.

Lemma lookup_put_ptr_omitempty_ne key p m key' :
  key ≠ key' → put_ptr_omitempty key p m !! key' = m !! key'.
Proof. destruct p; intros; by simplify_map_eq. Qed.

Lemma lookup_put_list_omitempty key l m :
  put_list_omitempty key l m !! key
  = match l with [] => m !! key | _ => Some (JArr (JStr <$> l)) end.
Proof. destruct l; by simplify_map_eq. Qed.

Lemma lookup_put_list_omitempty_ne key l m key' :
  key ≠ key' → put_list_omitempty key l m !! key' = m !! key'.
Proof. destruct l; intros; by simplify_map_eq. Qed.

(** Looking a member up in a body that is written as a chain of
    assignments. *)
Ltac look :=
  repeat first
    [ rewrite lookup_insert_ne by done
    | rewrite lookup_insert_eq
    | rewrite lookup_put_string_omitempty_ne by done
    | rewrite lookup_put_int_omitempty_ne by done
    | rewrite lookup_put_ptr_omitempty_ne by done
    | rewrite lookup_put_list_omitempty_ne by done
    | rewrite lookup_put_string_omitempty
    | rewrite lookup_put_int_omitempty
    | rewrite lookup_put_ptr_omitempty
    | rewrite lookup_put_list_omitempty
    | rewrite lookup_empty ].

Ltac omitted_if_zero d :=
  constr:(λ c : string,
            if Z.eqb (GetInt d c) 0 then None else Some (JNum (GetInt d c))).

(** The members of the body about to be posted. *)
Ltac body_shape d nt co :=
  match goal with
  | |- context [Some (JObj ?m)] =>
      let T := eval cbv beta in
        (m !! "name" = Some (JStr (GetString d "name")) ∧
         m !! "node_id" = None ∧ m !! "node_type" = nt ∧
         ∀ c, c = "x" ∨ c = "y" → m !! c = co c) in
      assert (HP : T);
      [ cbn [Cloud_Name Cloud_NodeType Cloud_ComputeID Cloud_NodeID
             Cloud_X Cloud_Y Cloud_Symbol Switch_Name Switch_NodeType
             Switch_ComputeID Switch_NodeID Switch_X Switch_Y
             Switch_Symbol Docker_Name Docker_NodeType Docker_ComputeID
             Docker_Properties Docker_NodeID Docker_X Docker_Y];
        split; [|split; [|split; [|intros c [-> | ->]]]];
        look; try reflexivity; by repeat case_match
      | let body := fresh "body" in set (body := m) in *; clearbody body ]
  end.

Ltac posted_leaf k :=
  first
    [ eexists _, _; split; [reflexivity|];
      split; [reflexivity|]; split; [reflexivity|]; split; [reflexivity|];
      eexists; split; [reflexivity|]; assumption
    | apply (first_request_then_read _ k _
               (λ post, req_method post = "POST" ∧ _ ∧ _ ∧ _));
      split; [reflexivity|]; split; [reflexivity|]; split; [reflexivity|];
      eexists; split; [reflexivity|]; assumption ].

(** X7.  What every Create posts: a JSON object, to the creation URL of the
    kind, with the configured [name] and never a [node_id].  The cloud,
    switch, Docker and QEMU kinds name their [node_type]; the template kind
    sends none.  The kinds that marshal a struct (cloud, switch, Docker)
    leave a coordinate out when it is zero; the template and QEMU kinds
    always send [x] and [y]. *)
Theorem create_request_body (w : World) (meta : ProviderConfig)
    (d : ResourceData) (k : kind) :
  url_error w (create_url k meta d) = None →
  ∃ post rest,
    requests (run (Create (resource w k) meta) d) = post :: rest ∧
    req_method post = "POST" ∧ req_url post = create_url k meta d ∧
    req_content_type post = Some "application/json" ∧
    ∃ m, req_body post = Some (JObj m) ∧
      m !! "name" = Some (JStr (GetString d "name")) ∧
      m !! "node_id" = None ∧
      m !! "node_type" = match k with
                         | KCloud => Some (JStr "cloud")
                         | KSwitch => Some (JStr "ethernet_switch")
                         | KDocker => Some (JStr "docker")
                         | KQemu => Some (JStr "qemu")
                         | KTemplate => None
                         end ∧
      ∀ c, c = "x" ∨ c = "y" →
           m !! c = match k with
                    | KTemplate | KQemu => Some (JNum (GetInt d c))
                    | _ => if Z.eqb (GetInt d c) 0 then None
                           else Some (JNum (GetInt d c))
                    end.
Proof.
  intros Hu. unfold requests.
  apply (wp_run _ (λ _ s', ∃ post rest, st_trace s' = post :: rest ∧ _)).
  destruct k; pick; unfold create_url in *;
    [ unfold resourceGns3CloudCreate, marshal_Cloud
    | unfold resourceGns3SwitchCreate, marshal_Switch
    | unfold resourceGns3TemplateCreate
    | unfold resourceGns3DockerCreate, marshal_DockerNode
    | unfold resourceGns3QemuCreate ];
    until_post;
    [ let omitted := omitted_if_zero d in
      body_shape d (Some (JStr "cloud")) omitted
    | let omitted := omitted_if_zero d in
      body_shape d (Some (JStr "ethernet_switch")) omitted
    | body_shape d (@None json) (λ c : string, Some (JNum (GetInt d c)))
    | let omitted := omitted_if_zero d in
      body_shape d (Some (JStr "docker")) omitted
    | body_shape d (Some (JStr "qemu"))
                 (λ c : string, Some (JNum (GetInt d c))) ].
  all: repeat first [rewrite Hu | wp_step].
  1: posted_leaf KCloud.
  all: try posted_leaf KQemu.
Qed.

Lemma create_request_body_witness :
  url_error (answering 201 "") (create_url KTemplate meta0 d_new) = None ∧
  ∃ post rest,
    requests (run (Create (resource (answering 201 "") KTemplate) meta0) d_new)
      = post :: rest ∧
    req_url post = create_url KTemplate meta0 d_new.
Proof.
  split; [reflexivity|].
  destruct (create_request_body (answering 201 "") meta0 d_new KTemplate
              eq_refl) as (post & rest & Ht & _ & Hu & _).
  exists post, rest. split; [exact Ht | exact Hu].
Defined.




(** ** Requests that cannot be made *)

Ltac callbacks :=
  unfold resourceGns3CloudCreate, resourceGns3CloudRead,
    resourceGns3CloudUpdate, resourceGns3CloudDelete,
    resourceGns3SwitchCreate, resourceGns3SwitchRead,
    resourceGns3SwitchUpdate, resourceGns3SwitchDelete,
    resourceGns3TemplateCreate, resourceGns3TemplateRead,
    resourceGns3TemplateUpdate, resourceGns3TemplateDelete,
    resourceGns3DockerCreate, resourceGns3DockerRead,
    resourceGns3DockerUpdate, resourceGns3DockerDelete,
    resourceGns3QemuCreate, resourceGns3QemuRead,
    resourceGns3QemuUpdate, resourceGns3QemuDelete.

(** X9.  A transport failure of the first exchange.  Whatever the kind and
    the operation, when the controller cannot be reached the callback
    returns an error made of one operand, the error of the transport; the
    one request it tried is in the log and the resource is as it was.  (The
    callback sends nothing if the request cannot be built, or if it is an
    Update with nothing to send.) *)
Theorem transport_failure (w : World) (meta : ProviderConfig)
    (d : ResourceData) (k : kind) (op : operation) (err : lib_error) :
  (∀ req, round_trip w [] req = inl err) →
  let r := run (callback w k op meta) d in
  st_d r.2 = d ∧
  (requests r = [] ∨
   ∃ req format, requests r = [req] ∧
                 returned_error r = Some (Errorf format [AErr err])).
Proof.
  intros Hrt r. subst r. unfold requests, returned_error.
  apply (wp_run _ (λ o s',
           st_d s' = d ∧
           (st_trace s' = [] ∨
            ∃ req format,
              st_trace s' = [req] ∧
              match o with Done _ => None | Failed e => Some e end
              = Some (Errorf format [AErr err])))).
  destruct k, op; unfold callback; pick; callbacks;
    repeat first [rewrite Hrt; cbv beta iota | wp_step];
    (split; [reflexivity|]);
    first [by left | right; by eexists _, _].
Qed.

Lemma transport_failure_witness :
  let w := unreachable "dial tcp: connection refused" in
  let r := run (callback w KCloud OpDelete meta0) d_n1 in
  (∀ req, round_trip w [] req = inl "dial tcp: connection refused") ∧
  st_d r.2 = d_n1.
Proof.
  split; [reflexivity|].
  apply (transport_failure (unreachable "dial tcp: connection refused") meta0
           d_n1 KCloud OpDelete "dial tcp: connection refused").
  reflexivity.
Defined.



(** ** Update: the answer to the PUT *)

Ltac hide_body :=
  try match goal with
      | |- context [Some (JObj ?m)] =>
          let body := fresh "body" in set (body := m) in *; clearbody body
      end.

(** X11.  An Update whose PUT is answered with another status than 200
    stops there: it returns an error made of the status code and, for every
    kind but the template, the body of the answer; the PUT to the URL of
    the node is its only request, no Read follows, and the resource is as
    it was. *)
Theorem update_rejected (w : World) (meta : ProviderConfig)
    (d : ResourceData) (k : kind) (resp : Response) :
  (∀ req, round_trip w [] req = inr resp) →
  StatusCode resp ≠ 200 →
  let r := run (Update (resource w k) meta) d in
  st_d r.2 = d ∧
  (requests r = [] ∨
   ∃ put e,
     requests r = [put] ∧ req_method put = "PUT" ∧
     req_url put = node_url meta d ∧ returned_error r = Some e ∧
     error_args e = match k with
                    | KTemplate => [AInt (StatusCode resp)]
                    | _ => [AInt (StatusCode resp); AStr (Body resp)]
                    end).
Proof.
  intros Hrt Hs r. subst r. unfold requests, returned_error.
  apply (wp_run _ (λ o s',
           st_d s' = d ∧
           (st_trace s' = [] ∨
            ∃ put e,
              st_trace s' = [put] ∧ req_method put = "PUT" ∧
              req_url put = node_url meta d ∧
              match o with Done _ => None | Failed e => Some e end = Some e ∧
              error_args e
              = match k with
                | KTemplate => [AInt (StatusCode resp)]
                | _ => [AInt (StatusCode resp); AStr (Body resp)]
                end))).
  destruct k; pick; callbacks; until_request; hide_body;
    repeat first [rewrite Hrt; cbv beta iota | wp_step];
    try (exfalso; unfold StatusOK in *; tauto);
    (split; [reflexivity|]);
    first [by left | right; by eexists _, _].
Qed.

Lemma update_rejected_witness :
  let w := answering 409 "conflict" in
  let r := run (Update (resource w KSwitch) meta0) d_renamed in
  (∀ req, round_trip w [] req = inr (mkResponse 409 "conflict")) ∧
  st_d r.2 = d_renamed ∧ length (requests r) = 1%nat.
Proof.
  split; [reflexivity|].
  split; [|reflexivity].
  apply (update_rejected (answering 409 "conflict") meta0 d_renamed KSwitch
           (mkResponse 409 "conflict")); [reflexivity | discriminate].
Defined.

Ltac accepted k :=
  pick;
  unfold resourceGns3CloudUpdate, resourceGns3SwitchUpdate,
    resourceGns3TemplateUpdate, resourceGns3DockerUpdate,
    resourceGns3QemuUpdate;
  until_request; hide_body; wp_steps;
  first
    [ cbn [st_d st_trace]; intros [=]; fail
    | cbn [st_d st_trace]; intros [= <-]; exfalso;
      unfold StatusOK in *; congruence
    | match goal with
      | |- wp (_ ?w ?meta) _ (mkState ?d [?req]) =>
          let Hg := fresh "Hg" in
          pose proof (read_only_gets w k meta (mkState d [req])) as Hg;
          revert Hg; unfold wp; pick; intros (more & Hg & _);
          cbn [st_trace] in Hg; rewrite Hg; intros [= <-];
          symmetry; apply surjective_pairing
      end ].

(** X12.  An Update whose PUT is answered 200 is that PUT followed by a
    Read: the result of the Update, the resource it leaves and the
    requests in the log are those of the Read of the kind run on the
    resource as it was, with the PUT in the log. *)
Theorem update_accepted (w : World) (meta : ProviderConfig)
    (d : ResourceData) (k : kind) (put : Request) (resp : Response) :
  let r := run (Update (resource w k) meta) d in
  requests r !! 0%nat = Some put →
  round_trip w [] put = inr resp →
  StatusCode resp = 200 →
  r = Read (resource w k) meta (mkState d [put]).
Proof.
  intros r Hl Hr Hs. subst r. revert Hl. unfold requests.
  rewrite (surjective_pairing (run (Update (resource w k) meta) d)) at 2.
  apply (wp_run _ (λ o s',
           st_trace s' !! 0%nat = Some put →
           (o, s') = Read (resource w k) meta (mkState d [put]))).
  destruct k;
    [ accepted KCloud | accepted KSwitch | accepted KTemplate
    | accepted KDocker | accepted KQemu ].
Qed.

Lemma update_accepted_witness :
  let w := answering 200 "" in
  let put := mkRequest "PUT" (node_url meta0 d_renamed)
                       (Some "application/json")
                       (Some (JObj {[ "name" := JStr "sw2" ]})) in
  run (Update (resource w KSwitch) meta0) d_renamed
  = Read (resource w KSwitch) meta0 (mkState d_renamed [put]).
Proof.
  intros w put.
  apply (update_accepted w meta0 d_renamed KSwitch put (mkResponse 200 ""));
    reflexivity.
Defined.

(** ** Import *)

(** A string is cut at an occurrence of the separator. *)
Lemma cut_spec sep s before after :
  cut sep s = Some (before, after) → s = before +:+ String sep after.
Proof.
  revert before. induction s as [|c s IH]; intros before; simpl; [done|].
  destruct (Ascii.eqb_spec c sep) as [->|_].
  - by intros [= <- <-].
  - destruct (cut sep s) as [[b a]|]; [|done].
    intros [= <- <-]. simpl. by rewrite (IH b).
Qed.

(** X13.  The comma form of the QEMU importer, for any key: what stands
    before the first [','] becomes the identity and all that follows it the
    owning project, further separators included. *)
Theorem qemu_import_comma_form (node project : string)
    (attrs : gmap string value) (changed : gset string) :
  strings_Contains node "," = false →
  run resourceQemuImporter
      (to_import (node +:+ "," +:+ project) attrs changed)
  = (Done [imported project node attrs changed],
     mkState (imported project node attrs changed) []).
Proof.
  intros Hn. unfold resourceQemuImporter. exec.
  unfold to_import, imported, strings_Contains, strings_SplitN2.
  cbn [rd_id]. change ("," +:+ project) with (String "," project).
  rewrite !(cut_app _ _ _ Hn). exec. simpl. reflexivity.
Qed.

Lemma qemu_import_comma_form_witness :
  strings_Contains "n1" "," = false ∧
  final_id (run resourceQemuImporter (to_import "n1,p1/x,y" ∅ ∅)) = "n1" ∧
  GetString (st_d (run resourceQemuImporter (to_import "n1,p1/x,y" ∅ ∅)).2)
            "project_id" = "p1/x,y".
Proof.
  split; [reflexivity|].
  pose proof (qemu_import_comma_form "n1" "p1/x,y" ∅ ∅ eq_refl) as H.
  change ("n1" +:+ "," +:+ "p1/x,y") with "n1,p1/x,y" in H.
  rewrite H. split; reflexivity.
Defined.

Ltac import_cases :=
  exec; unfold to_import, strings_Contains, strings_SplitN2; cbn [rd_id];
  repeat match goal with
         | |- context [cut ?sep ?raw] =>
             let Hc := fresh "Hc" in
             destruct (cut sep raw) as [[? ?]|] eqn:Hc;
             [apply cut_spec in Hc|]
         end;
  exec; simpl;
  (split; [reflexivity|]).

(** X14.  What an importer does, for every kind and every key.  It sends
    nothing.  When it succeeds it hands back the one resource it was
    given, with [project_id] and the identity set and nothing else touched,
    and the key is the project and the identity joined by ['/'], or, for
    QEMU, the identity and the project joined by [','].  When it fails the
    resource is as it was, the error quotes the key, and the key has no
    ['/'] in it, nor, for QEMU, a [',']. *)
Theorem import_outcome (w : World) (k : kind) (raw : string)
    (attrs : gmap string value) (changed : gset string) :
  let r := run (Importer (resource w k)) (to_import raw attrs changed) in
  requests r = [] ∧
  match r.1 with
  | Done l =>
      ∃ project node,
        l = [st_d r.2] ∧
        st_d r.2 = imported project node attrs changed ∧
        (raw = project +:+ "/" +:+ node ∨
         (k = KQemu ∧ raw = node +:+ "," +:+ project))
  | Failed e =>
      st_d r.2 = to_import raw attrs changed ∧
      (∃ format, e = Errorf format [AQuoted raw]) ∧
      strings_Contains raw "/" = false ∧
      (k = KQemu → strings_Contains raw "," = false)
  end.
Proof.
  intros r. subst r. unfold requests.
  destruct k; pick;
    unfold resourceGns3CloudImporter, resourceGns3SwitchImporter,
      resourceGns3TemplateImporter, resourceGns3DockerImporter,
      resourceQemuImporter;
    import_cases.
  all: first
    [ eexists _, _; split; [reflexivity|]; split; [reflexivity|];
      first [by left | right; by split]
    | split; [reflexivity|]; split; [by eexists|]; split; [reflexivity|];
      first [done | intros [=]] ].
Qed.

(** ** Delete: the answers the kinds disagree on *)

(** X15.  What the Deletes make of the answers on which they differ from
    the template kind.  The Docker Delete does not look at the status: it
    clears the identity and returns nil whatever the controller answers.
    The cloud, switch and QEMU Deletes take a 404 for a failure: they
    return an error with the status code and keep the identity. *)
Theorem delete_departures (w : World) (meta : ProviderConfig)
    (d : ResourceData) (k : kind) (resp : Response) :
  let req := mkRequest "DELETE" (node_url meta d) None None in
  let r := run (Delete (resource w k) meta) d in
  url_error w (node_url meta d) = None →
  round_trip w [] req = inr resp →
  (k = KDocker → r = (Done (), mkState (cleared d) [req])) ∧
  (k = KCloud ∨ k = KSwitch ∨ k = KQemu → StatusCode resp = 404 →
   ∃ e, r = (Failed e, mkState d [req]) ∧ AInt 404 ∈ error_args e).
Proof.
  intros req r Hu Hr. subst r. split.
  - intros ->. pick. apply (docker_delete_outcome w meta d resp Hu Hr).
  - intros [-> | [-> | ->]] Hs; pick;
      [ rewrite (cloud_delete_outcome w meta d resp Hu Hr)
      | rewrite (switch_delete_outcome w meta d resp Hu Hr)
      | rewrite (qemu_delete_outcome w meta d resp Hu Hr) ];
      rewrite Hs; (case_decide; [lia|]);
      (eexists; split; [reflexivity|carries]).
Qed.

Lemma delete_departures_witness :
  let w := answering 404 "gone" in
  url_error w (node_url meta0 d_n1) = None ∧
  final_id (run (Delete (resource w KDocker) meta0) d_n1) = "" ∧
  ∃ e, returned_error (run (Delete (resource w KSwitch) meta0) d_n1) = Some e ∧
       AInt 404 ∈ error_args e.
Proof.
  intros w. split; [reflexivity|].
  destruct (delete_departures w meta0 d_n1 KDocker (mkResponse 404 "gone")
              eq_refl eq_refl) as [Hd _].
  destruct (delete_departures w meta0 d_n1 KSwitch (mkResponse 404 "gone")
              eq_refl eq_refl) as [_ Hs].
  destruct Hs as (e & He & Ha); [tauto | reflexivity |].
  split; [by rewrite Hd|]. exists e. split; [by rewrite He | exact Ha].
Defined.

(** ** The properties a Create posts *)

(** The entries come in some order, and there are none only of the empty
    map. *)
Lemma in_order_nil {A} before (m : gmap string A) :
  in_order before m = [] ↔ size m = 0%nat.
Proof.
  pose proof (merge_sort_Permutation (comes_before before) (map_to_list m))
    as Hp. fold (in_order before m) in Hp.
  apply Permutation_length in Hp. rewrite length_map_to_list in Hp.
  rewrite <- Hp. by destruct (in_order before m).
Qed.

Ltac body_fact P tac :=
  match goal with
  | |- context [Some (JObj ?m)] =>
      let T := eval cbv beta in (P m) in
      assert (HP : T);
      [ tac
      | let body := fresh "body" in set (body := m) in *; clearbody body ]
  end.

Ltac properties_leaf k :=
  first
    [ eexists _, _; split; [reflexivity|];
      eexists; split; [reflexivity|]; assumption
    | apply (first_request_then_read _ k _ (λ post, ∃ m, _));
      eexists; split; [reflexivity|]; assumption ].

(** Looking a member up behind a conditional assignment. *)
Lemma lookup_if_insert_ne (b : bool) key v (m : gmap string json) key' :
  key ≠ key' → (if b then <[key := v]> m else m) !! key' = m !! key'.
Proof. destruct b; intros; by simplify_map_eq. Qed.

Lemma lookup_if_insert (b : bool) key v (m : gmap string json) :
  (if b then <[key := v]> m else m) !! key = if b then Some v else m !! key.
Proof. destruct b; by simplify_map_eq. Qed.

Lemma lookup_if_insert2_ne (b : bool) k1 v1 k2 v2 (m : gmap string json) key' :
  k1 ≠ key' → k2 ≠ key' →
  (if b then <[k1 := v1]> (<[k2 := v2]> m) else m) !! key' = m !! key'.
Proof. destruct b; intros; by simplify_map_eq. Qed.

Lemma lookup_if_insert2_l (b : bool) k1 v1 k2 v2 (m : gmap string json) :
  (if b then <[k1 := v1]> (<[k2 := v2]> m) else m) !! k1
  = if b then Some v1 else m !! k1.
Proof. destruct b; by simplify_map_eq. Qed.

Lemma lookup_if_insert2_r (b : bool) k1 v1 k2 v2 (m : gmap string json) :
  k1 ≠ k2 →
  (if b then <[k1 := v1]> (<[k2 := v2]> m) else m) !! k2
  = if b then Some v2 else m !! k2.
Proof. destruct b; intros; by simplify_map_eq. Qed.

Ltac look_through :=
  repeat first
    [ rewrite lookup_if_insert_ne by done
    | rewrite lookup_if_insert2_ne by done
    | rewrite lookup_if_insert
    | rewrite lookup_if_insert2_l
    | rewrite lookup_if_insert2_r by done
    | progress look ].

Ltac by_cases :=
  repeat match goal with
         | |- context [String.eqb ?s ""] => destruct (String.eqb s "")
         | |- context [Z.eqb ?n 0] => destruct (Z.eqb n 0)
         | |- context [bool_decide ?P] => destruct (bool_decide P)
         end;
  cbn [negb].

(** X17.  The [properties] of the node a QEMU Create posts.  [compute_id]
    is ["local"] whatever the configuration says.  [cdrom_image] is always
    there, empty if it is not configured.  [console], [mac_address] and
    [hda_disk_image] are there when they are configured to something else
    than the zero value, and [hda_disk_interface] is ["virtio"] exactly
    when [hda_disk_image] is there. *)
Theorem qemu_create_properties (w : World) (meta : ProviderConfig)
    (d : ResourceData) :
  url_error w (create_url KQemu meta d) = None →
  ∃ post rest,
    requests (run (Create (resource w KQemu) meta) d) = post :: rest ∧
    ∃ m, req_body post = Some (JObj m) ∧
      m !! "compute_id" = Some (JStr "local") ∧
      properties_of m !! "cdrom_image"
      = Some (JStr (GetString d "cdrom_image")) ∧
      properties_of m !! "console"
      = (if Z.eqb (GetInt d "console") 0 then None
         else Some (JNum (GetInt d "console"))) ∧
      properties_of m !! "mac_address"
      = (if String.eqb (GetString d "mac_address") "" then None
         else Some (JStr (GetString d "mac_address"))) ∧
      properties_of m !! "hda_disk_image"
      = (if String.eqb (GetString d "hda_disk_image") "" then None
         else Some (JStr (GetString d "hda_disk_image"))) ∧
      properties_of m !! "hda_disk_interface"
      = (if String.eqb (GetString d "hda_disk_image") "" then None
         else Some (JStr "virtio")).
Proof.
  intros Hu. unfold requests, create_url in *.
  apply (wp_run _ (λ _ s',
           ∃ post rest, st_trace s' = post :: rest ∧
           ∃ m, req_body post = Some (JObj m) ∧
             m !! "compute_id" = Some (JStr "local") ∧
             properties_of m !! "cdrom_image"
             = Some (JStr (GetString d "cdrom_image")) ∧
             properties_of m !! "console"
             = (if Z.eqb (GetInt d "console") 0 then None
                else Some (JNum (GetInt d "console"))) ∧
             properties_of m !! "mac_address"
             = (if String.eqb (GetString d "mac_address") "" then None
                else Some (JStr (GetString d "mac_address"))) ∧
             properties_of m !! "hda_disk_image"
             = (if String.eqb (GetString d "hda_disk_image") "" then None
                else Some (JStr (GetString d "hda_disk_image"))) ∧
             properties_of m !! "hda_disk_interface"
             = (if String.eqb (GetString d "hda_disk_image") "" then None
                else Some (JStr "virtio")))).
  pick. unfold resourceGns3QemuCreate. until_post.
  unfold GetOkString, GetOkInt in *; simplify_eq.
  body_fact
    (λ m : gmap string json,
       m !! "compute_id" = Some (JStr "local") ∧
       properties_of m !! "cdrom_image"
       = Some (JStr (GetString d "cdrom_image")) ∧
       properties_of m !! "console"
       = (if Z.eqb (GetInt d "console") 0 then None
          else Some (JNum (GetInt d "console"))) ∧
       properties_of m !! "mac_address"
       = (if String.eqb (GetString d "mac_address") "" then None
          else Some (JStr (GetString d "mac_address"))) ∧
       properties_of m !! "hda_disk_image"
       = (if String.eqb (GetString d "hda_disk_image") "" then None
          else Some (JStr (GetString d "hda_disk_image"))) ∧
       properties_of m !! "hda_disk_interface"
       = (if String.eqb (GetString d "hda_disk_image") "" then None
          else Some (JStr "virtio")))
    ltac:(unfold properties_of, GetOkString, GetOkInt;
          cbv beta iota zeta; repeat split; look;
          cbn [from_option id members]; look_through; by_cases;
          reflexivity).
  repeat first [rewrite Hu | wp_step]; properties_leaf KQemu.
Qed.

Lemma qemu_create_properties_witness :
  url_error (answering 201 "") (create_url KQemu meta0 d_n1) = None ∧
  ∃ post rest,
    requests (run (Create (resource (answering 201 "") KQemu) meta0) d_n1)
    = post :: rest ∧
    ∃ m, req_body post = Some (JObj m) ∧
         properties_of m !! "cdrom_image" = Some (JStr "") ∧
         properties_of m !! "hda_disk_interface" = None.
Proof.
  split; [reflexivity|].
  destruct (qemu_create_properties (answering 201 "") meta0 d_n1 eq_refl)
    as (post & rest & Ht & m & Hb & _ & Hc & _ & _ & _ & Hi).
  exists post, rest. split; [exact Ht|]. exists m.
  split; [exact Hb|]. split; [exact Hc | exact Hi].
Defined.

(** X18.  The [properties] of the node a Docker Create posts.  [image] is
    the configured image and [console_type] is always ["none"].
    [extra_volumes] and [start_command] are there when they are configured
    and not empty, and are left out otherwise; so is [environment], which
    is one string of the [key=value] pairs of the map, separated by
    commas, in some order. *)
Theorem docker_create_properties (w : World) (meta : ProviderConfig)
    (d : ResourceData) :
  url_error w (create_url KDocker meta d) = None →
  ∃ post rest,
    requests (run (Create (resource w KDocker) meta) d) = post :: rest ∧
    ∃ m, req_body post = Some (JObj m) ∧
      properties_of m !! "image" = Some (JStr (GetString d "image")) ∧
      properties_of m !! "console_type" = Some (JStr "none") ∧
      properties_of m !! "extra_volumes"
      = match GetList d "extra_volumes" with
        | [] => None
        | l => Some (JArr (JStr <$> l))
        end ∧
      properties_of m !! "start_command"
      = (if String.eqb (GetString d "start_command") "" then None
         else Some (JStr (GetString d "start_command"))) ∧
      ∃ l, l ≡ₚ map_to_list (GetMap d "environment") ∧
           properties_of m !! "environment"
           = match l with
             | [] => None
             | _ => Some (JStr (strings_Join (environment_pairs l) ","))
             end.
Proof.
  intros Hu. unfold requests, create_url in *.
  apply (wp_run _ (λ _ s',
           ∃ post rest, st_trace s' = post :: rest ∧
           ∃ m, req_body post = Some (JObj m) ∧
             properties_of m !! "image" = Some (JStr (GetString d "image")) ∧
             properties_of m !! "console_type" = Some (JStr "none") ∧
             properties_of m !! "extra_volumes"
             = match GetList d "extra_volumes" with
               | [] => None
               | l => Some (JArr (JStr <$> l))
               end ∧
             properties_of m !! "start_command"
             = (if String.eqb (GetString d "start_command") "" then None
                else Some (JStr (GetString d "start_command"))) ∧
             ∃ l, l ≡ₚ map_to_list (GetMap d "environment") ∧
                  properties_of m !! "environment"
                  = match l with
                    | [] => None
                    | _ => Some (JStr (strings_Join (environment_pairs l)
                                                    ","))
                    end)).
  pick. unfold resourceGns3DockerCreate, marshal_DockerNode,
    marshal_DockerProperties. until_post.
  body_fact
    (λ m : gmap string json,
       properties_of m !! "image" = Some (JStr (GetString d "image")) ∧
       properties_of m !! "console_type" = Some (JStr "none") ∧
       properties_of m !! "extra_volumes"
       = match GetList d "extra_volumes" with
         | [] => None
         | l => Some (JArr (JStr <$> l))
         end ∧
       properties_of m !! "start_command"
       = (if String.eqb (GetString d "start_command") "" then None
          else Some (JStr (GetString d "start_command"))) ∧
       ∃ l, l ≡ₚ map_to_list (GetMap d "environment") ∧
            properties_of m !! "environment"
            = match l with
              | [] => None
              | _ => Some (JStr (strings_Join (environment_pairs l) ","))
              end)
    ltac:(unfold properties_of, GetOkString, GetOkMap, GetOkList,
            format_environment;
          cbv beta iota zeta;
          cbn [Docker_Name Docker_NodeType Docker_ComputeID Docker_Properties
               Docker_NodeID Docker_X Docker_Y Image Environment ConsoleType
               ExtraVolumes StartCommand];
          repeat split;
          [> look; cbn [from_option id members]; look_through;
             try (destruct (GetList d "extra_volumes");
                  rewrite ?bool_decide_eq_true_2 by done;
                  rewrite ?bool_decide_eq_false_2 by done);
             by_cases; reflexivity ..
           | exists (in_order (range_before w) (GetMap d "environment"));
             split; [apply merge_sort_Permutation|];
             look; cbn [from_option id members]; look_through;
             destruct (in_order (range_before w) (GetMap d "environment"))
               eqn:Ho;
             [ rewrite bool_decide_eq_true_2 by (by apply in_order_nil in Ho)
             | rewrite bool_decide_eq_false_2
                 by (rewrite <- (in_order_nil (range_before w)), Ho; done) ];
             reflexivity ]).
  repeat first [rewrite Hu | wp_step]; properties_leaf KDocker.
Qed.

Lemma docker_create_properties_witness :
  url_error (answering 201 "") (create_url KDocker meta0 d_container) = None ∧
  ∃ post rest,
    requests (run (Create (resource (answering 201 "") KDocker) meta0)
                  d_container) = post :: rest ∧
    ∃ m, req_body post = Some (JObj m) ∧
         properties_of m !! "image" = Some (JStr "alpine") ∧
         properties_of m !! "start_command" = None.
Proof.
  split; [reflexivity|].
  destruct (docker_create_properties (answering 201 "") meta0 d_container
              eq_refl)
    as (post & rest & Ht & m & Hb & Hi & _ & _ & Hc & _).
  exists post, rest. split; [exact Ht|]. exists m.
  split; [exact Hb|]. split; [exact Hi | exact Hc].
Defined.

(** ** The Docker Update always sends *)

(** X19.  The Docker Update has no early return: whenever the request can
    be built it sends a PUT to the URL of the node.  If the environment has
    changed the body holds it and nothing else, as one string of the
    [key=value] pairs of the map, separated by commas, in some order;
    otherwise the body is the empty object, also when nothing at all has
    changed. *)
Theorem docker_update_always_sends (w : World) (meta : ProviderConfig)
    (d : ResourceData) :
  url_error w (node_url meta d) = None →
  ∃ put rest l,
    requests (run (Update (resource w KDocker) meta) d) = put :: rest ∧
    l ≡ₚ map_to_list (GetMap d "environment") ∧
    put = mkRequest "PUT" (node_url meta d) (Some "application/json")
            (Some (JObj (if HasChange d "environment"
                         then {[ "environment" :=
                                   JStr (strings_Join (environment_pairs l)
                                                      ",") ]}
                         else ∅))).
Proof.
  intros Hu.
  cut (∃ put rest,
         requests (run (Update (resource w KDocker) meta) d) = put :: rest ∧
         put = mkRequest "PUT" (node_url meta d) (Some "application/json")
                 (Some (JObj (if HasChange d "environment"
                              then {[ "environment" :=
                                        JStr (format_environment
                                                (range_before w)
                                                (GetMap d "environment")) ]}
                              else ∅)))).
  { intros (put & rest & Ht & Hp).
    exists put, rest, (in_order (range_before w) (GetMap d "environment")).
    split; [exact Ht|]. split; [apply merge_sort_Permutation | exact Hp]. }
  unfold requests, node_url in *.
  apply (wp_run _ (λ _ s',
           ∃ put rest, st_trace s' = put :: rest ∧
             put = mkRequest "PUT" (node_url meta d) (Some "application/json")
                     (Some (JObj (if HasChange d "environment"
                                  then {[ "environment" :=
                                            JStr (format_environment
                                                    (range_before w)
                                                    (GetMap d "environment")) ]}
                                  else ∅))))).
  pick. unfold resourceGns3DockerUpdate, assign_if.
  repeat first [rewrite Hu | wp_step].
  all: first
         [ eexists _, _; split; [reflexivity|];
           unfold node_url; by destruct (HasChange d "environment")
         | apply (first_request_then_read _ KDocker _ (λ put, put = _));
           unfold node_url; by destruct (HasChange d "environment") ].
Qed.

Lemma docker_update_always_sends_witness :
  url_error (answering 200 "") (node_url meta0 d_n1) = None ∧
  ∃ put rest,
    requests (run (Update (resource (answering 200 "") KDocker) meta0) d_n1)
    = put :: rest ∧
    req_method put = "PUT" ∧ req_body put = Some (JObj ∅).
Proof.
  split; [reflexivity|].
  destruct (docker_update_always_sends (answering 200 "") meta0 d_n1 eq_refl)
    as (put & rest & l & Ht & _ & Hp).
  exists put, rest. split; [exact Ht|]. rewrite Hp. split; reflexivity.
Defined.

(** ** Read: the name on the controller *)

(** X20.  What a template or QEMU Read makes of the [name] in a 200
    answer.  A string replaces the configured name; a missing or null name
    resets the attribute; a member of any other type is refused by [d.Set],
    whose error the Read drops, and the name stays as it was.  In each case
    the Read returns nil. *)
Theorem read_takes_name (w : World) (meta : ProviderConfig)
    (d : ResourceData) (k : kind) (resp : Response)
    (node : gmap string json) :
  k = KTemplate ∨ k = KQemu →
  url_error w (node_url meta d) = None →
  round_trip w [] (mkRequest "GET" (node_url meta d) None None) = inr resp →
  StatusCode resp = StatusOK →
  json_parse w (Body resp) = Some (JObj node) →
  let r := run (Read (resource w k) meta) d in
  returned_error r = None ∧
  GetString (st_d r.2) "name"
  = match node !! "name" with
    | Some (JStr s) => s
    | None | Some JNull => ""
    | Some _ => GetString d "name"
    end.
Proof.
  intros Hk Hu Hr Hs Hp r. subst r.
  unfold returned_error, node_url in *.
  apply (wp_run _ (λ o s',
           match o with Done _ => None | Failed e => Some e end = None ∧
           GetString (st_d s') "name"
           = match node !! "name" with
             | Some (JStr s) => s
             | None | Some JNull => ""
             | Some _ => GetString d "name"
             end)).
  assert (H4 : StatusCode resp ≠ StatusNotFound)
    by (rewrite Hs; by vm_compute).
  destruct Hk as [-> | ->]; pick;
    [unfold resourceGns3TemplateRead | unfold resourceGns3QemuRead].
  all: repeat first
         [ rewrite Hu | rewrite Hr | rewrite Hp
         | progress cbn [unmarshal_map]
         | lazymatch goal with
           | |- wp (mbind _ (Set_string_member _ _)) _ _ => fail
           | |- wp (if decide _ then _ else _) _ _ =>
               let Hd := fresh "Hd" in
               apply wp_if_decide; intros Hd; try (exfalso; tauto)
           | |- _ => wp_step
           end ].
  all: apply wp_bind.
  all: assert (Hname :
         wp (Set_string_member "name" (node !! "name"))
            (λ o s', ∃ v, o = Done v ∧
               GetString (st_d s') "name"
               = match node !! "name" with
                 | Some (JStr s) => s
                 | None | Some JNull => ""
                 | Some _ => GetString d "name"
                 end)
            (mkState d [mkRequest "GET"
                          (Host meta +:+ "/v2/projects/" +:+
                           GetString d "project_id" +:+ "/nodes/" +:+ rd_id d)
                          None None]))
    by (unfold wp, Set_string_member, Set_, Set_nil, GetString;
        destruct (node !! "name") as [[]|]; cbn;
        eexists; (split; [reflexivity|]); by simplify_map_eq).
  all: eapply wp_wand; [exact Hname|]; clear Hname;
    intros o s1 (v & -> & Hn); cbv beta iota.
  - apply (wp_writes_only {[ "x"; "y" ]}); [solve [writes_go]|].
    intros ? s2 _ _ _ Ha. split; [done|].
    unfold GetString in *. by rewrite Ha by set_solver.
  - apply (wp_writes_only
             {[ "x"; "y"; "adapter_type"; "adapters"; "bios_image";
                "cdrom_image"; "cpus" ]}); [solve [writes_go]|].
    intros ? s2 _ _ _ Ha. split; [done|].
    unfold GetString in *. by rewrite Ha by set_solver.
Qed.

Lemma read_takes_name_witness :
  let w := answering_json 200 (JObj {[ "x" := JNum 5 ]}) in
  let d := mkResourceData "n1" {[ "project_id" := VString "p1";
                                  "name" := VString "r1" ]} ∅ in
  url_error w (node_url meta0 d) = None ∧
  GetString d "name" = "r1" ∧
  GetString (st_d (run (Read (resource w KTemplate) meta0) d).2) "name" = "".
Proof.
  intros w d. split; [reflexivity|]. split; [reflexivity|].
  destruct (read_takes_name w meta0 d KTemplate (mkResponse 200 "{...}")
              {[ "x" := JNum 5 ]}) as [_ Hn];
    [by left | reflexivity | reflexivity | reflexivity | reflexivity |].
  exact Hn.
Defined.

Lemma delete_outcome_witness :
  let r := run (Delete (resource (answering 204 "") KCloud) meta0) d_n1 in
  returned_error r = None ∧ st_d r.2 = cleared d_n1 ∧ requests r ≠ [].
Proof.
  intros r.
  destruct (delete_outcome (answering 204 "") meta0 d_n1 KCloud)
    as (_ & Hok & _).
  split; [reflexivity|]. apply Hok. reflexivity.
Defined.
